(** * RTP / RTSP video streaming: packet codec and session control

    A shallow embedding of [rtp_packet.py] (the RTP packet codec and the
    per-stream packetizer) and of the control plane of [rtsp_server.py]
    (request parsing, the SETUP / PLAY / PAUSE / TEARDOWN handlers, the
    streaming loop and the client session object) and of the protocol side
    of [rtsp_client.py] (requests, replies, port search and the receive
    loop), with the properties of the specification stated over them.

    Conventions.
    - A Python [int] is a [Z]; shifts and bitwise operators are [Z.shiftl],
      [Z.shiftr], [Z.lor] and [Z.land], which agree with Python on negative
      numbers as well.
    - A Python [bytes] value is a [list byte].
    - A Python [str] is a [string]; the model covers the code points below
      256, which is where the protocol text lives.
    - A call that may raise returns a [result]; a method that mutates
      [self] takes the object and returns the updated one.
    - Wall-clock readings, the file system, the [VideoStream] constructor,
      socket creation on the server and the ports a client socket can be
      bound to are inputs of the functions that use them. *)

From Stdlib Require Import ZArith List String Ascii Bool Lia.
From Stdlib Require Import Strings.Byte.
From Stdlib Require Import DecimalString DecimalPos.
Import ListNotations.

Local Open Scope Z_scope.

(** ** Exceptions and results *)

Inductive exn : Type :=
| ValueError (msg : string)
| StructError
| OSError.

Inductive result (A : Type) : Type :=
| Ok (a : A)
| Raise (e : exn).

Arguments Ok {A} a.
Arguments Raise {A} e.

Definition bind {A B : Type} (r : result A) (k : A -> result B) : result B :=
  match r with
  | Ok a => k a
  | Raise e => Raise e
  end.

Notation "x <- r ;; k" := (bind r (fun x => k))
  (at level 61, r at next level, right associativity).

(** ** Bytes and fixed-width big-endian integers ([struct], format [!BBHII]) *)

Definition bytes : Type := list byte.

(** [len(b)] *)
Definition len {A : Type} (l : list A) : Z := Z.of_nat (List.length l).

Definition Z_of_byte (b : byte) : Z := Z.of_N (Byte.to_N b).

Definition byte_of_Z (z : Z) : byte :=
  match Byte.of_N (Z.to_N (z mod 256)) with
  | Some b => b
  | None => x00
  end.

(** The [n] low-order bytes of [v], most significant first. *)
Fixpoint be_bytes (n : nat) (v : Z) : bytes :=
  match n with
  | O => []
  | S k => byte_of_Z (Z.shiftr v (8 * Z.of_nat k)) :: be_bytes k v
  end.

(** The unsigned integer a big-endian byte string denotes. *)
Definition be_value (bs : bytes) : Z :=
  fold_left (fun acc b => acc * 256 + Z_of_byte b) bs 0.

(** One unsigned item of [struct.pack]: [struct.error] outside the range of
    the format code. *)
Definition pack_uint (n : nat) (v : Z) : result bytes :=
  if (0 <=? v) && (v <? 2 ^ (8 * Z.of_nat n))
  then Ok (be_bytes n v)
  else Raise StructError.

(** [struct.pack('!BBHII', b1, b2, h, i1, i2)] *)
Definition struct_pack_BBHII (b1 b2 h i1 i2 : Z) : result bytes :=
  x1 <- pack_uint 1 b1 ;;
  x2 <- pack_uint 1 b2 ;;
  x3 <- pack_uint 2 h ;;
  x4 <- pack_uint 4 i1 ;;
  x5 <- pack_uint 4 i2 ;;
  Ok (x1 ++ x2 ++ x3 ++ x4 ++ x5).

(** [struct.unpack('!BBHII', buf)]: [struct.error] unless [buf] has exactly
    twelve bytes. *)
Definition struct_unpack_BBHII (buf : bytes) : result (Z * Z * Z * Z * Z) :=
  match buf with
  | [a0; a1; a2; a3; a4; a5; a6; a7; a8; a9; a10; a11] =>
      Ok (Z_of_byte a0, Z_of_byte a1,
          be_value [a2; a3],
          be_value [a4; a5; a6; a7],
          be_value [a8; a9; a10; a11])
  | _ => Raise StructError
  end.

(** ** [class RTPPacket] *)

Module RTPPacket.

Definition HEADER_SIZE : Z := 12.

Record t : Type := mk {
  version : Z;
  padding : Z;
  extension : Z;
  cc : Z;
  marker : Z;
  pt : Z;
  seq_num : Z;
  timestamp : Z;
  ssrc : Z;
  payload : bytes
}.

(** [RTPPacket()] with the defaults of [__init__]. *)
Definition default : t := mk 2 0 0 0 0 26 0 0 0 [].

(** Attribute assignments, [self.f = v]. *)
Definition set_version (v : Z) (p : t) : t :=
  mk v (padding p) (extension p) (cc p) (marker p) (pt p)
     (seq_num p) (timestamp p) (ssrc p) (payload p).
Definition set_padding (v : Z) (p : t) : t :=
  mk (version p) v (extension p) (cc p) (marker p) (pt p)
     (seq_num p) (timestamp p) (ssrc p) (payload p).
Definition set_extension (v : Z) (p : t) : t :=
  mk (version p) (padding p) v (cc p) (marker p) (pt p)
     (seq_num p) (timestamp p) (ssrc p) (payload p).
Definition set_cc (v : Z) (p : t) : t :=
  mk (version p) (padding p) (extension p) v (marker p) (pt p)
     (seq_num p) (timestamp p) (ssrc p) (payload p).
Definition set_marker (v : Z) (p : t) : t :=
  mk (version p) (padding p) (extension p) (cc p) v (pt p)
     (seq_num p) (timestamp p) (ssrc p) (payload p).
Definition set_pt (v : Z) (p : t) : t :=
  mk (version p) (padding p) (extension p) (cc p) (marker p) v
     (seq_num p) (timestamp p) (ssrc p) (payload p).
Definition set_seq_num (v : Z) (p : t) : t :=
  mk (version p) (padding p) (extension p) (cc p) (marker p) (pt p)
     v (timestamp p) (ssrc p) (payload p).
Definition set_timestamp (v : Z) (p : t) : t :=
  mk (version p) (padding p) (extension p) (cc p) (marker p) (pt p)
     (seq_num p) v (ssrc p) (payload p).
Definition set_ssrc (v : Z) (p : t) : t :=
  mk (version p) (padding p) (extension p) (cc p) (marker p) (pt p)
     (seq_num p) (timestamp p) v (payload p).
Definition set_payload (v : bytes) (p : t) : t :=
  mk (version p) (padding p) (extension p) (cc p) (marker p) (pt p)
     (seq_num p) (timestamp p) (ssrc p) v.

Definition too_short : exn := ValueError "Packet too short for RTP header".

(** First header byte, V(2) P(1) X(1) CC(4). *)
Definition byte1 (p : t) : Z :=
  Z.lor (Z.lor (Z.lor (Z.shiftl (version p) 6) (Z.shiftl (padding p) 5))
               (Z.shiftl (extension p) 4))
        (cc p).

(** Second header byte, M(1) PT(7). *)
Definition byte2 (p : t) : Z :=
  Z.lor (Z.shiftl (marker p) 7) (pt p).

(** [RTPPacket.encode] *)
Definition encode (p : t) : result bytes :=
  header <- struct_pack_BBHII (byte1 p) (byte2 p)
                              (seq_num p) (timestamp p) (ssrc p) ;;
  Ok (header ++ payload p).

(** [RTPPacket.decode], the instance method: the object after the call and
    the outcome of the call. *)
Definition decode (self : t) (packet_data : bytes) : t * result unit :=
  if len packet_data <? HEADER_SIZE then (self, Raise too_short)
  else
    match struct_unpack_BBHII (firstn (Z.to_nat HEADER_SIZE) packet_data) with
    | Raise e => (self, Raise e)
    | Ok (b1, b2, seq, ts, src) =>
        let self := set_version (Z.land (Z.shiftr b1 6) 3) self in
        let self := set_padding (Z.land (Z.shiftr b1 5) 1) self in
        let self := set_extension (Z.land (Z.shiftr b1 4) 1) self in
        let self := set_cc (Z.land b1 15) self in
        let self := set_marker (Z.land (Z.shiftr b2 7) 1) self in
        let self := set_pt (Z.land b2 127) self in
        let self := set_seq_num seq self in
        let self := set_timestamp ts self in
        let self := set_ssrc src self in
        let self := set_payload (skipn (Z.to_nat HEADER_SIZE) packet_data) self in
        (self, Ok tt)
    end.

(** [RTPPacket.decode_packet], the class method. *)
Definition decode_packet (packet_data : bytes) : result t :=
  if len packet_data <? HEADER_SIZE then Raise too_short
  else
    match struct_unpack_BBHII (firstn (Z.to_nat HEADER_SIZE) packet_data) with
    | Raise e => Raise e
    | Ok (b1, b2, seq, ts, src) =>
        let version := Z.land (Z.shiftr b1 6) 3 in
        let padding := Z.land (Z.shiftr b1 5) 1 in
        let extension := Z.land (Z.shiftr b1 4) 1 in
        let cc := Z.land b1 15 in
        let marker := Z.land (Z.shiftr b2 7) 1 in
        let pt := Z.land b2 127 in
        let payload := skipn (Z.to_nat HEADER_SIZE) packet_data in
        Ok (mk version padding extension cc marker pt seq ts src payload)
    end.

(** The field ranges of the RTP header layout. *)
Definition in_range (p : t) : Prop :=
  0 <= version p < 4 /\ 0 <= padding p < 2 /\ 0 <= extension p < 2 /\
  0 <= cc p < 16 /\ 0 <= marker p < 2 /\ 0 <= pt p < 128 /\
  0 <= seq_num p < 65536 /\ 0 <= timestamp p < 2 ^ 32 /\
  0 <= ssrc p < 2 ^ 32.

End RTPPacket.

(** ** [class RTPVideoStream] *)

Module RTPVideoStream.

Record t : Type := mk {
  ssrc : Z;
  seq_num : Z;
  timestamp_base : Z
}.

(** [RTPVideoStream(ssrc)]: [now] is [int(time.time())] and [now90k] is
    [int(time.time() * 90000)] at construction; a missing or zero [ssrc]
    is replaced by the clock reading ([ssrc or int(time.time())]). *)
Definition init (ssrc : option Z) (now now90k : Z) : t :=
  mk (match ssrc with
      | Some v => if v =? 0 then now else v
      | None => now
      end)
     0 now90k.

(** [RTPVideoStream.create_packet]; [now90k] is [int(time.time() * 90000)]
    at the call. *)
Definition create_packet (self : t) (frame_data : bytes)
           (is_last_fragment : bool) (now90k : Z) : t * RTPPacket.t :=
  let timestamp := timestamp_base self + now90k in
  let packet :=
    RTPPacket.mk 2 0 0 0 (if is_last_fragment then 1 else 0) 26
                 (seq_num self) timestamp (ssrc self) frame_data in
  let self := mk (ssrc self) ((seq_num self + 1) mod 65536)
                 (timestamp_base self) in
  (self, packet).

(** One [create_packet] call per element of [calls], in order, on the same
    stream object. *)
Fixpoint emit (self : t) (calls : list (bytes * bool * Z))
  : t * list RTPPacket.t :=
  match calls with
  | [] => (self, [])
  | (frame_data, is_last_fragment, now90k) :: rest =>
      let '(self1, packet) :=
        create_packet self frame_data is_last_fragment now90k in
      let '(self2, packets) := emit self1 rest in
      (self2, packet :: packets)
  end.

(** The dictionary returned by [get_stats]. *)
Record Stats : Type := mkStats {
  packets_sent : Z;
  stats_ssrc : Z;
  current_timestamp : Z
}.

(** [RTPVideoStream.get_stats]; [now90k] is [int(time.time() * 90000)] at
    the call. *)
Definition get_stats (self : t) (now90k : Z) : Stats :=
  mkStats (seq_num self) (ssrc self) (timestamp_base self + now90k).

End RTPVideoStream.

(** ** Python string operations used by the server *)

Local Open Scope string_scope.
Local Open Scope Z_scope.

Definition code_point (c : ascii) : Z := Z.of_N (N_of_ascii c).

(** [c.isspace()] on the code points below 256: tab to carriage return,
    the four separators 0x1c..0x1f, space, NEL and the no-break space. *)
Definition is_space (c : ascii) : bool :=
  let n := code_point c in
  ((9 <=? n) && (n <=? 13)) || ((28 <=? n) && (n <=? 32)) ||
  (n =? 133) || (n =? 160).

(** [s.startswith(p)] *)
Fixpoint startswith (p s : string) : bool :=
  match p, s with
  | EmptyString, _ => true
  | String _ _, EmptyString => false
  | String a p', String b s' => Ascii.eqb a b && startswith p' s'
  end.

(** [s.endswith(p)] *)
Fixpoint endswith (p s : string) : bool :=
  match s with
  | EmptyString => String.eqb p EmptyString
  | String _ s' => String.eqb p s || endswith p s'
  end.

(** [sub in s] *)
Fixpoint contains (sub s : string) : bool :=
  match s with
  | EmptyString => startswith sub EmptyString
  | String _ s' => startswith sub s || contains sub s'
  end.

(** [s.lstrip()], [s.rstrip()], [s.strip()] *)
Fixpoint lstrip (s : string) : string :=
  match s with
  | EmptyString => EmptyString
  | String c s' => if is_space c then lstrip s' else s
  end.

Fixpoint rstrip (s : string) : string :=
  match s with
  | EmptyString => EmptyString
  | String c s' =>
      match rstrip s' with
      | EmptyString => if is_space c then EmptyString else String c EmptyString
      | r => String c r
      end
  end.

Definition strip (s : string) : string := rstrip (lstrip s).

(** [s.split(sep)] for a non-empty separator: the text up to the first
    occurrence of [sep], and the pieces after it.  [skip] counts the
    characters of an occurrence that are still to be passed over. *)
Fixpoint split_from (sep : string) (skip : nat) (s : string)
  : string * list string :=
  match s with
  | EmptyString => (EmptyString, [])
  | String c s' =>
      match skip with
      | S k => split_from sep k s'
      | O =>
          if startswith sep s
          then let '(piece, pieces) :=
                 split_from sep (String.length sep - 1) s' in
               (EmptyString, piece :: pieces)
          else let '(piece, pieces) := split_from sep O s' in
               (String c piece, pieces)
      end
  end.

Definition split (sep s : string) : list string :=
  let '(piece, pieces) := split_from sep O s in piece :: pieces.

(** [s.split()]: the maximal runs of non-whitespace characters. *)
Definition push_token (tok : string) (toks : list string) : list string :=
  match tok with
  | EmptyString => toks
  | _ => tok :: toks
  end.

Fixpoint split_ws_from (s : string) : string * list string :=
  match s with
  | EmptyString => (EmptyString, [])
  | String c s' =>
      let '(tok, toks) := split_ws_from s' in
      if is_space c then (EmptyString, push_token tok toks)
      else (String c tok, toks)
  end.

Definition split_ws (s : string) : list string :=
  let '(tok, toks) := split_ws_from s in push_token tok toks.

(** [s.lower()] on the code points below 256. *)
Definition lower_char (c : ascii) : ascii :=
  let n := code_point c in
  if ((65 <=? n) && (n <=? 90)) ||
     ((192 <=? n) && (n <=? 222) && negb (n =? 215))
  then ascii_of_N (Z.to_N (n + 32))
  else c.

Fixpoint lower (s : string) : string :=
  match s with
  | EmptyString => EmptyString
  | String c s' => String (lower_char c) (lower s')
  end.

(** [str(n)] for an [int]. *)
Definition str_of_Z (n : Z) : string := NilZero.string_of_int (Z.to_int n).

Arguments str_of_Z : simpl never.

(** [str(x)] for a value that is [None] or an [int]. *)
Definition str_of_opt (x : option Z) : string :=
  match x with
  | None => "None"
  | Some n => str_of_Z n
  end.

Arguments str_of_opt : simpl never.

Definition digit_value (c : ascii) : option Z :=
  let n := code_point c in
  if (48 <=? n) && (n <=? 57) then Some (n - 48) else None.

(** The digits of an [int] literal: decimal digits, with single
    underscores allowed between digits. *)
Fixpoint int_digits (s : string) (acc : Z) (after_digit : bool) : option Z :=
  match s with
  | EmptyString => if after_digit then Some acc else None
  | String c s' =>
      match digit_value c with
      | Some d => int_digits s' (acc * 10 + d) true
      | None =>
          if Ascii.eqb c "_" && after_digit then int_digits s' acc false
          else None
      end
  end.

Definition invalid_literal : exn :=
  ValueError "invalid literal for int() with base 10".

(** The whitespace [int()] skips around a literal, on the code points
    below 256: tab to carriage return and space, and beyond ASCII NEL and
    the no-break space.  The separators 0x1c..0x1f, which [str.strip]
    removes, are not among them. *)
Definition is_int_space (c : ascii) : bool :=
  let n := code_point c in
  ((9 <=? n) && (n <=? 13)) || (n =? 32) || (n =? 133) || (n =? 160).

Fixpoint int_lstrip (s : string) : string :=
  match s with
  | EmptyString => EmptyString
  | String c s' => if is_int_space c then int_lstrip s' else s
  end.

Fixpoint int_rstrip (s : string) : string :=
  match s with
  | EmptyString => EmptyString
  | String c s' =>
      match int_rstrip s' with
      | EmptyString =>
          if is_int_space c then EmptyString else String c EmptyString
      | r => String c r
      end
  end.

Definition int_strip (s : string) : string := int_rstrip (int_lstrip s).

(** Every character of [s] is whitespace that [int()] skips. *)
Fixpoint all_int_space (s : string) : bool :=
  match s with
  | EmptyString => true
  | String c s' => is_int_space c && all_int_space s'
  end.

(** [int(s)] for a [str]: the whitespace around the literal is skipped,
    then come an optional sign and the digits; anything else is a
    [ValueError].  (The interpreter's limit on the number of digits is not
    modelled.) *)
Definition py_int (s : string) : result Z :=
  let body (t : string) : option Z :=
    match t with
    | String "-" t' => option_map Z.opp (int_digits t' 0 false)
    | String "+" t' => int_digits t' 0 false
    | _ => int_digits t 0 false
    end in
  match body (int_strip s) with
  | Some n => Ok n
  | None => Raise invalid_literal
  end.

(** [os.path.join(a, b)] on a POSIX system. *)
Definition os_path_join (a b : string) : string :=
  if startswith "/" b then b
  else if String.eqb a EmptyString || endswith "/" a then a ++ b
  else a ++ "/" ++ b.

(** [s.encode()], the UTF-8 bytes of a [str], on the code points below
    256: one byte below 128, two bytes from there on. *)
Definition utf8_encode_char (c : ascii) : bytes :=
  let n := code_point c in
  if n <? 128 then [byte_of_Z n]
  else [byte_of_Z (Z.lor 192 (Z.shiftr n 6));
        byte_of_Z (Z.lor 128 (Z.land n 63))].

Fixpoint utf8_encode (s : string) : bytes :=
  match s with
  | EmptyString => []
  | String c s' => (utf8_encode_char c ++ utf8_encode s')%list
  end.

(** [b.decode('utf-8')] where the result has code points below 256 only:
    a byte below 128 stands for itself, and the lead bytes 0xc2 and 0xc3
    with a continuation byte give the code points from 128 to 255.  The
    result is [None] for anything else, which is either ill-formed (a
    [UnicodeDecodeError]) or text with a character outside the model. *)
Fixpoint utf8_decode (b : bytes) : option string :=
  match b with
  | [] => Some EmptyString
  | x :: rest =>
      let n := Z_of_byte x in
      if n <? 128
      then option_map (String (ascii_of_N (Z.to_N n))) (utf8_decode rest)
      else if (n =? 194) || (n =? 195)
      then
        match rest with
        | y :: rest' =>
            let m := Z_of_byte y in
            if (128 <=? m) && (m <? 192)
            then
              option_map
                (String (ascii_of_N
                           (Z.to_N (Z.lor (Z.shiftl (Z.land n 31) 6)
                                          (Z.land m 63)))))
                (utf8_decode rest')
            else None
        | [] => None
        end
      else None
  end.

(** [l[i]] used where the code has established that the index exists. *)
Definition item (l : list string) (i : nat) : string := nth i l EmptyString.

Definition CRLF : string := String "013" (String "010" EmptyString).
Definition LF : string := String "010" EmptyString.
Definition CR : string := String "013" EmptyString.

(** ** [class ClientSession] *)

Inductive State : Type := INIT | READY | PLAYING.

(** Modelled from the spec: the [VideoStream] class, the frame source
    bound by SETUP ([nextFrame], [reset], [close]), which is imported from
    a module that is not among these sources.  The control plane only
    constructs it and closes it: the model keeps the path it was opened on
    and whether [close()] was called; whether the constructor succeeds is
    an input ([video_opens] below). *)
Record VideoStream : Type := mkVideoStream {
  video_path : string;
  video_closed : bool
}.

(** The UDP socket created by SETUP. *)
Record Socket : Type := mkSocket { socket_closed : bool }.

Module ClientSession.

Record t : Type := mk {
  seq_num : Z;
  session_id : option Z;
  state : State;
  video_stream : option VideoStream;
  rtp_stream : option RTPVideoStream.t;
  rtp_socket : option Socket;
  client_rtp_port : option Z;
  server_rtp_port : option Z;
  (** [None], or the number of the streaming thread created last *)
  streaming_thread : option nat
}.

(** [ClientSession(socket, addr)] (the connection itself is not part of
    the control state) *)
Definition init : t := mk 0 None INIT None None None None None None.

Definition set_seq_num (v : Z) (s : t) : t :=
  mk v (session_id s) (state s) (video_stream s) (rtp_stream s)
     (rtp_socket s) (client_rtp_port s) (server_rtp_port s)
     (streaming_thread s).
Definition set_session_id (v : option Z) (s : t) : t :=
  mk (seq_num s) v (state s) (video_stream s) (rtp_stream s)
     (rtp_socket s) (client_rtp_port s) (server_rtp_port s)
     (streaming_thread s).
Definition set_state (v : State) (s : t) : t :=
  mk (seq_num s) (session_id s) v (video_stream s) (rtp_stream s)
     (rtp_socket s) (client_rtp_port s) (server_rtp_port s)
     (streaming_thread s).
Definition set_video_stream (v : option VideoStream) (s : t) : t :=
  mk (seq_num s) (session_id s) (state s) v (rtp_stream s)
     (rtp_socket s) (client_rtp_port s) (server_rtp_port s)
     (streaming_thread s).
Definition set_rtp_stream (v : option RTPVideoStream.t) (s : t) : t :=
  mk (seq_num s) (session_id s) (state s) (video_stream s) v
     (rtp_socket s) (client_rtp_port s) (server_rtp_port s)
     (streaming_thread s).
Definition set_rtp_socket (v : option Socket) (s : t) : t :=
  mk (seq_num s) (session_id s) (state s) (video_stream s) (rtp_stream s)
     v (client_rtp_port s) (server_rtp_port s) (streaming_thread s).
Definition set_client_rtp_port (v : option Z) (s : t) : t :=
  mk (seq_num s) (session_id s) (state s) (video_stream s) (rtp_stream s)
     (rtp_socket s) v (server_rtp_port s) (streaming_thread s).
Definition set_server_rtp_port (v : option Z) (s : t) : t :=
  mk (seq_num s) (session_id s) (state s) (video_stream s) (rtp_stream s)
     (rtp_socket s) (client_rtp_port s) v (streaming_thread s).
Definition set_streaming_thread (v : option nat) (s : t) : t :=
  mk (seq_num s) (session_id s) (state s) (video_stream s) (rtp_stream s)
     (rtp_socket s) (client_rtp_port s) (server_rtp_port s) v.

(** [ClientSession.cleanup] *)
Definition cleanup (self : t) : t :=
  let self := set_state INIT self in
  let self :=
    match rtp_socket self with
    | Some _ => set_rtp_socket (Some (mkSocket true)) self
    | None => self
    end in
  match video_stream self with
  | Some v => set_video_stream (Some (mkVideoStream (video_path v) true)) self
  | None => self
  end.

End ClientSession.

(** ** [class RTSPServer]: the control plane *)

(** What one request handler reads from outside the session: the file
    system, whether the [VideoStream] constructor and the socket creation
    succeed, the clock readings taken while the request is handled, and
    whether the session's streaming thread is still running. *)
Record World : Type := mkWorld {
  path_exists : string -> bool;
  video_opens : string -> bool;
  socket_opens : bool;
  time_ssrc : Z;
  time_base90k : Z;
  time_session : Z;
  thread_alive : bool
}.

Module RTSPServer.
Import ClientSession.

Definition RTSP_VER : string := "RTSP/1.0".

(** The response codes [OK], [FILE_NOT_FOUND] and [CON_ERR]. *)
Inductive Code : Type := OK | FILE_NOT_FOUND | CON_ERR.

Definition code_value (c : Code) : Z :=
  match c with
  | OK => 200
  | FILE_NOT_FOUND => 404
  | CON_ERR => 500
  end.

Definition status_text (c : Code) : string :=
  match c with
  | OK => "OK"
  | FILE_NOT_FOUND => "Not Found"
  | CON_ERR => "Internal Server Error"
  end.

(** [RTSPServer.generate_response] *)
Definition generate_response (code : Code) (cseq : Z) : string :=
  RTSP_VER ++ " " ++ str_of_Z (code_value code) ++ " " ++ status_text code
  ++ CRLF ++ "CSeq: " ++ str_of_Z cseq ++ CRLF ++ CRLF.

(** The 200 response of PLAY, PAUSE and TEARDOWN. *)
Definition session_response (s : t) : string :=
  RTSP_VER ++ " " ++ str_of_Z (code_value OK) ++ " OK" ++ CRLF
  ++ "CSeq: " ++ str_of_Z (seq_num s) ++ CRLF
  ++ "Session: " ++ str_of_opt (session_id s) ++ CRLF ++ CRLF.

(** The 200 response of SETUP. *)
Definition setup_response (s : t) (client_port : Z) : string :=
  RTSP_VER ++ " " ++ str_of_Z (code_value OK) ++ " OK" ++ CRLF
  ++ "CSeq: " ++ str_of_Z (seq_num s) ++ CRLF
  ++ "Transport: RTP/UDP;client_port=" ++ str_of_Z client_port ++ "-"
  ++ str_of_Z (client_port + 1) ++ ";server_port="
  ++ str_of_opt (server_rtp_port s) ++ "-"
  ++ str_of_opt (option_map (fun p => p + 1) (server_rtp_port s)) ++ CRLF
  ++ "Session: " ++ str_of_opt (session_id s) ++ CRLF ++ CRLF.

(** The loop of [handle_setup] over the request lines: the port of the
    first line that mentions [client_port=], else the default. *)
Fixpoint client_port_of (client_rtp_port : Z) (lines : list string)
  : result Z :=
  match lines with
  | [] => Ok client_rtp_port
  | line :: rest =>
      if contains "client_port=" line
      then py_int (item (split "-" (item (split "client_port=" line) 1)) 0)
      else client_port_of client_rtp_port rest
  end.

(** The resource lookup of [handle_setup]: the file of that name in the
    media directory, else an [.mp4] file of that name in the working
    directory. *)
Definition resolve_video (w : World) (url : string) : option string :=
  let filename := last (split "/" url) EmptyString in
  let video_path := os_path_join "videos" filename in
  if path_exists w video_path then Some video_path
  else if path_exists w filename && endswith ".mp4" (lower filename)
       then Some filename
       else None.

(** The session after the assignments SETUP makes before it creates the
    socket: frame source, packetizer, ports and session id. *)
Definition setup_bound (w : World) (video_path : string)
           (client_rtp_port : Z) (session : t) : t :=
  let session :=
    set_video_stream (Some (mkVideoStream video_path false)) session in
  let session :=
    set_rtp_stream
      (Some (RTPVideoStream.init None (time_ssrc w) (time_base90k w)))
      session in
  let session := set_client_rtp_port (Some client_rtp_port) session in
  let session := set_server_rtp_port (Some 25000) session in
  set_session_id (Some (time_session w)) session.

(** The [try] block of [handle_setup]: the session as the block leaves it,
    and either the response it returns or the exception that ends it. *)
Definition handle_setup_body (w : World) (url : string)
           (lines : list string) (session : t) : t * result string :=
  match resolve_video w url with
  | None => (session, Ok (generate_response FILE_NOT_FOUND (seq_num session)))
  | Some video_path =>
      match client_port_of 25000 lines with
      | Raise e => (session, Raise e)
      | Ok client_rtp_port =>
          if negb (video_opens w video_path) then (session, Raise OSError)
          else
            let session :=
              set_video_stream (Some (mkVideoStream video_path false))
                               session in
            let session :=
              set_rtp_stream
                (Some (RTPVideoStream.init None (time_ssrc w) (time_base90k w)))
                session in
            let session := set_client_rtp_port (Some client_rtp_port) session in
            let session := set_server_rtp_port (Some 25000) session in
            let session := set_session_id (Some (time_session w)) session in
            if negb (socket_opens w) then (session, Raise OSError)
            else
              let session := set_rtp_socket (Some (mkSocket false)) session in
              let response := setup_response session client_rtp_port in
              let session := set_state READY session in
              (session, Ok response)
      end
  end.

(** [RTSPServer.handle_setup] *)
Definition handle_setup (w : World) (url : string) (lines : list string)
           (session : t) : t * string :=
  match handle_setup_body w url lines session with
  | (session, Ok response) => (session, response)
  | (session, Raise _) =>
      (session, generate_response CON_ERR (seq_num session))
  end.

(** [RTSPServer.handle_play] *)
Definition handle_play (w : World) (session : t) : t * string :=
  match state session with
  | INIT => (session, generate_response CON_ERR (seq_num session))
  | READY | PLAYING =>
      let session := set_state PLAYING session in
      let session :=
        match streaming_thread session with
        | None => set_streaming_thread (Some 1%nat) session
        | Some k =>
            if negb (thread_alive w)
            then set_streaming_thread (Some (S k)) session
            else session
        end in
      (session, session_response session)
  end.

(** [RTSPServer.handle_pause] *)
Definition handle_pause (session : t) : t * string :=
  let session := set_state READY session in
  (session, session_response session).

(** [RTSPServer.handle_teardown] *)
Definition handle_teardown (session : t) : t * string :=
  let session := set_state INIT session in
  let session := cleanup session in
  (session, session_response session).

(** The CSeq loop of [parse_rtsp_request]. *)
Fixpoint cseq_of (cseq : Z) (lines : list string) : result Z :=
  match lines with
  | [] => Ok cseq
  | line :: rest =>
      if startswith "CSeq:" line
      then py_int (strip (item (split ":" line) 1))
      else cseq_of cseq rest
  end.

(** The method dispatch that ends [parse_rtsp_request], as a function of
    its own. *)
Definition dispatch (w : World) (method url : string) (lines : list string)
           (cseq : Z) (session : t) : t * string :=
  if String.eqb method "SETUP" then handle_setup w url lines session
  else if String.eqb method "PLAY" then handle_play w session
  else if String.eqb method "PAUSE" then handle_pause session
  else if String.eqb method "TEARDOWN" then handle_teardown session
  else (session, generate_response CON_ERR cseq).

(** [RTSPServer.parse_rtsp_request]: the session after the call, and the
    response returned or the exception raised. *)
Definition parse_rtsp_request (w : World) (request : string) (session : t)
  : t * result string :=
  let lines := split LF (strip request) in
  match lines with
  | [] => (session, Ok (generate_response CON_ERR (seq_num session)))
  | first_line :: header_lines =>
      let request_line := split_ws first_line in
      if len request_line <? 3
      then (session, Ok (generate_response CON_ERR (seq_num session)))
      else
        let method := item request_line 0 in
        let url := item request_line 1 in
        match cseq_of 0 header_lines with
        | Raise e => (session, Raise e)
        | Ok cseq =>
            let session := set_seq_num cseq session in
            let '(session, response) :=
              if String.eqb method "SETUP" then handle_setup w url lines session
              else if String.eqb method "PLAY" then handle_play w session
              else if String.eqb method "PAUSE" then handle_pause session
              else if String.eqb method "TEARDOWN" then handle_teardown session
              else (session, generate_response CON_ERR cseq) in
            (session, Ok response)
        end
  end.

(** The request loop of [handle_client] on one connection.  [requests] are
    the texts received, each with the world it is handled in; the loop
    ends when the peer closes the connection (an empty text, or no more
    input) or when handling a request raises, and the session is cleaned
    up on the way out.  The result is the session left behind and the
    responses sent. *)
Fixpoint handle_client (session : t) (requests : list (World * string))
  : t * list string :=
  match requests with
  | [] => (cleanup session, [])
  | (w, request) :: rest =>
      if String.eqb request EmptyString then (cleanup session, [])
      else
        match parse_rtsp_request w request session with
        | (session, Raise _) => (cleanup session, [])
        | (session, Ok response) =>
            let '(session, responses) := handle_client session rest in
            (session, response :: responses)
        end
  end.

(** The request line of a control message, split into its tokens, and the
    lines after it. *)
Definition request_line (request : string) : list string :=
  split_ws (item (split LF (strip request)) 0).

Definition header_lines (request : string) : list string :=
  tl (split LF (strip request)).

(** The read at the head of the loop of [handle_client],
    [client_socket.recv(1024).decode('utf-8')], on the bytes of a message
    that arrived in one piece: the first 1024 of them, decoded. *)
Definition recv_request (sent : bytes) : option string :=
  utf8_decode (firstn 1024 sent).

(** *** Reading a response, as a client does *)

(** The first line of a response with status [code]. *)
Definition status_line (code : Code) : string :=
  RTSP_VER ++ " " ++ str_of_Z (code_value code) ++ " " ++ status_text code.

(** [s] has no carriage return. *)
Fixpoint no_cr (s : string) : bool :=
  match s with
  | EmptyString => true
  | String c s' => negb (Ascii.eqb c "013") && no_cr s'
  end.

(** The lines of a response. *)
Definition response_lines (response : string) : list string :=
  split CRLF response.

(** The status code text of a response: the second token of its first
    line. *)
Definition response_status (response : string) : string :=
  item (split_ws (item (response_lines response) 0)) 1.

Fixpoint drop (n : nat) (s : string) : string :=
  match n, s with
  | O, _ => s
  | S _, EmptyString => EmptyString
  | S k, String _ s' => drop k s'
  end.

(** The value of the first header line [name: value] of a response. *)
Definition header_value (name : string) (response : string) : option string :=
  match find (startswith (name ++ ": ")) (tl (response_lines response)) with
  | Some line => Some (drop (String.length name + 2) line)
  | None => None
  end.

(** [c in s] for a single character. *)
Fixpoint has_char (c : ascii) (s : string) : bool :=
  match s with
  | EmptyString => false
  | String x s' => Ascii.eqb x c || has_char c s'
  end.

(** No character of [s] is whitespace. *)
Fixpoint no_space (s : string) : bool :=
  match s with
  | EmptyString => true
  | String c s' => negb (is_space c) && no_space s'
  end.

(** Every character of [s] is whitespace. *)
Fixpoint all_space (s : string) : bool :=
  match s with
  | EmptyString => true
  | String c s' => is_space c && all_space s'
  end.

(** *** The streaming loop *)

(** How a run of [stream_video] ends: the session is no longer PLAYING
    when the loop condition is tested; [sendto] raised (the inner
    [except], which breaks out of the loop); or something else raised
    (the outer [except]). *)
Inductive StreamEnd : Type := StateChanged | SendFailed | StreamingError.

(** Whether a frame passes the check [not frame_data or len(frame_data) <
    100] of the loop. *)
Definition frame_ok (frame_data : bytes) : bool :=
  negb (len frame_data <? 100).

(** The loop of [stream_video].  [iterations] are the passes made while
    the session is PLAYING, each with what [get_next_frame] returns
    ([None] at the end of the video), the 90 kHz clock reading and whether
    the datagram goes out; [can_send] tells whether the session has a
    socket to send on.  The result is the packetizer as the loop leaves
    it, [frame_count], the datagrams sent and how the loop ended. *)
Fixpoint stream_video_loop (rtp_stream : option RTPVideoStream.t)
         (can_send : bool) (frame_count : Z)
         (iterations : list (option bytes * Z * bool))
  : option RTPVideoStream.t * Z * list bytes * StreamEnd :=
  match iterations with
  | [] => (rtp_stream, frame_count, [], StateChanged)
  | (frame, now90k, sendto_ok) :: rest =>
      match frame with
      | None => stream_video_loop rtp_stream can_send frame_count rest
      | Some frame_data =>
          if negb (frame_ok frame_data)
          then stream_video_loop rtp_stream can_send frame_count rest
          else
            match rtp_stream with
            | None => (rtp_stream, frame_count, [], StreamingError)
            | Some stream =>
                let '(stream, rtp_packet) :=
                  RTPVideoStream.create_packet stream frame_data true now90k in
                match RTPPacket.encode rtp_packet with
                | Raise _ => (Some stream, frame_count, [], StreamingError)
                | Ok encoded_packet =>
                    if can_send && sendto_ok
                    then
                      let '(rtp_stream, frame_count, sent, ended) :=
                        stream_video_loop (Some stream) can_send
                                          (frame_count + 1) rest in
                      (rtp_stream, frame_count, encoded_packet :: sent, ended)
                    else (Some stream, frame_count, [], SendFailed)
                end
            end
      end
  end.

(** [RTSPServer.stream_video] on a session: without a frame source the
    first [get_next_frame] raises; a datagram can go out only on an open
    socket and to a known client port. *)
Definition stream_video (session : t)
           (iterations : list (option bytes * Z * bool))
  : t * Z * list bytes * StreamEnd :=
  match iterations, video_stream session with
  | [], _ => (session, 0, [], StateChanged)
  | _ :: _, None => (session, 0, [], StreamingError)
  | _ :: _, Some _ =>
      let can_send :=
        match rtp_socket session, client_rtp_port session with
        | Some sock, Some _ => negb (socket_closed sock)
        | _, _ => false
        end in
      let '(rtp_stream, frame_count, sent, ended) :=
        stream_video_loop (rtp_stream session) can_send 0 iterations in
      (set_rtp_stream rtp_stream session, frame_count, sent, ended)
  end.

(** Whether a pass of the loop has a frame that gets as far as the
    packetizer. *)
Definition sendable (it : option bytes * Z * bool) : bool :=
  match it with
  | (Some frame_data, _, _) => frame_ok frame_data
  | (None, _, _) => false
  end.

(** *** Sample inputs *)

(** A world in which [videos/movie.mjpeg] exists and everything opens;
    [now] is the clock reading. *)
Definition sample_world (now : Z) : World :=
  mkWorld (String.eqb "videos/movie.mjpeg") (fun _ => true) true
          now (now * 90000) now true.

(** A control message: request line and header lines, each ended by a
    line break, and the closing empty line. *)
Definition message (request_line : string) (headers : list string) : string :=
  request_line ++ CRLF ++ String.concat EmptyString (map (fun h => h ++ CRLF) headers)
  ++ CRLF.

End RTSPServer.

(** ** [class RTSPClient]: the protocol side of the client

    The window, its buttons and the log are not part of the model; what is
    modelled is the connection state, the requests built, the replies
    parsed and the datagrams accepted. *)

Module RTSPClient.

(** [self.rtsp_socket]: [None]; or a socket object, connected or not (a
    failed [connect] leaves the object in place). *)
Inductive RtspSocket : Type := NoRtsp | Rtsp (connected : bool).

(** [self.rtp_socket]: [None]; a socket created and not bound (what is
    left when [bind] raises something the loop does not catch); a socket
    bound to a port; or a socket object that was closed after its [bind]
    failed. *)
Inductive RtpSocket : Type := NoRtp | Unbound | Bound (port : Z) | ClosedRtp.

Record t : Type := mk {
  server_addr : string;
  server_port : Z;
  rtp_port : Z;
  filename : string;
  rtsp_socket : RtspSocket;
  rtp_socket : RtpSocket;
  seq_num : Z;
  session_id : option string;
  (** [None] stands for the initial [-1] *)
  request_sent : option string;
  teardown_acked : Z;
  frame_count : Z;
  playing : bool;
  rtp_running : bool
}.

Definition set_rtp_port (v : Z) (c : t) : t :=
  mk (server_addr c) (server_port c) v (filename c) (rtsp_socket c)
     (rtp_socket c) (seq_num c) (session_id c) (request_sent c)
     (teardown_acked c) (frame_count c) (playing c) (rtp_running c).
Definition set_rtp_socket (v : RtpSocket) (c : t) : t :=
  mk (server_addr c) (server_port c) (rtp_port c) (filename c)
     (rtsp_socket c) v (seq_num c) (session_id c) (request_sent c)
     (teardown_acked c) (frame_count c) (playing c) (rtp_running c).
Definition set_seq_num (v : Z) (c : t) : t :=
  mk (server_addr c) (server_port c) (rtp_port c) (filename c)
     (rtsp_socket c) (rtp_socket c) v (session_id c) (request_sent c)
     (teardown_acked c) (frame_count c) (playing c) (rtp_running c).
Definition set_session_id (v : option string) (c : t) : t :=
  mk (server_addr c) (server_port c) (rtp_port c) (filename c)
     (rtsp_socket c) (rtp_socket c) (seq_num c) v (request_sent c)
     (teardown_acked c) (frame_count c) (playing c) (rtp_running c).
Definition set_request_sent (v : option string) (c : t) : t :=
  mk (server_addr c) (server_port c) (rtp_port c) (filename c)
     (rtsp_socket c) (rtp_socket c) (seq_num c) (session_id c) v
     (teardown_acked c) (frame_count c) (playing c) (rtp_running c).
Definition set_teardown_acked (v : Z) (c : t) : t :=
  mk (server_addr c) (server_port c) (rtp_port c) (filename c)
     (rtsp_socket c) (rtp_socket c) (seq_num c) (session_id c)
     (request_sent c) v (frame_count c) (playing c) (rtp_running c).
Definition set_frame_count (v : Z) (c : t) : t :=
  mk (server_addr c) (server_port c) (rtp_port c) (filename c)
     (rtsp_socket c) (rtp_socket c) (seq_num c) (session_id c)
     (request_sent c) (teardown_acked c) v (playing c) (rtp_running c).
Definition set_playing (v : bool) (c : t) : t :=
  mk (server_addr c) (server_port c) (rtp_port c) (filename c)
     (rtsp_socket c) (rtp_socket c) (seq_num c) (session_id c)
     (request_sent c) (teardown_acked c) (frame_count c) v (rtp_running c).
Definition set_rtp_running (v : bool) (c : t) : t :=
  mk (server_addr c) (server_port c) (rtp_port c) (filename c)
     (rtsp_socket c) (rtp_socket c) (seq_num c) (session_id c)
     (request_sent c) (teardown_acked c) (frame_count c) (playing c) v.

(** What [bind(('', port))] on a fresh UDP socket comes to: the socket is
    bound; [socket.error] is raised (the port is taken); or, for a port
    outside 0..65535, [OverflowError] is raised, which is not a
    [socket.error] and so is not caught where that is.  [bindable] tells
    which of the ports in range a socket can be bound to. *)
Inductive Bind : Type := BindOk | BindError | BindOverflow.

Definition socket_bind (bindable : Z -> bool) (port : Z) : Bind :=
  if (0 <=? port) && (port <=? 65535)
  then if bindable port then BindOk else BindError
  else BindOverflow.

(** A value returned, or the [OverflowError] of a [bind] let through. *)
Inductive Raising (A : Type) : Type :=
| Returned (a : A)
| Overflowed.

Arguments Returned {A} a.
Arguments Overflowed {A}.

(** The loop of [get_available_port]: the first of [count] ports from
    [port] on that can be bound, if there is one. *)
Fixpoint first_bindable (bindable : Z -> bool) (port : Z) (count : nat)
  : Raising (option Z) :=
  match count with
  | O => Returned None
  | S k =>
      match socket_bind bindable port with
      | BindOk => Returned (Some port)
      | BindError => first_bindable bindable (port + 1) k
      | BindOverflow => Overflowed
      end
  end.

(** [RTSPClient.get_available_port] *)
Definition get_available_port (bindable : Z -> bool) (start_port : Z)
  : Raising Z :=
  match first_bindable bindable start_port 100 with
  | Returned (Some port) => Returned port
  | Returned None => Returned start_port
  | Overflowed => Overflowed
  end.

(** What a call of [send_rtsp_request] does on the connection: nothing,
    a request sent, or [send] raising. *)
Inductive Sending : Type := NotSent | Sent (request : string) | SendRaised.

(** The text of a request: request line, CSeq and one more header. *)
Definition request_text (c : t) (request_code : string) (seq : Z)
           (header : string) : string :=
  request_code ++ " rtsp://" ++ server_addr c ++ ":"
  ++ str_of_Z (server_port c) ++ "/" ++ filename c ++ " " ++ "RTSP/1.0"
  ++ CRLF ++ "CSeq: " ++ str_of_Z seq ++ CRLF ++ header ++ CRLF ++ CRLF.

Definition str_of_session (x : option string) : string :=
  match x with
  | None => "None"
  | Some v => v
  end.

(** [RTSPClient.send_rtsp_request]; [send_ok] tells whether [send]
    succeeds on a connected socket (on an unconnected one it raises). *)
Definition send_rtsp_request (send_ok : bool) (c : t) (request_code : string)
  : t * Sending :=
  let known :=
    String.eqb request_code "SETUP" || String.eqb request_code "PLAY" ||
    String.eqb request_code "PAUSE" || String.eqb request_code "TEARDOWN" in
  match rtsp_socket c with
  | NoRtsp => (c, NotSent)
  | Rtsp connected =>
      if negb known then (c, NotSent)
      else
        let c := set_seq_num (seq_num c + 1) c in
        let header :=
          if String.eqb request_code "SETUP"
          then "Transport: RTP/UDP;client_port=" ++ str_of_Z (rtp_port c)
          else "Session: " ++ str_of_session (session_id c) in
        let request := request_text c request_code (seq_num c) header in
        if connected && send_ok
        then (set_request_sent (Some request_code) c, Sent request)
        else (c, SendRaised)
  end.

(** How [parse_rtsp_reply] ends: it returns; an index is out of range;
    or a [bind] on a port outside 0..65535 raises [OverflowError]. *)
Inductive Parsing : Type := Parsed | IndexError | OverflowError.

(** The session id loop of [parse_rtsp_reply]: the first line that starts
    with [Session:], split at spaces, second piece. *)
Fixpoint session_of (lines : list string) : option (option string) :=
  match lines with
  | [] => Some None
  | line :: rest =>
      if startswith "Session:" line
      then
        match split " " line with
        | _ :: v :: _ => Some (Some v)
        | _ => None
        end
      else session_of rest
  end.

(** How the bind loop of [parse_rtsp_reply] ends: a [bind] succeeded; the
    last attempt failed; or [OverflowError] came out of a [bind]. *)
Inductive BindEnd : Type := BindDone | BindGaveUp | BindRaised.

(** The bind loop of [parse_rtsp_reply]: an attempt on [rtp_port], and
    [more] further attempts after it (nine when the loop is entered).
    After a failed [bind] the socket is closed and another port is looked
    for, also after the last attempt.  Creating the socket is taken to
    succeed.  The result is [self.rtp_port] and [self.rtp_socket] as the
    loop leaves them, and how it ended. *)
Fixpoint bind_retry (bindable : Z -> bool) (rtp_port : Z) (more : nat)
  : Z * RtpSocket * BindEnd :=
  match socket_bind bindable rtp_port with
  | BindOk => (rtp_port, Bound rtp_port, BindDone)
  | BindOverflow => (rtp_port, Unbound, BindRaised)
  | BindError =>
      match get_available_port bindable (rtp_port + 1) with
      | Overflowed => (rtp_port, ClosedRtp, BindRaised)
      | Returned next_port =>
          match more with
          | O => (next_port, ClosedRtp, BindGaveUp)
          | S k => bind_retry bindable next_port k
          end
      end
  end.

(** [RTSPClient.parse_rtsp_reply] *)
Definition parse_rtsp_reply (bindable : Z -> bool) (c : t) (reply : string)
  : t * Parsing :=
  let lines := split LF reply in
  match split_ws (item lines 0) with
  | _ :: code :: _ =>
      if String.eqb code "200" then
        match request_sent c with
        | Some sent =>
            if String.eqb sent "SETUP" then
              match session_of lines with
              | None => (c, IndexError)
              | Some found =>
                  let c :=
                    match found with
                    | Some v => set_session_id (Some v) c
                    | None => c
                    end in
                  let '(port, sock, ended) :=
                    bind_retry bindable (rtp_port c) 9 in
                  (set_rtp_socket sock (set_rtp_port port c),
                   match ended with
                   | BindRaised => OverflowError
                   | _ => Parsed
                   end)
              end
            else if String.eqb sent "PLAY" then
              (set_rtp_running true (set_playing true c), Parsed)
            else if String.eqb sent "PAUSE" then
              (set_rtp_running false (set_playing false c), Parsed)
            else if String.eqb sent "TEARDOWN" then
              (set_teardown_acked 1 c, Parsed)
            else (c, Parsed)
        | None => (c, Parsed)
        end
      else (c, Parsed)
  | _ => (c, IndexError)
  end.

(** What [display_frame] does with a payload before it hands it to the
    image library. *)
Inductive Display : Type := InvalidFrame | NotJpeg | ToImage.

(** The checks at the head of [RTSPClient.display_frame]. *)
Definition display_frame (frame_data : bytes) : Display :=
  if len frame_data <? 100 then InvalidFrame
  else
    match frame_data with
    | xff :: xd8 :: _ => ToImage
    | _ => NotJpeg
    end.

(** What one pass of [listen_rtp] does with a datagram. *)
Inductive Reception : Type :=
| Ignored
| Shown (payload : bytes) (shown : Display)
| EmptyPayload
| DecodeError.

(** One pass of the loop of [RTSPClient.listen_rtp] on a datagram
    received. *)
Definition listen_rtp_step (c : t) (data : bytes) : t * Reception :=
  if negb (12 <? len data) then (c, Ignored)
  else
    match RTPPacket.decode RTPPacket.default data with
    | (_, Raise _) => (c, DecodeError)
    | (rtp_packet, Ok _) =>
        if 0 <? len (RTPPacket.payload rtp_packet)
        then
          (set_frame_count (frame_count c + 1) c,
           Shown (RTPPacket.payload rtp_packet)
                 (display_frame (RTPPacket.payload rtp_packet)))
        else (c, EmptyPayload)
    end.

End RTSPClient.

Local Close Scope string_scope.

(** * Properties *)

(** ** Bytes and bit fields *)

Lemma Z_of_byte_range (b : byte) : 0 <= Z_of_byte b < 256.
Proof.
  unfold Z_of_byte. pose proof (Byte.to_N_bounded b). lia.
Qed.

Lemma Z_of_byte_of_Z (z : Z) : Z_of_byte (byte_of_Z z) = z mod 256.
Proof.
  unfold Z_of_byte, byte_of_Z.
  assert (Hm : 0 <= z mod 256 < 256) by (apply Z.mod_pos_bound; lia).
  destruct (Byte.of_N (Z.to_N (z mod 256))) as [b|] eqn:E.
  - apply Byte.to_of_N in E. rewrite E. lia.
  - apply Byte.of_N_None_iff in E. lia.
Qed.

Lemma byte_of_Z_of_byte (b : byte) : byte_of_Z (Z_of_byte b) = b.
Proof.
  unfold byte_of_Z. pose proof (Z_of_byte_range b) as Hr.
  rewrite Z.mod_small by exact Hr.
  unfold Z_of_byte. rewrite N2Z.id, Byte.of_to_N. reflexivity.
Qed.

Lemma length_be_bytes (n : nat) (v : Z) : List.length (be_bytes n v) = n.
Proof.
  induction n as [|k IH]; simpl; [reflexivity | now rewrite IH].
Qed.

(** A field placed above [k] free low bits: or-ing is adding. *)
Lemma lor_shiftl_low (hi lo k : Z) :
  0 <= k -> 0 <= lo < 2 ^ k ->
  Z.lor (Z.shiftl hi k) lo = hi * 2 ^ k + lo.
Proof.
  intros Hk Hlo.
  assert (Hdisj : Z.land (Z.shiftl hi k) lo = 0).
  { apply Z.bits_inj'. intros n Hn.
    rewrite Z.land_spec, Z.bits_0.
    destruct (Z.ltb_spec n k) as [Hlt|Hge].
    - rewrite Z.shiftl_spec_low by exact Hlt. reflexivity.
    - assert (Hbit : Z.testbit lo n = false).
      { apply Z.testbit_false; [exact Hn|].
        rewrite Z.div_small; [reflexivity|].
        split; [lia|].
        apply Z.lt_le_trans with (2 ^ k); [lia|].
        apply Z.pow_le_mono_r; lia. }
      rewrite Hbit. apply andb_false_r. }
  pose proof (Z.add_lor_land (Z.shiftl hi k) lo) as Hadd.
  rewrite Hdisj, Z.add_0_r in Hadd. rewrite Hadd.
  rewrite Z.shiftl_mul_pow2 by exact Hk. reflexivity.
Qed.

Lemma pack_uint_ok (n : nat) (v : Z) :
  0 <= v < 2 ^ (8 * Z.of_nat n) -> pack_uint n v = Ok (be_bytes n v).
Proof.
  intros [Hlo Hhi]. unfold pack_uint.
  apply Z.leb_le in Hlo. apply Z.ltb_lt in Hhi.
  now rewrite Hlo, Hhi.
Qed.

Lemma pack_uint_length (n : nat) (v : Z) (bs : bytes) :
  pack_uint n v = Ok bs -> List.length bs = n.
Proof.
  unfold pack_uint.
  destruct ((0 <=? v) && (v <? 2 ^ (8 * Z.of_nat n))); intros H;
    [|discriminate].
  injection H as <-. apply length_be_bytes.
Qed.

Lemma struct_pack_length (b1 b2 h i1 i2 : Z) (bs : bytes) :
  struct_pack_BBHII b1 b2 h i1 i2 = Ok bs -> List.length bs = 12%nat.
Proof.
  unfold struct_pack_BBHII, bind.
  destruct (pack_uint 1 b1) as [x1|] eqn:E1; [|discriminate].
  destruct (pack_uint 1 b2) as [x2|] eqn:E2; [|discriminate].
  destruct (pack_uint 2 h) as [x3|] eqn:E3; [|discriminate].
  destruct (pack_uint 4 i1) as [x4|] eqn:E4; [|discriminate].
  destruct (pack_uint 4 i2) as [x5|] eqn:E5; [|discriminate].
  intros H. injection H as <-.
  apply pack_uint_length in E1, E2, E3, E4, E5.
  rewrite !length_app, E1, E2, E3, E4, E5. reflexivity.
Qed.

(** Packing [n] bytes and reading them back keeps the [8 n] low bits. *)
Lemma fold_be_bytes (n : nat) (v acc : Z) :
  fold_left (fun a b => a * 256 + Z_of_byte b) (be_bytes n v) acc
  = acc * 2 ^ (8 * Z.of_nat n) + v mod 2 ^ (8 * Z.of_nat n).
Proof.
  revert acc. induction n as [|k IH]; intros acc.
  - simpl. rewrite Z.mod_1_r. lia.
  - cbn [be_bytes fold_left]. rewrite IH, Z_of_byte_of_Z.
    rewrite Z.shiftr_div_pow2 by lia.
    replace (8 * Z.of_nat (S k)) with (8 * Z.of_nat k + 8) by lia.
    rewrite Z.pow_add_r by lia. change (2 ^ 8) with 256.
    assert (Hpos : 0 < 2 ^ (8 * Z.of_nat k)) by (apply Z.pow_pos_nonneg; lia).
    rewrite (Z.rem_mul_r v (2 ^ (8 * Z.of_nat k)) 256) by lia.
    ring.
Qed.

Lemma be_value_be_bytes (n : nat) (v : Z) :
  0 <= v < 2 ^ (8 * Z.of_nat n) -> be_value (be_bytes n v) = v.
Proof.
  intros Hv. unfold be_value. rewrite fold_be_bytes.
  rewrite Z.mod_small by exact Hv. lia.
Qed.

Module RTPPacketFacts.
Import RTPPacket.

Lemma byte1_in_range (p : t) :
  in_range p ->
  byte1 p = version p * 64 + padding p * 32 + extension p * 16 + cc p.
Proof.
  intros (Hv & Hp & Hx & Hc & _). unfold byte1.
  rewrite (Z.shiftl_mul_pow2 (padding p) 5) by lia.
  rewrite (Z.shiftl_mul_pow2 (extension p) 4) by lia.
  change (2 ^ 5) with 32. change (2 ^ 4) with 16.
  rewrite lor_shiftl_low by (change (2 ^ 6) with 64; lia).
  replace (version p * 2 ^ 6 + padding p * 32)
    with (Z.shiftl (version p * 2 + padding p) 5)
    by (rewrite Z.shiftl_mul_pow2 by lia;
        change (2 ^ 5) with 32; change (2 ^ 6) with 64; lia).
  rewrite lor_shiftl_low by (change (2 ^ 5) with 32; lia).
  replace ((version p * 2 + padding p) * 2 ^ 5 + extension p * 16)
    with (Z.shiftl (version p * 4 + padding p * 2 + extension p) 4)
    by (rewrite Z.shiftl_mul_pow2 by lia;
        change (2 ^ 5) with 32; change (2 ^ 4) with 16; lia).
  rewrite lor_shiftl_low by (change (2 ^ 4) with 16; lia).
  change (2 ^ 4) with 16. lia.
Qed.

Lemma byte2_in_range (p : t) :
  in_range p -> byte2 p = marker p * 128 + pt p.
Proof.
  intros (_ & _ & _ & _ & Hm & Hpt & _). unfold byte2.
  rewrite lor_shiftl_low by (change (2 ^ 7) with 128; lia).
  reflexivity.
Qed.

Lemma byte1_fields (v p x c : Z) :
  0 <= v < 4 -> 0 <= p < 2 -> 0 <= x < 2 -> 0 <= c < 16 ->
  let b := v * 64 + p * 32 + x * 16 + c in
  Z.land (Z.shiftr b 6) 3 = v /\ Z.land (Z.shiftr b 5) 1 = p /\
  Z.land (Z.shiftr b 4) 1 = x /\ Z.land b 15 = c.
Proof.
  intros Hv Hp Hx Hc b. subst b.
  change 3 with (Z.ones 2). change 1 with (Z.ones 1).
  change 15 with (Z.ones 4).
  rewrite !Z.land_ones, !Z.shiftr_div_pow2 by lia.
  change (2 ^ 6) with 64. change (2 ^ 5) with 32. change (2 ^ 4) with 16.
  change (2 ^ 2) with 4. change (2 ^ 1) with 2.
  repeat split; Z.to_euclidean_division_equations; lia.
Qed.

Lemma byte2_fields (m q : Z) :
  0 <= m < 2 -> 0 <= q < 128 ->
  let b := m * 128 + q in
  Z.land (Z.shiftr b 7) 1 = m /\ Z.land b 127 = q.
Proof.
  intros Hm Hq b. subst b.
  change 1 with (Z.ones 1). change 127 with (Z.ones 7).
  rewrite !Z.land_ones, !Z.shiftr_div_pow2 by lia.
  change (2 ^ 7) with 128. change (2 ^ 1) with 2.
  split; Z.to_euclidean_division_equations; lia.
Qed.

(** The bytes [encode] produces for a packet whose fields fit the layout. *)
Lemma encode_in_range (p : t) :
  in_range p ->
  encode p =
    Ok (be_bytes 1 (byte1 p) ++ be_bytes 1 (byte2 p) ++
        be_bytes 2 (seq_num p) ++ be_bytes 4 (timestamp p) ++
        be_bytes 4 (ssrc p) ++ payload p).
Proof.
  intros Hr. pose proof (byte1_in_range p Hr) as H1.
  pose proof (byte2_in_range p Hr) as H2.
  destruct Hr as (Hv & Hp & Hx & Hc & Hm & Hpt & Hs & Ht & Hss).
  unfold encode, struct_pack_BBHII.
  rewrite (pack_uint_ok 1 (byte1 p))
    by (rewrite H1; change (2 ^ (8 * Z.of_nat 1)) with 256; lia).
  rewrite (pack_uint_ok 1 (byte2 p))
    by (rewrite H2; change (2 ^ (8 * Z.of_nat 1)) with 256; lia).
  rewrite (pack_uint_ok 2 (seq_num p))
    by (change (2 ^ (8 * Z.of_nat 2)) with 65536; lia).
  rewrite (pack_uint_ok 4 (timestamp p))
    by (change (8 * Z.of_nat 4) with 32; lia).
  rewrite (pack_uint_ok 4 (ssrc p))
    by (change (8 * Z.of_nat 4) with 32; lia).
  cbn [bind]. rewrite <- !app_assoc. reflexivity.
Qed.

(** The two decoders compute the same packet and fail alike. *)
Lemma decode_as_decode_packet (self : t) (packet_data : bytes) :
  decode self packet_data =
    match decode_packet packet_data with
    | Ok p => (p, Ok tt)
    | Raise e => (self, Raise e)
    end.
Proof.
  unfold decode, decode_packet.
  destruct (len packet_data <? HEADER_SIZE); [reflexivity|].
  destruct (struct_unpack_BBHII (firstn (Z.to_nat HEADER_SIZE) packet_data))
    as [[[[[b1 b2] sq] ts] src]|e]; reflexivity.
Qed.

Lemma decode_packet_short (packet_data : bytes) :
  len packet_data < 12 -> decode_packet packet_data = Raise too_short.
Proof.
  intros Hlen. unfold decode_packet, HEADER_SIZE.
  apply Z.ltb_lt in Hlen. now rewrite Hlen.
Qed.

Lemma decode_packet_long (packet_data : bytes) :
  12 <= len packet_data -> exists p, decode_packet packet_data = Ok p.
Proof.
  intros Hlen. unfold decode_packet, HEADER_SIZE.
  assert (Hnlt : (len packet_data <? 12) = false) by (apply Z.ltb_ge; exact Hlen).
  rewrite Hnlt. unfold len in Hlen.
  do 12 (destruct packet_data as [|? packet_data];
         [simpl in Hlen; lia|]).
  cbn. eexists. reflexivity.
Qed.

(** Decoding a twelve-byte header followed by a payload. *)
Lemma decode_packet_header (b1 b2 sq ts src : Z) (data : bytes) :
  decode_packet (be_bytes 1 b1 ++ be_bytes 1 b2 ++ be_bytes 2 sq ++
                 be_bytes 4 ts ++ be_bytes 4 src ++ data)
  = let c1 := Z_of_byte (byte_of_Z (Z.shiftr b1 0)) in
    let c2 := Z_of_byte (byte_of_Z (Z.shiftr b2 0)) in
    Ok (mk (Z.land (Z.shiftr c1 6) 3) (Z.land (Z.shiftr c1 5) 1)
           (Z.land (Z.shiftr c1 4) 1) (Z.land c1 15)
           (Z.land (Z.shiftr c2 7) 1) (Z.land c2 127)
           (be_value (be_bytes 2 sq)) (be_value (be_bytes 4 ts))
           (be_value (be_bytes 4 src)) data).
Proof.
  unfold decode_packet.
  assert (Hlen : (len (be_bytes 1 b1 ++ be_bytes 1 b2 ++ be_bytes 2 sq ++
                       be_bytes 4 ts ++ be_bytes 4 src ++ data)
                  <? HEADER_SIZE) = false).
  { apply Z.ltb_ge. unfold len, HEADER_SIZE.
    rewrite !length_app, !length_be_bytes. lia. }
  rewrite Hlen. reflexivity.
Qed.

(** C1. Round trip: when every header field lies in the range of its bit
    field (version 0..3, padding, extension and marker 0..1, CSRC count
    0..15, payload type 0..127, sequence number 0..65535, timestamp and
    SSRC 0..2^32-1), [encode] returns bytes, and decoding those bytes, with
    the class method or with the instance method on any packet object,
    yields the original packet: all header fields and the payload bytes
    are equal to the originals. *)
Theorem decode_encode_roundtrip (p : t) :
  in_range p ->
  exists bs,
    encode p = Ok bs /\
    decode_packet bs = Ok p /\
    forall self, decode self bs = (p, Ok tt).
Proof.
  intros Hr.
  assert (Hdec : decode_packet
            (be_bytes 1 (byte1 p) ++ be_bytes 1 (byte2 p) ++
             be_bytes 2 (seq_num p) ++ be_bytes 4 (timestamp p) ++
             be_bytes 4 (ssrc p) ++ payload p) = Ok p).
  { rewrite decode_packet_header. cbv zeta.
    rewrite !Z.shiftr_0_r, !Z_of_byte_of_Z.
    rewrite (byte1_in_range p Hr), (byte2_in_range p Hr).
    destruct Hr as (Hv & Hp & Hx & Hc & Hm & Hpt & Hs & Ht & Hss).
    rewrite !Z.mod_small by lia.
    destruct (byte1_fields _ _ _ _ Hv Hp Hx Hc) as (-> & -> & -> & ->).
    destruct (byte2_fields _ _ Hm Hpt) as (-> & ->).
    rewrite !be_value_be_bytes
      by (first [ change (2 ^ (8 * Z.of_nat 2)) with 65536
                | change (8 * Z.of_nat 4) with 32 ]; lia).
    destruct p; reflexivity. }
  eexists. split; [apply encode_in_range; exact Hr|].
  split; [exact Hdec|].
  intros self. rewrite decode_as_decode_packet, Hdec. reflexivity.
Qed.

Lemma decode_encode_roundtrip_witness :
  exists bs,
    encode (mk 2 1 0 5 1 26 65535 4294967295 7 [x01; xff]) = Ok bs /\
    decode_packet bs = Ok (mk 2 1 0 5 1 26 65535 4294967295 7 [x01; xff]) /\
    forall self,
      decode self bs = (mk 2 1 0 5 1 26 65535 4294967295 7 [x01; xff], Ok tt).
Proof.
  apply (decode_encode_roundtrip (mk 2 1 0 5 1 26 65535 4294967295 7 [x01; xff])).
  unfold in_range; simpl; lia.
Defined.

(** C2. A buffer of fewer than twelve bytes is rejected before anything is
    unpacked: the class method raises the packet-too-short [ValueError] and
    returns no packet; the instance method raises the same error and leaves
    the packet object it was called on exactly as it was. *)
Theorem decode_short_buffer (self : t) (packet_data : bytes) :
  len packet_data < 12 ->
  decode_packet packet_data = Raise too_short /\
  decode self packet_data = (self, Raise too_short).
Proof.
  intros Hlen. pose proof (decode_packet_short packet_data Hlen) as Hd.
  split; [exact Hd|].
  rewrite decode_as_decode_packet, Hd. reflexivity.
Qed.

Lemma decode_short_buffer_witness :
  decode_packet [x80; x1a; x00; x01; x00; x00; x00; x00; x00; x00; x00]
    = Raise too_short /\
  decode (mk 1 1 1 9 1 99 77 88 99 [x2a])
         [x80; x1a; x00; x01; x00; x00; x00; x00; x00; x00; x00]
    = (mk 1 1 1 9 1 99 77 88 99 [x2a], Raise too_short).
Proof.
  apply (decode_short_buffer (mk 1 1 1 9 1 99 77 88 99 [x2a])
           [x80; x1a; x00; x01; x00; x00; x00; x00; x00; x00; x00]).
  vm_compute. reflexivity.
Defined.

(** C9. Whatever the header field values, the output of [encode] is a
    twelve-byte header followed by the payload unchanged, so its length is
    twelve plus the payload length, for a payload of any length.  [encode]
    returns such bytes whenever the fields lie in the ranges of the header
    layout; the only other outcome is the [struct.error] of [struct.pack],
    raised for fields outside those ranges, and then nothing is encoded. *)
Theorem encode_header_length (p : t) :
  (forall bs, encode p = Ok bs ->
     exists header,
       bs = header ++ payload p /\ len header = 12 /\
       len bs = 12 + len (payload p)) /\
  (in_range p -> exists bs, encode p = Ok bs) /\
  (forall e, encode p = Raise e -> e = StructError /\ ~ in_range p).
Proof.
  split; [|split].
  - intros bs. unfold encode, bind.
    destruct (struct_pack_BBHII (byte1 p) (byte2 p) (seq_num p)
                                (timestamp p) (ssrc p)) as [header|] eqn:E;
      [|discriminate].
    intros H. injection H as <-.
    apply struct_pack_length in E.
    exists header. unfold len. rewrite length_app, E.
    repeat split; lia.
  - intros Hr. eexists. apply encode_in_range. exact Hr.
  - intros e He. split.
    + revert He. unfold encode, struct_pack_BBHII, pack_uint, bind.
      repeat match goal with
             | |- context [if ?c then _ else _] => destruct c
             end; intros H; now inversion H.
    + intros Hr. rewrite (encode_in_range p Hr) in He. discriminate He.
Qed.

Lemma encode_header_length_witness :
  (exists header,
     [x80; x9a; x00; x07; x00; x00; x00; x09; x00; x00; x00; x0b; xff; xd8]
       = header ++ [xff; xd8] /\
     len header = 12 /\
     len [x80; x9a; x00; x07; x00; x00; x00; x09; x00; x00; x00; x0b; xff; xd8]
       = 12 + len [xff; xd8]) /\
  (exists bs, encode (mk 2 0 0 0 1 26 7 9 11 [xff; xd8]) = Ok bs) /\
  (StructError = StructError /\ ~ in_range (mk 4 0 0 0 1 26 7 9 11 [xff; xd8])).
Proof.
  pose proof (encode_header_length (mk 2 0 0 0 1 26 7 9 11 [xff; xd8]))
    as (H1 & H2 & _).
  pose proof (encode_header_length (mk 4 0 0 0 1 26 7 9 11 [xff; xd8]))
    as (_ & _ & H3).
  split; [|split].
  - apply (H1 [x80; x9a; x00; x07; x00; x00; x00; x09; x00; x00; x00; x0b; xff; xd8]).
    vm_compute. reflexivity.
  - apply H2. unfold in_range; simpl; lia.
  - apply (H3 StructError). vm_compute. reflexivity.
Defined.

(** C10. The instance method [decode] and the class method [decode_packet]
    are interchangeable: on a buffer of at least twelve bytes
    [decode_packet] returns a packet and [decode] leaves exactly that packet
    (all header fields and the payload) in the object it was called on; on
    a shorter buffer both raise the same packet-too-short [ValueError]. *)
Theorem decode_decode_packet_agree (self : t) (packet_data : bytes) :
  (12 <= len packet_data ->
     exists p, decode_packet packet_data = Ok p /\
               decode self packet_data = (p, Ok tt)) /\
  (len packet_data < 12 ->
     decode_packet packet_data = Raise too_short /\
     snd (decode self packet_data) = Raise too_short).
Proof.
  split; intros Hlen.
  - destruct (decode_packet_long packet_data Hlen) as [p Hp].
    exists p. split; [exact Hp|].
    rewrite decode_as_decode_packet, Hp. reflexivity.
  - pose proof (decode_packet_short packet_data Hlen) as Hd.
    split; [exact Hd|].
    rewrite decode_as_decode_packet, Hd. reflexivity.
Qed.

Lemma decode_decode_packet_agree_witness :
  (exists p,
     decode_packet [x80; x9a; x00; x07; x00; x00; x00; x09; x00; x00; x00; x0b; xff]
       = Ok p /\
     decode default [x80; x9a; x00; x07; x00; x00; x00; x09; x00; x00; x00; x0b; xff]
       = (p, Ok tt)) /\
  (decode_packet [x80; x9a] = Raise too_short /\
   snd (decode default [x80; x9a]) = Raise too_short).
Proof.
  split.
  - apply (decode_decode_packet_agree default
             [x80; x9a; x00; x07; x00; x00; x00; x09; x00; x00; x00; x0b; xff]).
    vm_compute. discriminate.
  - apply (decode_decode_packet_agree default [x80; x9a]).
    vm_compute. reflexivity.
Defined.

End RTPPacketFacts.

(** ** The packetizer *)

Module RTPVideoStreamFacts.
Import RTPVideoStream.

Lemma emit_length (calls : list (bytes * bool * Z)) (self : t) :
  List.length (snd (emit self calls)) = List.length calls.
Proof.
  revert self. induction calls as [|[[frame_data is_last] now90k] rest IH];
    intros self; [reflexivity|].
  cbn [emit create_packet].
  specialize (IH (mk (ssrc self) ((seq_num self + 1) mod 65536)
                     (timestamp_base self))).
  destruct (emit _ rest) as [self2 packets]. simpl in *. now rewrite IH.
Qed.

(** The [n]-th packet of a run carries the counter the stream started
    with, advanced [n] times. *)
Lemma emit_nth_seq_num (calls : list (bytes * bool * Z)) :
  forall (self : t) (n : nat) (pkt : RTPPacket.t),
    0 <= seq_num self < 65536 ->
    nth_error (snd (emit self calls)) n = Some pkt ->
    RTPPacket.seq_num pkt = (seq_num self + Z.of_nat n) mod 65536.
Proof.
  induction calls as [|[[frame_data is_last] now90k] rest IH];
    intros self n pkt Hs Hn.
  - destruct n; discriminate.
  - cbn [emit create_packet] in Hn.
    pose proof (IH (mk (ssrc self) ((seq_num self + 1) mod 65536)
                       (timestamp_base self))) as IH'.
    destruct (emit _ rest) as [self2 packets]. cbn [snd] in *.
    destruct n as [|n].
    + injection Hn as <-. cbn [RTPPacket.seq_num].
      rewrite Z.add_0_r, Z.mod_small by exact Hs. reflexivity.
    + cbn [nth_error] in Hn.
      assert (Hb : 0 <= (seq_num self + 1) mod 65536 < 65536)
        by (apply Z.mod_pos_bound; lia).
      rewrite (IH' n pkt Hb Hn). cbn [seq_num]. rewrite Zplus_mod_idemp_l. f_equal. lia.
Qed.

(** C5. On one packetizer, freshly constructed, the packets returned by
    successive [create_packet] calls are numbered from 0: the first carries
    sequence number 0, the packet after one numbered [s] carries
    [(s + 1) mod 65536], and so the [n]-th (counting from 0) carries
    [n mod 65536]; one packet is produced per call. *)
Theorem packetizer_sequence_numbers
        (ssrc0 : option Z) (now now90k : Z)
        (calls : list (bytes * bool * Z)) :
  let packets := snd (emit (init ssrc0 now now90k) calls) in
  List.length packets = List.length calls /\
  (forall p, nth_error packets 0 = Some p -> RTPPacket.seq_num p = 0) /\
  (forall n p q,
     nth_error packets n = Some p -> nth_error packets (S n) = Some q ->
     RTPPacket.seq_num q = (RTPPacket.seq_num p + 1) mod 65536) /\
  (forall n p,
     nth_error packets n = Some p ->
     RTPPacket.seq_num p = Z.of_nat n mod 65536).
Proof.
  intros packets. subst packets.
  assert (H0 : 0 <= seq_num (init ssrc0 now now90k) < 65536)
    by (cbn [init seq_num]; lia).
  assert (Hnth : forall n p,
             nth_error (snd (emit (init ssrc0 now now90k) calls)) n = Some p ->
             RTPPacket.seq_num p = Z.of_nat n mod 65536).
  { intros n p Hn. rewrite (emit_nth_seq_num calls _ n p H0 Hn).
    reflexivity. }
  split; [apply emit_length|].
  split; [intros p Hp; apply (Hnth 0%nat p Hp)|].
  split; [|exact Hnth].
  intros n p q Hp Hq. rewrite (Hnth _ _ Hp), (Hnth _ _ Hq).
  rewrite Zplus_mod_idemp_l. f_equal. lia.
Qed.

Lemma packetizer_sequence_numbers_witness :
  let packets :=
    snd (emit (init None 1700000000 5)
              [([xff], true, 10); ([xd8], true, 20); ([], false, 30)]) in
  List.length packets = 3%nat /\
  (forall p, nth_error packets 0 = Some p -> RTPPacket.seq_num p = 0) /\
  (forall n p q,
     nth_error packets n = Some p -> nth_error packets (S n) = Some q ->
     RTPPacket.seq_num q = (RTPPacket.seq_num p + 1) mod 65536) /\
  (forall n p,
     nth_error packets n = Some p ->
     RTPPacket.seq_num p = Z.of_nat n mod 65536).
Proof.
  exact (packetizer_sequence_numbers None 1700000000 5
           [([xff], true, 10); ([xd8], true, 20); ([], false, 30)]).
Defined.

(** The counter wraps: the call made with the counter at 65535 returns a
    packet numbered 65535 and leaves the counter at 0. *)
Lemma create_packet_wraps (self : t) (frame_data : bytes) (m : bool) (now90k : Z) :
  seq_num self = 65535 ->
  RTPPacket.seq_num (snd (create_packet self frame_data m now90k)) = 65535 /\
  seq_num (fst (create_packet self frame_data m now90k)) = 0.
Proof.
  intros H. cbn [create_packet fst snd RTPPacket.seq_num seq_num].
  rewrite H. split; reflexivity.
Qed.

End RTPVideoStreamFacts.

(** ** Response text *)

Module ResponseText.
Import RTSPServer ClientSession.
Local Open Scope string_scope.
Local Open Scope Z_scope.

Lemma no_cr_app (a b : string) :
  no_cr (a ++ b) = no_cr a && no_cr b.
Proof.
  induction a as [|c a IH]; simpl; [reflexivity|].
  rewrite IH. apply andb_assoc.
Qed.

Lemma no_cr_string_of_uint (d : Decimal.uint) :
  no_cr (NilEmpty.string_of_uint d) = true.
Proof.
  induction d; simpl; auto.
Qed.

Lemma no_cr_str_of_Z (n : Z) : no_cr (str_of_Z n) = true.
Proof.
  unfold str_of_Z, NilZero.string_of_int, NilZero.string_of_uint.
  destruct (Z.to_int n) as [d|d]; destruct d;
    first [reflexivity | apply (no_cr_string_of_uint (_ _))
          | simpl; apply no_cr_string_of_uint ].
Qed.

Lemma no_cr_str_of_opt (x : option Z) : no_cr (str_of_opt x) = true.
Proof.
  destruct x; [apply no_cr_str_of_Z | reflexivity].
Qed.

(** Splitting at the first line break of a text whose first line has no
    carriage return. *)
Lemma split_from_crlf (a b : string) :
  no_cr a = true ->
  split_from CRLF 0 (a ++ CRLF ++ b) = (a, split CRLF b).
Proof.
  intros Ha. induction a as [|c a IH].
  - unfold split. cbn. destruct (split_from CRLF 0 b). reflexivity.
  - simpl in Ha. apply andb_prop in Ha as [Hc Ha].
    specialize (IH Ha).
    change ((String c a) ++ CRLF ++ b) with (String c (a ++ CRLF ++ b)).
    cbn [split_from]. unfold CRLF at 1. cbn [startswith].
    apply negb_true_iff in Hc.
    rewrite Ascii.eqb_sym, Hc. cbn [andb].
    rewrite IH. reflexivity.
Qed.

Lemma split_crlf_cons (a b : string) :
  no_cr a = true -> split CRLF (a ++ CRLF ++ b) = a :: split CRLF b.
Proof.
  intros Ha. unfold split at 1. rewrite split_from_crlf by exact Ha.
  reflexivity.
Qed.

Lemma generate_response_shape (code : Code) (cseq : Z) :
  generate_response code cseq
  = status_line code ++ CRLF ++ ("CSeq: " ++ str_of_Z cseq) ++ CRLF
    ++ EmptyString ++ CRLF ++ EmptyString.
Proof.
  destruct code; reflexivity.
Qed.

Lemma append_assoc (a b c : string) : (a ++ b) ++ c = a ++ b ++ c.
Proof.
  induction a as [|x a IH]; simpl; [reflexivity | now rewrite IH].
Qed.

Lemma session_response_shape (s : t) :
  session_response s
  = status_line OK ++ CRLF ++ ("CSeq: " ++ str_of_Z (seq_num s)) ++ CRLF
    ++ ("Session: " ++ str_of_opt (session_id s)) ++ CRLF
    ++ EmptyString ++ CRLF ++ EmptyString.
Proof.
  unfold session_response. rewrite !append_assoc. reflexivity.
Qed.

(** The [Transport] line of a SETUP reply. *)
Lemma setup_response_shape (s : t) (client_port : Z) :
  setup_response s client_port
  = status_line OK ++ CRLF ++ ("CSeq: " ++ str_of_Z (seq_num s)) ++ CRLF
    ++ ("Transport: RTP/UDP;client_port=" ++ str_of_Z client_port ++ "-"
        ++ str_of_Z (client_port + 1) ++ ";server_port="
        ++ str_of_opt (server_rtp_port s) ++ "-"
        ++ str_of_opt (option_map (fun p => p + 1) (server_rtp_port s)))
    ++ CRLF
    ++ ("Session: " ++ str_of_opt (session_id s)) ++ CRLF
    ++ EmptyString ++ CRLF ++ EmptyString.
Proof.
  unfold setup_response. rewrite !append_assoc. reflexivity.
Qed.

Lemma no_cr_status_line (code : Code) : no_cr (status_line code) = true.
Proof. destruct code; reflexivity. Qed.

Ltac no_cr_tac :=
  repeat first
    [ rewrite no_cr_app | rewrite no_cr_str_of_Z | rewrite no_cr_str_of_opt
    | rewrite no_cr_status_line ];
  reflexivity.

Lemma response_lines_generate (code : Code) (cseq : Z) :
  response_lines (generate_response code cseq)
  = [status_line code; "CSeq: " ++ str_of_Z cseq; EmptyString; EmptyString].
Proof.
  unfold response_lines. rewrite generate_response_shape.
  rewrite !split_crlf_cons by no_cr_tac. reflexivity.
Qed.

Lemma response_lines_session (s : t) :
  response_lines (session_response s)
  = [status_line OK; "CSeq: " ++ str_of_Z (seq_num s);
     "Session: " ++ str_of_opt (session_id s); EmptyString; EmptyString].
Proof.
  unfold response_lines. rewrite session_response_shape.
  rewrite !split_crlf_cons by no_cr_tac. reflexivity.
Qed.

Lemma response_lines_setup (s : t) (client_port : Z) :
  response_lines (setup_response s client_port)
  = [status_line OK; "CSeq: " ++ str_of_Z (seq_num s);
     "Transport: RTP/UDP;client_port=" ++ str_of_Z client_port ++ "-"
       ++ str_of_Z (client_port + 1) ++ ";server_port="
       ++ str_of_opt (server_rtp_port s) ++ "-"
       ++ str_of_opt (option_map (fun p => p + 1) (server_rtp_port s));
     "Session: " ++ str_of_opt (session_id s); EmptyString; EmptyString].
Proof.
  unfold response_lines. rewrite setup_response_shape.
  rewrite !split_crlf_cons by no_cr_tac. reflexivity.
Qed.

(** What a client reads off an error response: the status and the echoed
    sequence number, and no session header. *)
Lemma read_generate_response (code : Code) (cseq : Z) :
  response_status (generate_response code cseq) = str_of_Z (code_value code) /\
  header_value "CSeq" (generate_response code cseq) = Some (str_of_Z cseq) /\
  header_value "Session" (generate_response code cseq) = None.
Proof.
  unfold response_status, header_value.
  rewrite response_lines_generate.
  split; [destruct code; reflexivity|].
  split; reflexivity.
Qed.

(** What a client reads off the 200 response of PLAY, PAUSE and
    TEARDOWN. *)
Lemma read_session_response (s : t) :
  response_status (session_response s) = "200" /\
  header_value "CSeq" (session_response s) = Some (str_of_Z (seq_num s)) /\
  header_value "Session" (session_response s)
    = Some (str_of_opt (session_id s)).
Proof.
  unfold response_status, header_value.
  rewrite response_lines_session.
  repeat split; reflexivity.
Qed.

(** What a client reads off the 200 response of SETUP. *)
Lemma read_setup_response (s : t) (client_port : Z) :
  response_status (setup_response s client_port) = "200" /\
  header_value "CSeq" (setup_response s client_port)
    = Some (str_of_Z (seq_num s)) /\
  header_value "Session" (setup_response s client_port)
    = Some (str_of_opt (session_id s)) /\
  header_value "Transport" (setup_response s client_port)
    = Some ("RTP/UDP;client_port=" ++ str_of_Z client_port ++ "-"
            ++ str_of_Z (client_port + 1) ++ ";server_port="
            ++ str_of_opt (server_rtp_port s) ++ "-"
            ++ str_of_opt (option_map (fun p => p + 1) (server_rtp_port s))).
Proof.
  unfold response_status, header_value.
  rewrite response_lines_setup.
  repeat split; reflexivity.
Qed.

End ResponseText.

(** ** The session state machine *)

Module SessionFacts.
Import RTSPServer ClientSession ResponseText.
Local Open Scope string_scope.
Local Open Scope Z_scope.

(** [parse_rtsp_request] in terms of the request line, the header lines
    and the method dispatch. *)
Lemma parse_rtsp_request_eq (w : World) (request : string) (s : t) :
  parse_rtsp_request w request s =
    if len (request_line request) <? 3
    then (s, Ok (generate_response CON_ERR (seq_num s)))
    else
      match cseq_of 0 (header_lines request) with
      | Raise e => (s, Raise e)
      | Ok cseq =>
          let '(s', response) :=
            dispatch w (item (request_line request) 0)
                     (item (request_line request) 1)
                     (split LF (strip request)) cseq (set_seq_num cseq s) in
          (s', Ok response)
      end.
Proof.
  unfold parse_rtsp_request, request_line, header_lines, dispatch, split.
  destruct (split_from LF 0 (strip request)) as [p ps]. reflexivity.
Qed.

(** The five ways a SETUP ends. *)
Lemma handle_setup_cases (w : World) (url : string) (lines : list string)
      (s : t) :
  (resolve_video w url = None /\
   handle_setup w url lines s
     = (s, generate_response FILE_NOT_FOUND (seq_num s))) \/
  (exists path e,
     resolve_video w url = Some path /\
     client_port_of 25000 lines = Raise e /\
     handle_setup w url lines s
       = (s, generate_response CON_ERR (seq_num s))) \/
  (exists path port,
     resolve_video w url = Some path /\
     client_port_of 25000 lines = Ok port /\
     video_opens w path = false /\
     handle_setup w url lines s
       = (s, generate_response CON_ERR (seq_num s))) \/
  (exists path port,
     resolve_video w url = Some path /\
     client_port_of 25000 lines = Ok port /\
     video_opens w path = true /\ socket_opens w = false /\
     handle_setup w url lines s
       = (setup_bound w path port s,
          generate_response CON_ERR (seq_num s))) \/
  (exists path port,
     resolve_video w url = Some path /\
     client_port_of 25000 lines = Ok port /\
     video_opens w path = true /\ socket_opens w = true /\
     handle_setup w url lines s
       = (set_state READY
            (set_rtp_socket (Some (mkSocket false))
                            (setup_bound w path port s)),
          setup_response
            (set_rtp_socket (Some (mkSocket false))
                            (setup_bound w path port s)) port)).
Proof.
  unfold handle_setup, handle_setup_body.
  destruct (resolve_video w url) as [path|]; [|left; split; reflexivity].
  right.
  destruct (client_port_of 25000 lines) as [port|e];
    [|left; exists path, e; repeat split; reflexivity].
  right.
  destruct (video_opens w path) eqn:Hv; cbn [negb];
    [|left; exists path, port; repeat split; first [assumption|reflexivity]].
  right.
  destruct (socket_opens w) eqn:Hs; cbn [negb];
    [right|left]; exists path, port; repeat split;
    first [assumption|reflexivity].
Qed.

Lemma cleanup_session_id (s : t) : session_id (cleanup s) = session_id s.
Proof.
  unfold cleanup.
  destruct s as [? ? ? [v|] ? [k|] ? ? ?]; reflexivity.
Qed.

Lemma cleanup_state (s : t) : state (cleanup s) = INIT.
Proof.
  unfold cleanup.
  destruct s as [? ? ? [v|] ? [k|] ? ? ?]; reflexivity.
Qed.

Lemma cleanup_seq_num (s : t) : seq_num (cleanup s) = seq_num s.
Proof.
  unfold cleanup.
  destruct s as [? ? ? [v|] ? [k|] ? ? ?]; reflexivity.
Qed.

(** PLAY, PAUSE and TEARDOWN keep the stored sequence number and the
    session id, and answer from the session they leave. *)
Lemma handle_play_result (w : World) (s : t) :
  (state s = INIT /\
   handle_play w s = (s, generate_response CON_ERR (seq_num s))) \/
  (state s <> INIT /\
   exists s', handle_play w s = (s', session_response s') /\
              state s' = PLAYING /\ seq_num s' = seq_num s /\
              session_id s' = session_id s).
Proof.
  unfold handle_play.
  destruct s as [sq sid st vs rs sk cp sp [k|]]; destruct st;
    cbn [state streaming_thread set_state];
    try (left; split; reflexivity);
    right; (split; [discriminate|]);
    try destruct (thread_alive w); cbn [negb];
    eexists; repeat split; reflexivity.
Qed.

Lemma handle_pause_result (s : t) :
  exists s', handle_pause s = (s', session_response s') /\
             state s' = READY /\ seq_num s' = seq_num s /\
             session_id s' = session_id s.
Proof.
  unfold handle_pause. eexists. repeat split; reflexivity.
Qed.

Lemma handle_teardown_result (s : t) :
  exists s', handle_teardown s = (s', session_response s') /\
             state s' = INIT /\ seq_num s' = seq_num s /\
             session_id s' = session_id s.
Proof.
  unfold handle_teardown. eexists.
  split; [reflexivity|].
  rewrite cleanup_state, cleanup_seq_num, cleanup_session_id.
  repeat split; reflexivity.
Qed.

(** C3, as the code has it. On a session in state INIT, PLAY is rejected:
    the response is the 500 server error and the session is unchanged, so
    it stays in INIT.  PAUSE and TEARDOWN are not rejected: each is
    answered 200; PAUSE moves the session to READY, TEARDOWN leaves it in
    INIT. *)
Theorem first_call_in_init (w : World) (s : t) :
  state s = INIT ->
  (handle_play w s = (s, generate_response CON_ERR (seq_num s)) /\
   response_status (snd (handle_play w s)) = "500") /\
  (state (fst (handle_pause s)) = READY /\
   response_status (snd (handle_pause s)) = "200") /\
  (state (fst (handle_teardown s)) = INIT /\
   response_status (snd (handle_teardown s)) = "200").
Proof.
  intros Hst.
  assert (Hplay : handle_play w s = (s, generate_response CON_ERR (seq_num s))).
  { destruct (handle_play_result w s) as [[_ H]|[H _]];
      [exact H|contradiction]. }
  destruct (handle_pause_result s) as (s1 & Hpause & Hs1 & _).
  destruct (handle_teardown_result s) as (s2 & Htear & Hs2 & _).
  rewrite Hplay, Hpause, Htear. cbn [fst snd].
  split; [split; [reflexivity|]|split; split].
  - apply (read_generate_response CON_ERR (seq_num s)).
  - exact Hs1.
  - apply read_session_response.
  - exact Hs2.
  - apply read_session_response.
Qed.

Lemma first_call_in_init_witness :
  (handle_play (sample_world 100) init
     = (init, generate_response CON_ERR (seq_num init)) /\
   response_status (snd (handle_play (sample_world 100) init)) = "500") /\
  (state (fst (handle_pause init)) = READY /\
   response_status (snd (handle_pause init)) = "200") /\
  (state (fst (handle_teardown init)) = INIT /\
   response_status (snd (handle_teardown init)) = "200").
Proof.
  apply (first_call_in_init (sample_world 100) init). reflexivity.
Defined.

(** PAUSE and TEARDOWN as the first request of a new session are answered
    200, not 500, and PAUSE leaves the session in READY. *)
Lemma first_call_in_init_counterexample :
  state init = INIT /\
  parse_rtsp_request (sample_world 100)
      (message "PAUSE rtsp://localhost:8554/movie.mjpeg RTSP/1.0" ["CSeq: 1"])
      init
    = (set_state READY (set_seq_num 1 init),
       Ok ("RTSP/1.0 200 OK" ++ CRLF ++ "CSeq: 1" ++ CRLF
           ++ "Session: None" ++ CRLF ++ CRLF)) /\
  ~ (response_status (snd (handle_pause init)) = "500" /\
     state (fst (handle_pause init)) = INIT) /\
  ~ (response_status (snd (handle_teardown init)) = "500" /\
     state (fst (handle_teardown init)) = INIT).
Proof.
  split; [reflexivity|].
  split; [vm_compute; reflexivity|].
  split; intros [H _]; vm_compute in H; discriminate H.
Qed.

(** What the method dispatch returns: an error response built by
    [generate_response], the 200 response of PLAY, PAUSE or TEARDOWN, or
    the 200 response of SETUP; with what each does to the stored sequence
    number and the session id. *)
Lemma dispatch_result (w : World) (m url : string) (lines : list string)
      (c : Z) (s : t) :
  seq_num s = c ->
  (exists s' code,
     dispatch w m url lines c s = (s', generate_response code c) /\
     code <> OK /\ seq_num s' = c /\
     (session_id s' = session_id s \/
      (m = "SETUP" /\ session_id s' = Some (time_session w)))) \/
  (exists s',
     dispatch w m url lines c s = (s', session_response s') /\
     seq_num s' = c /\ session_id s' = session_id s /\ m <> "SETUP") \/
  (exists s' port,
     dispatch w m url lines c s = (set_state READY s', setup_response s' port) /\
     seq_num s' = c /\ session_id s' = Some (time_session w) /\
     m = "SETUP").
Proof.
  intros Hc. unfold dispatch.
  destruct (String.eqb_spec m "SETUP") as [Hm|Hm].
  { destruct (handle_setup_cases w url lines s)
      as [[_ H]|[(path & e & _ & _ & H)|[(path & port & _ & _ & _ & H)
         |[(path & port & _ & _ & _ & _ & H)
          |(path & port & _ & _ & _ & _ & H)]]]]; rewrite H, ?Hc.
    - left. exists s, FILE_NOT_FOUND.
      repeat split; [discriminate | exact Hc | left; reflexivity].
    - left. exists s, CON_ERR.
      repeat split; [discriminate | exact Hc | left; reflexivity].
    - left. exists s, CON_ERR.
      repeat split; [discriminate | exact Hc | left; reflexivity].
    - left. exists (setup_bound w path port s), CON_ERR.
      repeat split; [discriminate | exact Hc | right; split; [exact Hm|reflexivity]].
    - right. right. eexists. exists port.
      repeat split; [exact Hc | exact Hm]. }
  destruct (String.eqb m "PLAY").
  { destruct (handle_play_result w s)
      as [[_ H]|[_ (s' & H & _ & Hq & Hi)]]; rewrite H, ?Hc.
    - left. exists s, CON_ERR.
      repeat split; [discriminate | exact Hc | left; reflexivity].
    - right. left. exists s'. repeat split; [congruence | exact Hi | exact Hm]. }
  destruct (String.eqb m "PAUSE").
  { destruct (handle_pause_result s) as (s' & H & _ & Hq & Hi). rewrite H.
    right. left. exists s'. repeat split; [congruence | exact Hi | exact Hm]. }
  destruct (String.eqb m "TEARDOWN").
  { destruct (handle_teardown_result s) as (s' & H & _ & Hq & Hi). rewrite H.
    right. left. exists s'. repeat split; [congruence | exact Hi | exact Hm]. }
  left. exists s, CON_ERR.
  repeat split; [discriminate | exact Hc | left; reflexivity].
Qed.

Lemma status_of_error (code : Code) (c : Z) :
  code <> OK -> response_status (generate_response code c) <> "200".
Proof.
  intros Hcode.
  rewrite (proj1 (read_generate_response code c)).
  destruct code; [contradiction | discriminate | discriminate].
Qed.

(** What a request leaves in the stored sequence number. *)
Lemma cseq_of_absent (d : Z) (lines : list string) :
  (forall l, In l lines -> startswith "CSeq:" l = false) ->
  cseq_of d lines = Ok d.
Proof.
  induction lines as [|l lines IH]; intros H; [reflexivity|].
  cbn [cseq_of]. rewrite (H l (or_introl eq_refl)).
  apply IH. intros l' Hl'. apply H. right. exact Hl'.
Qed.

Lemma parse_stored_cseq (w : World) (prev : string) (s0 : t) :
  (len (request_line prev) < 3 ->
   fst (parse_rtsp_request w prev s0) = s0) /\
  (3 <= len (request_line prev) ->
   (forall cseq,
      cseq_of 0 (header_lines prev) = Ok cseq ->
      seq_num (fst (parse_rtsp_request w prev s0)) = cseq) /\
   (forall e,
      cseq_of 0 (header_lines prev) = Raise e ->
      fst (parse_rtsp_request w prev s0) = s0)).
Proof.
  rewrite parse_rtsp_request_eq. split.
  - intros Hlen. apply Z.ltb_lt in Hlen. rewrite Hlen. reflexivity.
  - intros Hlen. apply Z.ltb_ge in Hlen. rewrite Hlen. split.
    + intros cseq Hc. rewrite Hc.
      destruct (dispatch_result w (item (request_line prev) 0)
                  (item (request_line prev) 1) (split LF (strip prev))
                  cseq (set_seq_num cseq s0) eq_refl)
        as [(s' & code & Hd & _ & Hs & _)
           |[(s' & Hd & Hs & _)|(s' & port & Hd & Hs & _)]];
        rewrite Hd; exact Hs.
    + intros e He. rewrite He. reflexivity.
Qed.

(** C7, as the code has it. A control message whose first line has fewer
    than three whitespace-separated tokens is answered with the 500 server
    error, and the session is left as it was; the sequence number echoed
    is the one stored in the session, not one read from the message.  The
    stored number is 0 on a fresh session.  An earlier request that got
    past the three-token check stored the integer of its first CSeq header
    line, and stored 0 if it had no CSeq header line; an earlier request
    that failed the check, or whose CSeq was not an integer, left the
    stored number as it was. *)
Theorem malformed_request_line (w : World) (request : string) (s : t) :
  len (request_line request) < 3 ->
  parse_rtsp_request w request s
    = (s, Ok (generate_response CON_ERR (seq_num s))) /\
  response_status (generate_response CON_ERR (seq_num s)) = "500" /\
  header_value "CSeq" (generate_response CON_ERR (seq_num s))
    = Some (str_of_Z (seq_num s)) /\
  (s = init ->
   header_value "CSeq" (generate_response CON_ERR (seq_num s)) = Some "0") /\
  (forall w0 prev s0,
     s = fst (parse_rtsp_request w0 prev s0) ->
     (len (request_line prev) < 3 -> seq_num s = seq_num s0) /\
     (3 <= len (request_line prev) ->
      (forall cseq,
         cseq_of 0 (header_lines prev) = Ok cseq -> seq_num s = cseq) /\
      ((forall l, In l (header_lines prev) -> startswith "CSeq:" l = false) ->
       seq_num s = 0) /\
      (forall e,
         cseq_of 0 (header_lines prev) = Raise e -> seq_num s = seq_num s0))).
Proof.
  intros Hlen. rewrite parse_rtsp_request_eq.
  apply Z.ltb_lt in Hlen. rewrite Hlen.
  destruct (read_generate_response CON_ERR (seq_num s)) as (Hst & Hc & _).
  split; [reflexivity|]. split; [exact Hst|]. split; [exact Hc|].
  split; [intros ->; rewrite Hc; reflexivity|].
  intros w0 prev s0 ->.
  destruct (parse_stored_cseq w0 prev s0) as [Hshort Hlong].
  split; [intros H; rewrite (Hshort H); reflexivity|].
  intros H. destruct (Hlong H) as [Hok Hraise].
  split; [exact Hok|]. split.
  - intros Habs. apply Hok. apply cseq_of_absent. exact Habs.
  - intros e He. rewrite (Hraise e He). reflexivity.
Qed.

Lemma malformed_request_line_witness :
  let s := fst (parse_rtsp_request (sample_world 100)
                  (message "OPTIONS rtsp://localhost:8554/movie.mjpeg RTSP/1.0"
                           ["CSeq: 3"])
                  init) in
  parse_rtsp_request (sample_world 100) (message "PLAY" ["CSeq: 9"]) s
    = (s, Ok (generate_response CON_ERR (seq_num s))) /\
  response_status (generate_response CON_ERR (seq_num s)) = "500" /\
  header_value "CSeq" (generate_response CON_ERR (seq_num s))
    = Some (str_of_Z (seq_num s)) /\
  (s = init ->
   header_value "CSeq" (generate_response CON_ERR (seq_num s)) = Some "0") /\
  (forall w0 prev s0,
     s = fst (parse_rtsp_request w0 prev s0) ->
     (len (request_line prev) < 3 -> seq_num s = seq_num s0) /\
     (3 <= len (request_line prev) ->
      (forall cseq,
         cseq_of 0 (header_lines prev) = Ok cseq -> seq_num s = cseq) /\
      ((forall l, In l (header_lines prev) -> startswith "CSeq:" l = false) ->
       seq_num s = 0) /\
      (forall e,
         cseq_of 0 (header_lines prev) = Raise e -> seq_num s = seq_num s0))).
Proof.
  cbv zeta.
  apply (malformed_request_line (sample_world 100)
           (message "PLAY" ["CSeq: 9"])
           (fst (parse_rtsp_request (sample_world 100)
                   (message
                      "OPTIONS rtsp://localhost:8554/movie.mjpeg RTSP/1.0"
                      ["CSeq: 3"])
                   init))).
  vm_compute. reflexivity.
Defined.

(** After a request with CSeq 3 has been processed, a message with a
    one-token first line is answered with CSeq 3, not 0. *)
Lemma malformed_request_line_counterexample :
  len (request_line "PLAY") < 3 /\
  snd (handle_client init
         [(sample_world 100,
           message "OPTIONS rtsp://localhost:8554/movie.mjpeg RTSP/1.0"
                   ["CSeq: 3"]);
          (sample_world 100, "PLAY")])
    = [ "RTSP/1.0 500 Internal Server Error" ++ CRLF ++ "CSeq: 3" ++ CRLF
        ++ CRLF;
        "RTSP/1.0 500 Internal Server Error" ++ CRLF ++ "CSeq: 3" ++ CRLF
        ++ CRLF ] /\
  nth 1 (map (header_value "CSeq")
           (snd (handle_client init
                   [(sample_world 100,
                     message "OPTIONS rtsp://localhost:8554/movie.mjpeg RTSP/1.0"
                             ["CSeq: 3"]);
                    (sample_world 100, "PLAY")]))) None
    <> Some "0".
Proof.
  split; [vm_compute; reflexivity|].
  split; [vm_compute; reflexivity|].
  vm_compute. discriminate.
Qed.

(** C4, as the code has it. A new session has no session id.  Handling a
    request either leaves the session id as it was or sets it to the
    clock reading taken by SETUP; it is left as it was by every request
    whose method is not SETUP; and every SETUP answered 200 sets it, so a
    further successful SETUP replaces the id a previous one assigned. *)
Theorem session_token_assignment (w : World) (request : string) (s : t) :
  let s' := fst (parse_rtsp_request w request s) in
  session_id init = None /\
  (session_id s' = session_id s \/ session_id s' = Some (time_session w)) /\
  (item (request_line request) 0 <> "SETUP" -> session_id s' = session_id s) /\
  (forall response,
     snd (parse_rtsp_request w request s) = Ok response ->
     item (request_line request) 0 = "SETUP" ->
     response_status response = "200" ->
     session_id s' = Some (time_session w)).
Proof.
  intros s'. subst s'. rewrite parse_rtsp_request_eq.
  split; [reflexivity|].
  destruct (len (request_line request) <? 3).
  { cbn [fst snd]. split; [left; reflexivity|].
    split; [reflexivity|].
    intros response H _ Hst. injection H as <-.
    exfalso. revert Hst. apply status_of_error. discriminate. }
  destruct (cseq_of 0 (header_lines request)) as [c|e].
  2:{ cbn [fst snd]. split; [left; reflexivity|].
      split; [reflexivity|]. intros response H. discriminate H. }
  destruct (dispatch_result w (item (request_line request) 0)
              (item (request_line request) 1) (split LF (strip request))
              c (set_seq_num c s) eq_refl)
    as [(s1 & code & -> & Hcode & _ & Hid)
       |[(s1 & -> & _ & Hid & Hm)|(s1 & port & -> & _ & Hid & Hm)]];
    cbn [fst snd].
  - split; [destruct Hid as [Hid|[_ Hid]]; [left|right]; exact Hid|].
    split.
    + intros Hm. destruct Hid as [Hid|[Hm' _]]; [exact Hid|contradiction].
    + intros response H _ Hst. injection H as <-.
      exfalso. revert Hst. apply status_of_error. exact Hcode.
  - split; [left; exact Hid|].
    split; [intros _; exact Hid|].
    intros response _ Hm'. contradiction.
  - split; [right; exact Hid|].
    split; [intros Hm'; contradiction|].
    intros response _ _ _. exact Hid.
Qed.

Lemma session_token_assignment_witness :
  let w := sample_world 200 in
  let request :=
    message "SETUP rtsp://localhost:8554/movie.mjpeg RTSP/1.0"
            ["CSeq: 2"; "Transport: RTP/UDP;client_port=6000-6001"] in
  let s := set_session_id (Some 100) init in
  let s' := fst (parse_rtsp_request w request s) in
  session_id init = None /\
  (session_id s' = session_id s \/ session_id s' = Some (time_session w)) /\
  (item (request_line request) 0 <> "SETUP" -> session_id s' = session_id s) /\
  (forall response,
     snd (parse_rtsp_request w request s) = Ok response ->
     item (request_line request) 0 = "SETUP" ->
     response_status response = "200" ->
     session_id s' = Some (time_session w)).
Proof.
  exact (session_token_assignment (sample_world 200)
           (message "SETUP rtsp://localhost:8554/movie.mjpeg RTSP/1.0"
                    ["CSeq: 2"; "Transport: RTP/UDP;client_port=6000-6001"])
           (set_session_id (Some 100) init)).
Defined.

(** Two successful SETUPs on one session, at clock readings 100 and 200:
    both are answered 200, and the session id assigned by the first is
    replaced by the second. *)
Lemma session_token_assignment_counterexample :
  let request :=
    message "SETUP rtsp://localhost:8554/movie.mjpeg RTSP/1.0"
            ["CSeq: 1"; "Transport: RTP/UDP;client_port=6000-6001"] in
  let r1 := parse_rtsp_request (sample_world 100) request init in
  let r2 := parse_rtsp_request (sample_world 200) request (fst r1) in
  (exists a b, snd r1 = Ok a /\ response_status a = "200" /\
               snd r2 = Ok b /\ response_status b = "200") /\
  session_id (fst r1) = Some 100 /\
  session_id (fst r2) = Some 200 /\
  session_id (fst r2) <> session_id (fst r1).
Proof.
  cbv zeta. split.
  - eexists. eexists.
    split; [vm_compute; reflexivity|].
    split; [vm_compute; reflexivity|].
    split; [vm_compute; reflexivity|].
    vm_compute; reflexivity.
  - split; [vm_compute; reflexivity|].
    split; [vm_compute; reflexivity|].
    vm_compute. discriminate.
Qed.

(** C6, as the code has it. A request whose first line has at least three
    tokens and whose CSeq header, if any, holds an integer is always
    answered; the response carries the CSeq of that request (0 when it has
    no CSeq header), which is also what the session stores.  A 200
    response carries a Session header with the session id the session
    then holds; a 404 or 500 response carries no Session header, whether
    or not a session id has been assigned. *)
Theorem response_echo (w : World) (request : string) (s : t) (cseq : Z) :
  3 <= len (request_line request) ->
  cseq_of 0 (header_lines request) = Ok cseq ->
  exists s' response,
    parse_rtsp_request w request s = (s', Ok response) /\
    seq_num s' = cseq /\
    header_value "CSeq" response = Some (str_of_Z cseq) /\
    ((response_status response = "200" /\
      header_value "Session" response = Some (str_of_opt (session_id s'))) \/
     (response_status response <> "200" /\
      header_value "Session" response = None)).
Proof.
  intros Hlen Hcseq. rewrite parse_rtsp_request_eq.
  apply Z.ltb_ge in Hlen. rewrite Hlen, Hcseq.
  destruct (dispatch_result w (item (request_line request) 0)
              (item (request_line request) 1) (split LF (strip request))
              cseq (set_seq_num cseq s) eq_refl)
    as [(s1 & code & -> & Hcode & Hq & _)
       |[(s1 & -> & Hq & _)|(s1 & port & -> & Hq & _)]].
  - exists s1, (generate_response code cseq).
    destruct (read_generate_response code cseq) as (_ & Hc & Hs).
    repeat split; [exact Hq | exact Hc |].
    right. split; [apply status_of_error; exact Hcode | exact Hs].
  - exists s1, (session_response s1).
    destruct (read_session_response s1) as (Hst & Hc & Hs).
    repeat split; [exact Hq | rewrite Hc, Hq; reflexivity |].
    left. split; [exact Hst | exact Hs].
  - exists (set_state READY s1), (setup_response s1 port).
    destruct (read_setup_response s1 port) as (Hst & Hc & Hs & _).
    repeat split; [exact Hq | rewrite Hc, Hq; reflexivity |].
    left. split; [exact Hst | exact Hs].
Qed.

Lemma response_echo_witness :
  exists s' response,
    parse_rtsp_request (sample_world 100)
        (message "PLAY rtsp://localhost:8554/movie.mjpeg RTSP/1.0" ["CSeq: 7"])
        (set_state READY (set_session_id (Some 50) init))
      = (s', Ok response) /\
    seq_num s' = 7 /\
    header_value "CSeq" response = Some (str_of_Z 7) /\
    ((response_status response = "200" /\
      header_value "Session" response = Some (str_of_opt (session_id s'))) \/
     (response_status response <> "200" /\
      header_value "Session" response = None)).
Proof.
  apply (response_echo (sample_world 100)
           (message "PLAY rtsp://localhost:8554/movie.mjpeg RTSP/1.0" ["CSeq: 7"])
           (set_state READY (set_session_id (Some 50) init)) 7).
  - vm_compute. discriminate.
  - vm_compute. reflexivity.
Defined.

(** On a session whose id was assigned by a successful SETUP, a request
    with an unknown method is answered without a Session header; and a
    message with a one-token first line and CSeq 9, sent after a request
    with CSeq 1, is answered with CSeq 1. *)
Lemma response_echo_counterexample :
  let s1 :=
    fst (parse_rtsp_request (sample_world 100)
           (message "SETUP rtsp://localhost:8554/movie.mjpeg RTSP/1.0"
                    ["CSeq: 1"; "Transport: RTP/UDP;client_port=6000-6001"])
           init) in
  session_id s1 = Some 100 /\
  (exists response,
     parse_rtsp_request (sample_world 100)
         (message "OPTIONS rtsp://localhost:8554/movie.mjpeg RTSP/1.0"
                  ["CSeq: 2"]) s1
       = (set_seq_num 2 s1, Ok response) /\
     header_value "CSeq" response = Some "2" /\
     header_value "Session" response = None) /\
  (exists response,
     parse_rtsp_request (sample_world 100) (message "PLAY" ["CSeq: 9"]) s1
       = (s1, Ok response) /\
     cseq_of 0 (header_lines (message "PLAY" ["CSeq: 9"])) = Ok 9 /\
     header_value "CSeq" response = Some "1").
Proof.
  cbv zeta.
  split; [vm_compute; reflexivity|].
  split; eexists;
    (split; [vm_compute; reflexivity|]); split; vm_compute; reflexivity.
Qed.

Lemma client_port_of_absent (d : Z) (lines : list string) :
  (forall line, In line lines -> contains "client_port=" line = false) ->
  client_port_of d lines = Ok d.
Proof.
  induction lines as [|l rest IH]; intros H; [reflexivity|].
  cbn [client_port_of]. rewrite (H l) by (left; reflexivity).
  apply IH. intros line Hin. apply H. right. exact Hin.
Qed.

Lemma client_port_of_first (d : Z) (pre : list string) (line : string)
      (post : list string) :
  (forall l, In l pre -> contains "client_port=" l = false) ->
  contains "client_port=" line = true ->
  client_port_of d (pre ++ line :: post)%list
  = py_int (item (split "-" (item (split "client_port=" line) 1)) 0).
Proof.
  intros Hpre Hline. induction pre as [|l pre IH].
  - cbn [app client_port_of]. rewrite Hline. reflexivity.
  - cbn [app client_port_of]. rewrite (Hpre l) by (left; reflexivity).
    apply IH. intros l' Hin. apply Hpre. right. exact Hin.
Qed.

Lemma has_char_int_lstrip (c : ascii) (s : string) :
  has_char c s = true -> is_int_space c = false ->
  has_char c (int_lstrip s) = true.
Proof.
  intros Hs Hc. induction s as [|x s IH]; [discriminate Hs|].
  cbn [int_lstrip]. destruct (is_int_space x) eqn:Ex; [|exact Hs].
  apply IH. cbn [has_char] in Hs.
  destruct (Ascii.eqb_spec x c) as [->|_]; [congruence | exact Hs].
Qed.

Lemma has_char_int_rstrip (c : ascii) (s : string) :
  has_char c s = true -> is_int_space c = false ->
  has_char c (int_rstrip s) = true.
Proof.
  intros Hs Hc. induction s as [|x s IH]; [discriminate Hs|].
  cbn [int_rstrip]. cbn [has_char] in Hs.
  destruct (Ascii.eqb_spec x c) as [->|Hne].
  - destruct (int_rstrip s); [rewrite Hc|];
      cbn [has_char]; rewrite Ascii.eqb_refl; reflexivity.
  - cbn [orb] in Hs. specialize (IH Hs).
    destruct (int_rstrip s) as [|y r]; [discriminate IH|].
    cbn [has_char] in IH |- *. rewrite IH. apply orb_true_r.
Qed.

Lemma int_digits_bad (c : ascii) (s : string) :
  has_char c s = true -> digit_value c = None -> c <> "_"%char ->
  forall acc after_digit, int_digits s acc after_digit = None.
Proof.
  intros Hs Hd Hu. induction s as [|x s IH]; [discriminate Hs|].
  intros acc after_digit. cbn [has_char] in Hs. cbn [int_digits].
  destruct (Ascii.eqb_spec x c) as [->|Hne].
  - rewrite Hd. apply Ascii.eqb_neq in Hu. rewrite Hu. reflexivity.
  - cbn [orb] in Hs. specialize (IH Hs).
    destruct (digit_value x); [apply IH|].
    destruct (Ascii.eqb x "_" && after_digit); [apply IH | reflexivity].
Qed.

Lemma py_int_unsigned (s : string) (x : ascii) (t : string) :
  int_strip s = String x t -> x <> "-"%char -> x <> "+"%char ->
  py_int s = match int_digits (String x t) 0 false with
             | Some n => Ok n
             | None => Raise invalid_literal
             end.
Proof.
  intros Hs Hm Hp. unfold py_int. rewrite Hs.
  destruct x as [[] [] [] [] [] [] [] []]; try reflexivity; congruence.
Qed.

(** [int()] turns down a text that holds a character which is neither a
    digit, a sign, an underscore nor whitespace it skips. *)
Lemma py_int_bad_char (c : ascii) (s : string) :
  has_char c s = true -> digit_value c = None ->
  c <> "_"%char -> c <> "+"%char -> c <> "-"%char ->
  is_int_space c = false ->
  py_int s = Raise invalid_literal.
Proof.
  intros Hs Hd Hu Hp Hm Hc.
  pose proof (has_char_int_rstrip c _ (has_char_int_lstrip c s Hs Hc) Hc)
    as Ht.
  fold (int_strip s) in Ht.
  destruct (int_strip s) as [|x t] eqn:Es; [discriminate Ht|].
  cbn [has_char] in Ht.
  destruct (Ascii.eqb_spec x "-") as [->|Hxm].
  - destruct (Ascii.eqb_spec "-" c) as [Heq|_]; [congruence|].
    cbn [orb] in Ht. unfold py_int. rewrite Es. cbv zeta beta iota.
    rewrite (int_digits_bad c t Ht Hd Hu). reflexivity.
  - destruct (Ascii.eqb_spec x "+") as [->|Hxp].
    + destruct (Ascii.eqb_spec "+" c) as [Heq|_]; [congruence|].
      cbn [orb] in Ht. unfold py_int. rewrite Es. cbv zeta beta iota.
      rewrite (int_digits_bad c t Ht Hd Hu). reflexivity.
    + rewrite (py_int_unsigned s x t Es Hxm Hxp).
      rewrite (int_digits_bad c (String x t)); [reflexivity| |exact Hd|exact Hu].
      cbn [has_char]. exact Ht.
Qed.

(** C8, as the code has it. On a SETUP for an existing resource: when no
    line of the request mentions [client_port=] (no Transport header, or
    one without a client port) and the frame source and the socket open,
    the SETUP is answered 200 with the default client port 25000 in the
    Transport header, and the session is READY with that port.  When a
    line mentions [client_port=], the text between the first
    [client_port=] of the first such line and the next hyphen is handed to
    [int()]: if [int()] does not accept it, as whenever it holds a
    character that is neither a digit, a sign, an underscore nor
    whitespace that [int()] skips, the SETUP is answered with the 500
    server error and the session is left as it was; if [int()] accepts it
    and the frame source and the socket open, the SETUP is answered 200
    with that port. *)
Theorem setup_client_port (w : World) (url path : string)
        (lines : list string) (s : t) :
  resolve_video w url = Some path ->
  ((forall line, In line lines -> contains "client_port=" line = false) ->
   video_opens w path = true -> socket_opens w = true ->
   let r := handle_setup w url lines s in
   response_status (snd r) = "200" /\
   header_value "Transport" (snd r)
     = Some "RTP/UDP;client_port=25000-25001;server_port=25000-25001" /\
   client_rtp_port (fst r) = Some 25000 /\
   state (fst r) = READY) /\
  (forall pre line post,
     lines = (pre ++ line :: post)%list ->
     (forall l, In l pre -> contains "client_port=" l = false) ->
     contains "client_port=" line = true ->
     let text := item (split "-" (item (split "client_port=" line) 1)) 0 in
     ((forall n, py_int text <> Ok n) ->
      handle_setup w url lines s
        = (s, generate_response CON_ERR (seq_num s)) /\
      response_status (generate_response CON_ERR (seq_num s)) = "500") /\
     (forall c,
        has_char c text = true -> digit_value c = None ->
        c <> "_"%char -> c <> "+"%char -> c <> "-"%char ->
        is_int_space c = false ->
        forall n, py_int text <> Ok n) /\
     (forall n,
        py_int text = Ok n ->
        video_opens w path = true -> socket_opens w = true ->
        let r := handle_setup w url lines s in
        response_status (snd r) = "200" /\
        header_value "Transport" (snd r)
          = Some ("RTP/UDP;client_port=" ++ str_of_Z n ++ "-"
                  ++ str_of_Z (n + 1) ++ ";server_port=25000-25001") /\
        client_rtp_port (fst r) = Some n /\
        state (fst r) = READY)).
Proof.
  intros Hres. split.
  - intros Habsent Hv Hs r. subst r.
    pose proof (client_port_of_absent 25000 lines Habsent) as Hport.
    unfold handle_setup, handle_setup_body.
    rewrite Hres, Hport, Hv, Hs. cbn [negb fst snd].
    match goal with
    | |- response_status (setup_response ?b ?p) = _ /\ _ =>
        destruct (read_setup_response b p) as (Hst & _ & _ & Ht)
    end.
    split; [exact Hst|].
    split; [rewrite Ht; reflexivity|].
    split; reflexivity.
  - intros pre line post -> Hpre Hline text.
    pose proof (client_port_of_first 25000 pre line post Hpre Hline) as Hport.
    fold text in Hport.
    split; [|split].
    + intros Hno. unfold handle_setup, handle_setup_body.
      rewrite Hres, Hport.
      destruct (py_int text) as [n|e] eqn:E; [destruct (Hno n eq_refl)|].
      split; [reflexivity|].
      apply (read_generate_response CON_ERR (seq_num s)).
    + intros c Hc Hd Hu Hp Hm Hsp n.
      rewrite (py_int_bad_char c text Hc Hd Hu Hp Hm Hsp). discriminate.
    + intros n Hn Hv Hs r. subst r.
      unfold handle_setup, handle_setup_body.
      rewrite Hres, Hport, Hn, Hv, Hs. cbn [negb fst snd].
      match goal with
      | |- response_status (setup_response ?b ?p) = _ /\ _ =>
          destruct (read_setup_response b p) as (Hst & _ & _ & Ht)
      end.
      split; [exact Hst|].
      split; [rewrite Ht; reflexivity|].
      split; reflexivity.
Qed.

Lemma setup_client_port_witness :
  (let r := handle_setup (sample_world 100)
              "rtsp://localhost:8554/movie.mjpeg"
              ["SETUP rtsp://localhost:8554/movie.mjpeg RTSP/1.0"; "CSeq: 1"]
              init in
   response_status (snd r) = "200" /\
   header_value "Transport" (snd r)
     = Some "RTP/UDP;client_port=25000-25001;server_port=25000-25001" /\
   client_rtp_port (fst r) = Some 25000 /\
   state (fst r) = READY) /\
  (handle_setup (sample_world 100) "rtsp://localhost:8554/movie.mjpeg"
     ["SETUP rtsp://localhost:8554/movie.mjpeg RTSP/1.0";
      "Transport: RTP/UDP;client_port=abc"] init
     = (init, generate_response CON_ERR (seq_num init)) /\
   response_status (generate_response CON_ERR (seq_num init)) = "500") /\
  (handle_setup (sample_world 100) "rtsp://localhost:8554/movie.mjpeg"
     ["SETUP rtsp://localhost:8554/movie.mjpeg RTSP/1.0";
      "Transport: RTP/UDP;client_port=6000" ++ String "028" EmptyString] init
     = (init, generate_response CON_ERR (seq_num init)) /\
   response_status (generate_response CON_ERR (seq_num init)) = "500").
Proof.
  assert (Hres : resolve_video (sample_world 100)
                   "rtsp://localhost:8554/movie.mjpeg"
                 = Some "videos/movie.mjpeg") by (vm_compute; reflexivity).
  split; [|split].
  - apply (proj1 (setup_client_port (sample_world 100)
             "rtsp://localhost:8554/movie.mjpeg" "videos/movie.mjpeg"
             ["SETUP rtsp://localhost:8554/movie.mjpeg RTSP/1.0"; "CSeq: 1"]
             init Hres)).
    + intros line [<-|[<-|[]]]; vm_compute; reflexivity.
    + reflexivity.
    + reflexivity.
  - destruct (proj2 (setup_client_port (sample_world 100)
             "rtsp://localhost:8554/movie.mjpeg" "videos/movie.mjpeg"
             ["SETUP rtsp://localhost:8554/movie.mjpeg RTSP/1.0";
              "Transport: RTP/UDP;client_port=abc"]
             init Hres)
             ["SETUP rtsp://localhost:8554/movie.mjpeg RTSP/1.0"]
             "Transport: RTP/UDP;client_port=abc" [] eq_refl)
      as (H500 & Hbad & _).
    + intros l [<-|[]]. vm_compute. reflexivity.
    + vm_compute. reflexivity.
    + apply H500. apply (Hbad "a"%char).
      * vm_compute. reflexivity.
      * vm_compute. reflexivity.
      * discriminate.
      * discriminate.
      * discriminate.
      * vm_compute. reflexivity.
  - destruct (proj2 (setup_client_port (sample_world 100)
             "rtsp://localhost:8554/movie.mjpeg" "videos/movie.mjpeg"
             ["SETUP rtsp://localhost:8554/movie.mjpeg RTSP/1.0";
              "Transport: RTP/UDP;client_port=6000"
                ++ String "028" EmptyString]
             init Hres)
             ["SETUP rtsp://localhost:8554/movie.mjpeg RTSP/1.0"]
             ("Transport: RTP/UDP;client_port=6000"
                ++ String "028" EmptyString) [] eq_refl)
      as (H500 & Hbad & _).
    + intros l [<-|[]]. vm_compute. reflexivity.
    + vm_compute. reflexivity.
    + apply H500. apply (Hbad "028"%char).
      * vm_compute. reflexivity.
      * vm_compute. reflexivity.
      * discriminate.
      * discriminate.
      * discriminate.
      * vm_compute. reflexivity.
Defined.

(** A SETUP for an existing resource whose Transport header has a
    non-numeric client port is answered 500, and the session stays in
    INIT with no client port. *)
Lemma setup_client_port_counterexample :
  let w := sample_world 100 in
  let request :=
    message "SETUP rtsp://localhost:8554/movie.mjpeg RTSP/1.0"
            ["CSeq: 2"; "Transport: RTP/UDP;client_port=abc"] in
  resolve_video w (item (request_line request) 1) = Some "videos/movie.mjpeg" /\
  parse_rtsp_request w request init
    = (set_seq_num 2 init,
       Ok ("RTSP/1.0 500 Internal Server Error" ++ CRLF ++ "CSeq: 2" ++ CRLF
           ++ CRLF)) /\
  response_status (generate_response CON_ERR 2) <> "200".
Proof.
  cbv zeta.
  split; [vm_compute; reflexivity|].
  split; [vm_compute; reflexivity|].
  vm_compute. discriminate.
Qed.

End SessionFacts.

(** ** More on the packet codec *)

Module RTPPacketMore.
Import RTPPacket RTPPacketFacts.

Lemma byte_of_Z_eq (x : Z) (a : byte) :
  x mod 256 = Z_of_byte a -> byte_of_Z x = a.
Proof.
  intros H. unfold byte_of_Z. rewrite H. unfold Z_of_byte.
  rewrite N2Z.id, Byte.of_to_N. reflexivity.
Qed.

Lemma be_bytes_2 (a b : byte) : be_bytes 2 (be_value [a; b]) = [a; b].
Proof.
  pose proof (Z_of_byte_range a) as Ha. pose proof (Z_of_byte_range b) as Hb.
  unfold be_value. cbn [fold_left be_bytes].
  change (8 * Z.of_nat 1) with 8. change (8 * Z.of_nat 0) with 0.
  rewrite Z.shiftr_0_r, Z.shiftr_div_pow2 by lia. change (2 ^ 8) with 256.
  f_equal; [|f_equal]; apply byte_of_Z_eq;
    Z.to_euclidean_division_equations; lia.
Qed.

Lemma be_bytes_4 (a b c d : byte) :
  be_bytes 4 (be_value [a; b; c; d]) = [a; b; c; d].
Proof.
  pose proof (Z_of_byte_range a) as Ha. pose proof (Z_of_byte_range b) as Hb.
  pose proof (Z_of_byte_range c) as Hc. pose proof (Z_of_byte_range d) as Hd.
  unfold be_value. cbn [fold_left be_bytes].
  change (8 * Z.of_nat 3) with 24. change (8 * Z.of_nat 2) with 16.
  change (8 * Z.of_nat 1) with 8. change (8 * Z.of_nat 0) with 0.
  rewrite Z.shiftr_0_r, !Z.shiftr_div_pow2 by lia.
  change (2 ^ 8) with 256. change (2 ^ 16) with 65536.
  change (2 ^ 24) with 16777216.
  f_equal; [|f_equal; [|f_equal; [|f_equal]]]; apply byte_of_Z_eq;
    Z.to_euclidean_division_equations; lia.
Qed.

Lemma be_value_2_range (a b : byte) : 0 <= be_value [a; b] < 65536.
Proof.
  pose proof (Z_of_byte_range a). pose proof (Z_of_byte_range b).
  unfold be_value. cbn [fold_left]. lia.
Qed.

Lemma be_value_4_range (a b c d : byte) : 0 <= be_value [a; b; c; d] < 2 ^ 32.
Proof.
  pose proof (Z_of_byte_range a). pose proof (Z_of_byte_range b).
  pose proof (Z_of_byte_range c). pose proof (Z_of_byte_range d).
  unfold be_value. cbn [fold_left]. change (2 ^ 32) with 4294967296. lia.
Qed.

(** The bit fields cut out of a header byte lie in their ranges and put
    together give the byte back. *)
Lemma byte1_split (b : Z) :
  0 <= b < 256 ->
  0 <= Z.land (Z.shiftr b 6) 3 < 4 /\
  0 <= Z.land (Z.shiftr b 5) 1 < 2 /\
  0 <= Z.land (Z.shiftr b 4) 1 < 2 /\
  0 <= Z.land b 15 < 16 /\
  Z.land (Z.shiftr b 6) 3 * 64 + Z.land (Z.shiftr b 5) 1 * 32
    + Z.land (Z.shiftr b 4) 1 * 16 + Z.land b 15 = b.
Proof.
  intros Hb.
  change 3 with (Z.ones 2). change 1 with (Z.ones 1).
  change 15 with (Z.ones 4).
  rewrite !Z.land_ones, !Z.shiftr_div_pow2 by lia.
  change (2 ^ 6) with 64. change (2 ^ 5) with 32. change (2 ^ 4) with 16.
  change (2 ^ 2) with 4. change (2 ^ 1) with 2.
  repeat split; Z.to_euclidean_division_equations; lia.
Qed.

Lemma byte2_split (b : Z) :
  0 <= b < 256 ->
  0 <= Z.land (Z.shiftr b 7) 1 < 2 /\
  0 <= Z.land b 127 < 128 /\
  Z.land (Z.shiftr b 7) 1 * 128 + Z.land b 127 = b.
Proof.
  intros Hb.
  change 1 with (Z.ones 1). change 127 with (Z.ones 7).
  rewrite !Z.land_ones, !Z.shiftr_div_pow2 by lia.
  change (2 ^ 7) with 128. change (2 ^ 1) with 2.
  repeat split; Z.to_euclidean_division_equations; lia.
Qed.

(** A buffer of at least twelve bytes, taken apart. *)
Lemma long_buffer (packet_data : bytes) :
  12 <= len packet_data ->
  exists a0 a1 a2 a3 a4 a5 a6 a7 a8 a9 a10 a11 rest,
    packet_data
    = [a0; a1; a2; a3; a4; a5; a6; a7; a8; a9; a10; a11] ++ rest.
Proof.
  intros Hlen. unfold len in Hlen.
  do 12 (destruct packet_data as [|? packet_data];
         [simpl in Hlen; lia|]).
  repeat eexists.
Qed.

Lemma decode_packet_cons (a0 a1 a2 a3 a4 a5 a6 a7 a8 a9 a10 a11 : byte)
      (rest : bytes) :
  decode_packet ([a0; a1; a2; a3; a4; a5; a6; a7; a8; a9; a10; a11] ++ rest)
  = Ok (mk (Z.land (Z.shiftr (Z_of_byte a0) 6) 3)
           (Z.land (Z.shiftr (Z_of_byte a0) 5) 1)
           (Z.land (Z.shiftr (Z_of_byte a0) 4) 1)
           (Z.land (Z_of_byte a0) 15)
           (Z.land (Z.shiftr (Z_of_byte a1) 7) 1)
           (Z.land (Z_of_byte a1) 127)
           (be_value [a2; a3]) (be_value [a4; a5; a6; a7])
           (be_value [a8; a9; a10; a11]) rest).
Proof.
  unfold decode_packet.
  assert (Hlen : (len ([a0; a1; a2; a3; a4; a5; a6; a7; a8; a9; a10; a11]
                       ++ rest) <? HEADER_SIZE) = false).
  { apply Z.ltb_ge. unfold len, HEADER_SIZE. rewrite length_app.
    cbn [List.length]. lia. }
  rewrite Hlen. reflexivity.
Qed.

Lemma decoded_in_range (packet_data : bytes) (p : t) :
  decode_packet packet_data = Ok p -> in_range p.
Proof.
  intros Hdec.
  destruct (Z.ltb_spec (len packet_data) 12) as [Hlt|Hge].
  { rewrite (decode_packet_short packet_data Hlt) in Hdec. discriminate. }
  destruct (long_buffer packet_data Hge)
    as (a0 & a1 & a2 & a3 & a4 & a5 & a6 & a7 & a8 & a9 & a10 & a11 & rest & ->).
  rewrite decode_packet_cons in Hdec. injection Hdec as <-.
  destruct (byte1_split (Z_of_byte a0) (Z_of_byte_range a0))
    as (H1 & H2 & H3 & H4 & _).
  destruct (byte2_split (Z_of_byte a1) (Z_of_byte_range a1))
    as (H5 & H6 & _).
  unfold in_range. cbn [version padding extension cc marker pt seq_num
                        timestamp ssrc].
  repeat split; first
    [ apply H1 | apply H2 | apply H3 | apply H4 | apply H5 | apply H6
    | apply (be_value_2_range a2 a3)
    | apply (be_value_4_range a4 a5 a6 a7)
    | apply (be_value_4_range a8 a9 a10 a11) ].
Qed.

(** X1. Decoding never produces a field outside its range: whatever the
    bytes, the packet [decode_packet] returns has version 0..3, padding,
    extension and marker 0..1, CSRC count 0..15, payload type 0..127, a
    16-bit sequence number and 32-bit timestamp and SSRC. *)
Theorem decode_packet_in_range (packet_data : bytes) (p : t) :
  decode_packet packet_data = Ok p -> in_range p.
Proof.
  apply decoded_in_range.
Qed.

Lemma decode_packet_in_range_witness :
  in_range (mk 3 1 1 15 1 127 258 1 4294967295 [x2a]).
Proof.
  apply (decode_packet_in_range
           [xff; xff; x01; x02; x00; x00; x00; x01; xff; xff; xff; xff; x2a]).
  vm_compute. reflexivity.
Defined.

(** X2. Decoding loses nothing: re-encoding the packet decoded from a
    buffer gives back exactly the bytes of the buffer. *)
Theorem encode_decode_packet (packet_data : bytes) (p : t) :
  decode_packet packet_data = Ok p -> encode p = Ok packet_data.
Proof.
  intros Hdec. pose proof (decoded_in_range packet_data p Hdec) as Hr.
  destruct (Z.ltb_spec (len packet_data) 12) as [Hlt|Hge].
  { rewrite (decode_packet_short packet_data Hlt) in Hdec. discriminate. }
  destruct (long_buffer packet_data Hge)
    as (a0 & a1 & a2 & a3 & a4 & a5 & a6 & a7 & a8 & a9 & a10 & a11 & rest & ->).
  rewrite (encode_in_range p Hr), (byte1_in_range p Hr), (byte2_in_range p Hr).
  rewrite decode_packet_cons in Hdec. injection Hdec as <-.
  cbn [version padding extension cc marker pt seq_num timestamp ssrc payload].
  destruct (byte1_split (Z_of_byte a0) (Z_of_byte_range a0))
    as (_ & _ & _ & _ & ->).
  destruct (byte2_split (Z_of_byte a1) (Z_of_byte_range a1))
    as (_ & _ & ->).
  rewrite be_bytes_2, !be_bytes_4.
  cbn [be_bytes]. change (8 * Z.of_nat 0) with 0.
  rewrite !Z.shiftr_0_r, !byte_of_Z_of_byte. reflexivity.
Qed.

Lemma encode_decode_packet_witness :
  encode (mk 3 1 1 15 1 127 258 1 4294967295 [x2a])
  = Ok [xff; xff; x01; x02; x00; x00; x00; x01; xff; xff; xff; xff; x2a].
Proof.
  apply (encode_decode_packet
           [xff; xff; x01; x02; x00; x00; x00; x01; xff; xff; xff; xff; x2a]).
  vm_compute. reflexivity.
Defined.

(** Decoding what [encode] made of an in-range packet. *)
Lemma decode_packet_encode (p : t) (bs : bytes) :
  in_range p -> encode p = Ok bs -> decode_packet bs = Ok p.
Proof.
  intros Hr He.
  assert (Hbs : bs = be_bytes 1 (byte1 p) ++ be_bytes 1 (byte2 p) ++
                     be_bytes 2 (seq_num p) ++ be_bytes 4 (timestamp p) ++
                     be_bytes 4 (ssrc p) ++ payload p)
    by (pose proof (encode_in_range p Hr); congruence).
  rewrite Hbs, decode_packet_header. cbv zeta.
  rewrite !Z.shiftr_0_r, !Z_of_byte_of_Z.
  rewrite (byte1_in_range p Hr), (byte2_in_range p Hr).
  destruct Hr as (Hv & Hp & Hx & Hc & Hm & Hpt & Hs & Ht & Hss).
  rewrite !Z.mod_small by lia.
  destruct (byte1_fields _ _ _ _ Hv Hp Hx Hc) as (-> & -> & -> & ->).
  destruct (byte2_fields _ _ Hm Hpt) as (-> & ->).
  rewrite !be_value_be_bytes
    by (first [ change (2 ^ (8 * Z.of_nat 2)) with 65536
              | change (8 * Z.of_nat 4) with 32 ]; lia).
  destruct p; reflexivity.
Qed.

(** X3. Two packets with in-range fields that encode to the same bytes
    are the same packet: no header field and no payload byte is lost or
    shared in the encoding. *)
Theorem encode_injective (p q : t) (bs : bytes) :
  in_range p -> in_range q ->
  encode p = Ok bs -> encode q = Ok bs -> p = q.
Proof.
  intros Hp Hq Ep Eq.
  pose proof (decode_packet_encode p bs Hp Ep) as Dp.
  pose proof (decode_packet_encode q bs Hq Eq) as Dq.
  congruence.
Qed.

Lemma encode_injective_witness :
  mk 2 0 0 0 1 26 7 9 11 [xff; xd8] = mk 2 0 0 0 1 26 7 9 11 [xff; xd8].
Proof.
  apply (encode_injective (mk 2 0 0 0 1 26 7 9 11 [xff; xd8])
           (mk 2 0 0 0 1 26 7 9 11 [xff; xd8])
           [x80; x9a; x00; x07; x00; x00; x00; x09; x00; x00; x00; x0b; xff; xd8]).
  - unfold in_range; simpl; lia.
  - unfold in_range; simpl; lia.
  - vm_compute. reflexivity.
  - vm_compute. reflexivity.
Defined.

End RTPPacketMore.

(** ** More on the packetizer *)

Module RTPVideoStreamMore.
Import RTPVideoStream.

Lemma emit_state (calls : list (bytes * bool * Z)) (self : t) :
  ssrc (fst (emit self calls)) = ssrc self /\
  timestamp_base (fst (emit self calls)) = timestamp_base self /\
  seq_num (fst (emit self calls))
    = (seq_num self mod 65536 + Z.of_nat (List.length calls)) mod 65536
    \/ calls = [].
Proof.
  revert self. induction calls as [|[[frame_data is_last] now90k] rest IH];
    intros self; [right; reflexivity|left].
  cbn [emit create_packet].
  specialize (IH (mk (ssrc self) ((seq_num self + 1) mod 65536)
                     (timestamp_base self))).
  destruct (emit _ rest) as [self2 packets] eqn:E. cbn [fst] in *.
  destruct IH as [(H1 & H2 & H3) | -> ].
  - cbn [ssrc timestamp_base seq_num] in *.
    rewrite H1, H2, H3. repeat split.
    rewrite Z.mod_mod by lia. cbn [List.length].
    rewrite Zplus_mod_idemp_l. rewrite (Zplus_mod_idemp_l (seq_num self)).
    f_equal. lia.
  - cbn [emit] in E. injection E as <- _.
    cbn [ssrc timestamp_base seq_num List.length]. repeat split.
    rewrite Zplus_mod_idemp_l. reflexivity.
Qed.

Lemma emit_packets (calls : list (bytes * bool * Z)) (self : t) :
  Forall (fun p =>
            RTPPacket.version p = 2 /\ RTPPacket.padding p = 0 /\
            RTPPacket.extension p = 0 /\ RTPPacket.cc p = 0 /\
            RTPPacket.pt p = 26 /\ RTPPacket.ssrc p = ssrc self /\
            (RTPPacket.marker p = 0 \/ RTPPacket.marker p = 1))
         (snd (emit self calls)).
Proof.
  revert self. induction calls as [|[[frame_data is_last] now90k] rest IH];
    intros self; [constructor|].
  cbn [emit create_packet].
  specialize (IH (mk (ssrc self) ((seq_num self + 1) mod 65536)
                     (timestamp_base self))).
  destruct (emit _ rest) as [self2 packets]. cbn [snd ssrc] in *.
  constructor; [|exact IH].
  cbn. repeat split. destruct is_last; [right|left]; reflexivity.
Qed.

(** X4. A packetizer never changes its SSRC or its timestamp base, and
    its counter stays a 16-bit number; every packet it creates has version
    2, no padding, no extension, CSRC count 0, payload type 26, the SSRC
    of the stream and a marker bit of 0 or 1. *)
Theorem packetizer_invariants (calls : list (bytes * bool * Z)) (self : t) :
  0 <= seq_num self < 65536 ->
  ssrc (fst (emit self calls)) = ssrc self /\
  timestamp_base (fst (emit self calls)) = timestamp_base self /\
  0 <= seq_num (fst (emit self calls)) < 65536 /\
  Forall (fun p =>
            RTPPacket.version p = 2 /\ RTPPacket.padding p = 0 /\
            RTPPacket.extension p = 0 /\ RTPPacket.cc p = 0 /\
            RTPPacket.pt p = 26 /\ RTPPacket.ssrc p = ssrc self /\
            (RTPPacket.marker p = 0 \/ RTPPacket.marker p = 1))
         (snd (emit self calls)).
Proof.
  intros Hs.
  split; [|split; [|split; [|apply emit_packets]]].
  - destruct (emit_state calls self) as [(H & _) | -> ]; [exact H|reflexivity].
  - destruct (emit_state calls self) as [(_ & H & _) | -> ]; [exact H|reflexivity].
  - destruct (emit_state calls self) as [(_ & _ & ->) | -> ];
      [apply Z.mod_pos_bound; lia | exact Hs].
Qed.

Lemma packetizer_invariants_witness :
  let self := init (Some 77) 1700000000 5 in
  let calls := [([xff], true, 10); ([xd8], false, 20)] in
  ssrc (fst (emit self calls)) = ssrc self /\
  timestamp_base (fst (emit self calls)) = timestamp_base self /\
  0 <= seq_num (fst (emit self calls)) < 65536 /\
  Forall (fun p =>
            RTPPacket.version p = 2 /\ RTPPacket.padding p = 0 /\
            RTPPacket.extension p = 0 /\ RTPPacket.cc p = 0 /\
            RTPPacket.pt p = 26 /\ RTPPacket.ssrc p = ssrc self /\
            (RTPPacket.marker p = 0 \/ RTPPacket.marker p = 1))
         (snd (emit self calls)).
Proof.
  apply (packetizer_invariants [([xff], true, 10); ([xd8], false, 20)]
           (init (Some 77) 1700000000 5)).
  simpl. lia.
Defined.

(** X5. What [get_stats] reports as packets sent is the number of
    packets created so far modulo 65536: on a fresh stream it is the call
    count while that is below 65536, and it is back at 0 after 65536
    packets. *)
Theorem get_stats_packets_sent (ssrc0 : option Z) (now now90k later : Z)
        (calls : list (bytes * bool * Z)) :
  packets_sent (get_stats (fst (emit (init ssrc0 now now90k) calls)) later)
  = Z.of_nat (List.length calls) mod 65536.
Proof.
  cbn [get_stats packets_sent].
  destruct (emit_state calls (init ssrc0 now now90k)) as [(_ & _ & ->) | -> ].
  - cbn [init seq_num]. rewrite Z.mod_0_l by lia. reflexivity.
  - reflexivity.
Qed.

(** The packet [create_packet] returns, and what [encode] does with it. *)
Lemma encode_created (self : t) (frame_data : bytes) (is_last : bool)
      (now90k : Z) :
  RTPPacket.encode (snd (create_packet self frame_data is_last now90k))
  = (x3 <- pack_uint 2 (seq_num self) ;;
     x4 <- pack_uint 4 (timestamp_base self + now90k) ;;
     x5 <- pack_uint 4 (ssrc self) ;;
     Ok ((x80 :: (if is_last then x9a else x1a) :: x3 ++ x4 ++ x5)
           ++ frame_data)).
Proof.
  unfold RTPPacket.encode, struct_pack_BBHII, create_packet.
  cbn [snd RTPPacket.byte1 RTPPacket.byte2 RTPPacket.version
       RTPPacket.padding RTPPacket.extension RTPPacket.cc RTPPacket.marker
       RTPPacket.pt RTPPacket.seq_num RTPPacket.timestamp RTPPacket.ssrc
       RTPPacket.payload].
  destruct is_last.
  - change (pack_uint 1 _) with (@Ok bytes [x80]) at 1.
    change (pack_uint 1 _) with (@Ok bytes [x9a]) at 1.
    unfold bind.
    destruct (pack_uint 2 (seq_num self)); [|reflexivity].
    destruct (pack_uint 4 (timestamp_base self + now90k)); [|reflexivity].
    destruct (pack_uint 4 (ssrc self)); reflexivity.
  - change (pack_uint 1 _) with (@Ok bytes [x80]) at 1.
    change (pack_uint 1 _) with (@Ok bytes [x1a]) at 1.
    unfold bind.
    destruct (pack_uint 2 (seq_num self)); [|reflexivity].
    destruct (pack_uint 4 (timestamp_base self + now90k)); [|reflexivity].
    destruct (pack_uint 4 (ssrc self)); reflexivity.
Qed.

Lemma pack_uint_fails (n : nat) (v : Z) :
  ~ 0 <= v < 2 ^ (8 * Z.of_nat n) -> pack_uint n v = Raise StructError.
Proof.
  intros H. unfold pack_uint.
  destruct (Z.leb_spec 0 v); destruct (Z.ltb_spec v (2 ^ (8 * Z.of_nat n)));
    cbn [andb]; first [reflexivity | exfalso; apply H; lia].
Qed.

(** X6. A packet made by [create_packet] can be encoded exactly when the
    timestamp (timestamp base plus the 90 kHz clock reading) and the SSRC
    fit in 32 bits; otherwise [encode] raises [struct.error].  In
    particular it raises whenever base plus reading reaches 2^32. *)
Theorem encode_created_packet (self : t) (frame_data : bytes)
        (is_last : bool) (now90k : Z) :
  0 <= seq_num self < 65536 ->
  let packet := snd (create_packet self frame_data is_last now90k) in
  (0 <= timestamp_base self + now90k < 2 ^ 32 /\ 0 <= ssrc self < 2 ^ 32 ->
   exists header,
     RTPPacket.encode packet = Ok (header ++ frame_data) /\
     len header = 12) /\
  (~ (0 <= timestamp_base self + now90k < 2 ^ 32 /\ 0 <= ssrc self < 2 ^ 32) ->
   RTPPacket.encode packet = Raise StructError).
Proof.
  intros Hs packet. subst packet. rewrite encode_created.
  rewrite (pack_uint_ok 2 (seq_num self))
    by (change (2 ^ (8 * Z.of_nat 2)) with 65536; lia).
  cbn [bind]. split.
  - intros [Ht Hss].
    rewrite (pack_uint_ok 4 (timestamp_base self + now90k))
      by (change (8 * Z.of_nat 4) with 32; lia).
    rewrite (pack_uint_ok 4 (ssrc self))
      by (change (8 * Z.of_nat 4) with 32; lia).
    cbn [bind]. eexists. split; [reflexivity|].
    unfold len. cbn [List.length]. rewrite !length_app, !length_be_bytes.
    reflexivity.
  - intros Hn.
    destruct (Z.leb_spec 0 (timestamp_base self + now90k));
      destruct (Z.ltb_spec (timestamp_base self + now90k) (2 ^ 32));
      try (rewrite (pack_uint_fails 4 (timestamp_base self + now90k))
            by (change (8 * Z.of_nat 4) with 32; lia); reflexivity).
    rewrite (pack_uint_ok 4 (timestamp_base self + now90k))
      by (change (8 * Z.of_nat 4) with 32; lia).
    cbn [bind].
    rewrite (pack_uint_fails 4 (ssrc self))
      by (change (8 * Z.of_nat 4) with 32; lia).
    reflexivity.
Qed.

Lemma encode_created_packet_witness :
  let self := init (Some 77) 1700000000 (1700000000 * 90000) in
  let packet := snd (create_packet self [xff; xd8] true (1700000001 * 90000)) in
  ((0 <= timestamp_base self + 1700000001 * 90000 < 2 ^ 32 /\
    0 <= ssrc self < 2 ^ 32 ->
    exists header,
      RTPPacket.encode packet = Ok (header ++ [xff; xd8]) /\
      len header = 12) /\
   (~ (0 <= timestamp_base self + 1700000001 * 90000 < 2 ^ 32 /\
       0 <= ssrc self < 2 ^ 32) ->
    RTPPacket.encode packet = Raise StructError)) /\
  RTPPacket.encode packet = Raise StructError.
Proof.
  pose proof (encode_created_packet
                (init (Some 77) 1700000000 (1700000000 * 90000))
                [xff; xd8] true (1700000001 * 90000)) as H.
  assert (Hs : 0 <= seq_num (init (Some 77) 1700000000 (1700000000 * 90000))
               < 65536) by (simpl; lia).
  specialize (H Hs). split; [exact H|].
  apply (proj2 H). cbn [init timestamp_base ssrc]. lia.
Defined.

End RTPVideoStreamMore.

(** ** The streaming loop *)

Module StreamFacts.
Import RTSPServer.

Lemma pack_uint_ok_inv (n : nat) (v : Z) (bs : bytes) :
  pack_uint n v = Ok bs -> 0 <= v < 2 ^ (8 * Z.of_nat n).
Proof.
  unfold pack_uint.
  destruct (Z.leb_spec 0 v); destruct (Z.ltb_spec v (2 ^ (8 * Z.of_nat n)));
    cbn [andb]; intros Hp; first [discriminate Hp | lia].
Qed.

(** A packet as [create_packet] makes them is in range once [encode]
    accepts it. *)
Lemma created_in_range (m sq ts ss : Z) (frame_data d : bytes) :
  (m = 0 \/ m = 1) -> 0 <= sq < 65536 ->
  RTPPacket.encode (RTPPacket.mk 2 0 0 0 m 26 sq ts ss frame_data) = Ok d ->
  RTPPacket.in_range (RTPPacket.mk 2 0 0 0 m 26 sq ts ss frame_data).
Proof.
  intros Hm Hsq He.
  unfold RTPPacket.encode, struct_pack_BBHII, bind in He.
  cbn [RTPPacket.seq_num RTPPacket.timestamp RTPPacket.ssrc] in He.
  destruct (pack_uint 1 _); [|discriminate].
  destruct (pack_uint 1 _); [|discriminate].
  destruct (pack_uint 2 sq); [|discriminate].
  destruct (pack_uint 4 ts) eqn:Et; [|discriminate].
  destruct (pack_uint 4 ss) eqn:Es; [|discriminate].
  apply pack_uint_ok_inv in Et, Es.
  change (8 * Z.of_nat 4) with 32 in Et, Es.
  unfold RTPPacket.in_range. cbn. lia.
Qed.

(** X7. A frame survives the trip through the packetizer and the codec:
    when [encode] accepts the packet [create_packet] made for a frame,
    decoding the bytes gives that packet back, with the frame as payload,
    the marker bit as asked, and the counter, timestamp and SSRC of the
    stream. *)
Theorem frame_round_trip (self : RTPVideoStream.t) (frame_data d : bytes)
        (is_last : bool) (now90k : Z) :
  0 <= RTPVideoStream.seq_num self < 65536 ->
  RTPPacket.encode
    (snd (RTPVideoStream.create_packet self frame_data is_last now90k)) = Ok d ->
  RTPPacket.decode_packet d
  = Ok (RTPPacket.mk 2 0 0 0 (if is_last then 1 else 0) 26
          (RTPVideoStream.seq_num self)
          (RTPVideoStream.timestamp_base self + now90k)
          (RTPVideoStream.ssrc self) frame_data).
Proof.
  intros Hs He. cbn [RTPVideoStream.create_packet snd] in He.
  apply RTPPacketMore.decode_packet_encode; [|exact He].
  apply (created_in_range _ _ _ _ _ d); [destruct is_last; auto | exact Hs | exact He].
Qed.

Lemma frame_round_trip_witness :
  RTPPacket.decode_packet
    [x80; x9a; x00; x00; x00; x00; x00; x0f; x00; x00; x00; x4d; xff; xd8]
  = Ok (RTPPacket.mk 2 0 0 0 1 26 0 15 77 [xff; xd8]).
Proof.
  apply (frame_round_trip (RTPVideoStream.init (Some 77) 1 5)
           [xff; xd8]
           [x80; x9a; x00; x00; x00; x00; x00; x0f; x00; x00; x00; x4d; xff; xd8]
           true 10).
  - simpl. lia.
  - vm_compute. reflexivity.
Defined.

(** X8. The end of the video and frames shorter than 100 bytes are
    passed over: they send nothing, use no sequence number and do not
    count as frames, so a run of the loop is the run on the remaining
    passes alone. *)
Theorem stream_video_skips (iterations : list (option bytes * Z * bool))
        (rtp_stream : option RTPVideoStream.t) (can_send : bool) (n : Z) :
  stream_video_loop rtp_stream can_send n iterations
  = stream_video_loop rtp_stream can_send n (filter sendable iterations).
Proof.
  revert rtp_stream n.
  induction iterations as [|[[[frame_data|] now90k] ok] rest IH];
    intros rtp_stream n; [reflexivity| |].
  - cbn [filter sendable]. destruct (frame_ok frame_data) eqn:Hf.
    + cbn [stream_video_loop]. rewrite Hf. cbn [negb].
      destruct rtp_stream as [stream|]; [|reflexivity].
      cbn [RTPVideoStream.create_packet].
      destruct (RTPPacket.encode _); [|reflexivity].
      destruct (can_send && ok); [|reflexivity].
      rewrite IH. reflexivity.
    + cbn [stream_video_loop]. rewrite Hf. cbn [negb]. apply IH.
  - cbn [filter sendable stream_video_loop]. apply IH.
Qed.

(** What a run of the loop sends, datagram by datagram. *)
Lemma stream_loop_sent (iterations : list (option bytes * Z * bool)) :
  forall (stream : RTPVideoStream.t) (can_send : bool) (n : Z)
         (rs : option RTPVideoStream.t) (n' : Z) (sent : list bytes)
         (e : StreamEnd),
    0 <= RTPVideoStream.seq_num stream < 65536 ->
    stream_video_loop (Some stream) can_send n iterations = (rs, n', sent, e) ->
    n' = n + len sent /\
    (sent <> [] -> can_send = true) /\
    forall i d,
      nth_error sent i = Some d ->
      exists frame_data now90k,
        In (Some frame_data, now90k, true) iterations /\
        frame_ok frame_data = true /\
        RTPPacket.encode
          (RTPPacket.mk 2 0 0 0 1 26
             ((RTPVideoStream.seq_num stream + Z.of_nat i) mod 65536)
             (RTPVideoStream.timestamp_base stream + now90k)
             (RTPVideoStream.ssrc stream) frame_data) = Ok d.
Proof.
  induction iterations as [|[[[frame_data|] now90k] ok] rest IH];
    intros stream can_send n rs n' sent e Hs Hrun.
  - cbn in Hrun. injection Hrun as <- <- <- <-.
    unfold len. cbn. split; [lia|]. split; [congruence|].
    intros i d Hi. destruct i; discriminate.
  - cbn [stream_video_loop] in Hrun.
    destruct (frame_ok frame_data) eqn:Hf; cbn [negb] in Hrun.
    + cbn [RTPVideoStream.create_packet] in Hrun.
      destruct (RTPPacket.encode _) as [encoded|] eqn:He.
      2:{ injection Hrun as <- <- <- <-. unfold len. cbn.
          split; [lia|]. split; [congruence|].
          intros i d Hi. destruct i; discriminate. }
      destruct can_send; destruct ok; cbn [andb] in Hrun;
        try (injection Hrun as <- <- <- <-; unfold len; cbn;
             split; [lia|]; split; [congruence|];
             intros i d Hi; destruct i; discriminate).
      destruct (stream_video_loop _ true (n + 1) rest)
        as [[[rs1 n1] sent1] e1] eqn:Hrest.
      injection Hrun as <- <- <- <-.
      assert (Hs1 : 0 <= (RTPVideoStream.seq_num stream + 1) mod 65536 < 65536)
        by (apply Z.mod_pos_bound; lia).
      pose proof (fun H => IH _ _ _ _ _ _ _ H Hrest) as IH'.
      cbn [RTPVideoStream.seq_num] in IH'.
      destruct (IH' Hs1) as (Hn & _ & Hsent).
      split; [unfold len in *; cbn [List.length]; lia|].
      split; [reflexivity|].
      intros i d Hi. destruct i as [|i].
      * injection Hi as <-. exists frame_data, now90k.
        split; [left; reflexivity|]. split; [exact Hf|].
        rewrite Z.add_0_r, Z.mod_small by exact Hs. exact He.
      * destruct (Hsent i d Hi) as (f & t & Hin & Hok & Henc).
        exists f, t. split; [right; exact Hin|]. split; [exact Hok|].
        cbn [RTPVideoStream.seq_num RTPVideoStream.timestamp_base
             RTPVideoStream.ssrc] in Henc.
        rewrite Zplus_mod_idemp_l in Henc.
        replace (RTPVideoStream.seq_num stream + Z.of_nat (S i))
          with (RTPVideoStream.seq_num stream + 1 + Z.of_nat i) by lia.
        exact Henc.
    + destruct (IH _ _ _ _ _ _ _ Hs Hrun) as (Hn & Hc & Hsent).
      split; [exact Hn|]. split; [exact Hc|].
      intros i d Hi. destruct (Hsent i d Hi) as (f & t & Hin & Hrest).
      exists f, t. split; [right; exact Hin | exact Hrest].
  - cbn [stream_video_loop] in Hrun.
    destruct (IH _ _ _ _ _ _ _ Hs Hrun) as (Hn & Hc & Hsent).
    split; [exact Hn|]. split; [exact Hc|].
    intros i d Hi. destruct (Hsent i d Hi) as (f & t & Hin & Hrest).
    exists f, t. split; [right; exact Hin | exact Hrest].
Qed.

(** X9. Every datagram the loop sends is a well-formed RTP packet for one
    of the frames it was given: it decodes to version 2, marker bit set,
    payload type 26 and the SSRC of the stream, its payload is a frame of
    at least 100 bytes read in one of the passes, stamped with the
    timestamp base plus the clock reading of that pass, and it is twelve
    bytes longer than the frame. *)
Theorem stream_video_datagrams
        (iterations : list (option bytes * Z * bool))
        (stream : RTPVideoStream.t) (can_send : bool) (n : Z)
        (rs : option RTPVideoStream.t) (n' : Z) (sent : list bytes)
        (e : StreamEnd) :
  0 <= RTPVideoStream.seq_num stream < 65536 ->
  stream_video_loop (Some stream) can_send n iterations = (rs, n', sent, e) ->
  forall d, In d sent ->
    exists p now90k,
      RTPPacket.decode_packet d = Ok p /\
      RTPPacket.version p = 2 /\ RTPPacket.marker p = 1 /\
      RTPPacket.pt p = 26 /\
      RTPPacket.ssrc p = RTPVideoStream.ssrc stream /\
      RTPPacket.timestamp p = RTPVideoStream.timestamp_base stream + now90k /\
      In (Some (RTPPacket.payload p), now90k, true) iterations /\
      100 <= len (RTPPacket.payload p) /\
      len d = 12 + len (RTPPacket.payload p).
Proof.
  intros Hs Hrun d Hd.
  destruct (stream_loop_sent iterations stream can_send n rs n' sent e Hs Hrun)
    as (_ & _ & Hsent).
  apply In_nth_error in Hd. destruct Hd as [i Hi].
  destruct (Hsent i d Hi) as (frame_data & now90k & Hin & Hok & Henc).
  assert (Hsq : 0 <= (RTPVideoStream.seq_num stream + Z.of_nat i) mod 65536
                < 65536) by (apply Z.mod_pos_bound; lia).
  pose proof (created_in_range 1 _ _ _ _ d (or_intror eq_refl) Hsq Henc) as Hr.
  pose proof (RTPPacketMore.decode_packet_encode _ d Hr Henc) as Hdec.
  eexists. exists now90k. split; [exact Hdec|].
  cbn [RTPPacket.version RTPPacket.marker RTPPacket.pt RTPPacket.ssrc
       RTPPacket.timestamp RTPPacket.payload].
  repeat split; try reflexivity; try exact Hin.
  - unfold frame_ok in Hok. apply negb_true_iff, Z.ltb_ge in Hok. exact Hok.
  - rewrite (RTPPacketFacts.encode_in_range _ Hr) in Henc.
    injection Henc as <-. unfold len. cbn [List.length].
    rewrite ?length_app. cbn [List.length RTPPacket.payload]. lia.
Qed.

Lemma stream_video_datagrams_witness :
  exists p now90k,
    RTPPacket.decode_packet
      ([x80; x9a; x00; x00; x00; x00; x00; x0f; x00; x00; x00; x4d]
         ++ repeat x2a 100) = Ok p /\
    RTPPacket.version p = 2 /\ RTPPacket.marker p = 1 /\
    RTPPacket.pt p = 26 /\
    RTPPacket.ssrc p = RTPVideoStream.ssrc (RTPVideoStream.init (Some 77) 1 5) /\
    RTPPacket.timestamp p
      = RTPVideoStream.timestamp_base (RTPVideoStream.init (Some 77) 1 5)
        + now90k /\
    In (Some (RTPPacket.payload p), now90k, true)
       [(None, 9, true); (Some [xff], 9, true);
        (Some (repeat x2a 100), 10, true)] /\
    100 <= len (RTPPacket.payload p) /\
    len ([x80; x9a; x00; x00; x00; x00; x00; x0f; x00; x00; x00; x4d]
           ++ repeat x2a 100)
    = 12 + len (RTPPacket.payload p).
Proof.
  apply (stream_video_datagrams
           [(None, 9, true); (Some [xff], 9, true);
            (Some (repeat x2a 100), 10, true)]
           (RTPVideoStream.init (Some 77) 1 5) true 0
           (Some (RTPVideoStream.mk 77 1 5)) 1
           [[x80; x9a; x00; x00; x00; x00; x00; x0f; x00; x00; x00; x4d]
            ++ repeat x2a 100]
           StateChanged).
  - simpl. lia.
  - vm_compute. reflexivity.
  - left. reflexivity.
Defined.

(** X10. The datagrams of a run are numbered consecutively from the
    counter the packetizer had when the run began, modulo 65536, with no
    number used by a frame that was not sent before; and [frame_count]
    grows by exactly the number of datagrams sent. *)
Theorem stream_video_numbering
        (iterations : list (option bytes * Z * bool))
        (stream : RTPVideoStream.t) (can_send : bool) (n : Z)
        (rs : option RTPVideoStream.t) (n' : Z) (sent : list bytes)
        (e : StreamEnd) :
  0 <= RTPVideoStream.seq_num stream < 65536 ->
  stream_video_loop (Some stream) can_send n iterations = (rs, n', sent, e) ->
  n' = n + len sent /\
  forall i d,
    nth_error sent i = Some d ->
    exists p,
      RTPPacket.decode_packet d = Ok p /\
      RTPPacket.seq_num p
      = (RTPVideoStream.seq_num stream + Z.of_nat i) mod 65536.
Proof.
  intros Hs Hrun.
  destruct (stream_loop_sent iterations stream can_send n rs n' sent e Hs Hrun)
    as (Hn & _ & Hsent).
  split; [exact Hn|].
  intros i d Hi.
  destruct (Hsent i d Hi) as (frame_data & now90k & Hin & Hok & Henc).
  assert (Hsq : 0 <= (RTPVideoStream.seq_num stream + Z.of_nat i) mod 65536
                < 65536) by (apply Z.mod_pos_bound; lia).
  pose proof (created_in_range 1 _ _ _ _ d (or_intror eq_refl) Hsq Henc) as Hr.
  pose proof (RTPPacketMore.decode_packet_encode _ d Hr Henc) as Hdec.
  eexists. split; [exact Hdec | reflexivity].
Qed.

Lemma stream_video_numbering_witness :
  let sent :=
    [[x80; x9a; xff; xff; x00; x00; x00; x0f; x00; x00; x00; x4d]
       ++ repeat x2a 100;
     [x80; x9a; x00; x00; x00; x00; x00; x10; x00; x00; x00; x4d]
       ++ repeat x2b 100] in
  3 = 1 + len sent /\
  forall i d,
    nth_error sent i = Some d ->
    exists p,
      RTPPacket.decode_packet d = Ok p /\
      RTPPacket.seq_num p
      = (RTPVideoStream.seq_num (RTPVideoStream.mk 77 65535 5) + Z.of_nat i)
        mod 65536.
Proof.
  apply (stream_video_numbering
           [(Some (repeat x2a 100), 10, true); (Some [xff], 10, true);
            (Some (repeat x2b 100), 11, true)]
           (RTPVideoStream.mk 77 65535 5) true 1
           (Some (RTPVideoStream.mk 77 1 5)) 3
           [[x80; x9a; xff; xff; x00; x00; x00; x0f; x00; x00; x00; x4d]
              ++ repeat x2a 100;
            [x80; x9a; x00; x00; x00; x00; x00; x10; x00; x00; x00; x4d]
              ++ repeat x2b 100]
           StateChanged).
  - simpl. lia.
  - vm_compute. reflexivity.
Defined.

(** X11. When the timestamp base plus the clock reading is 2^32 or more
    in every pass, as with a base and readings taken from [time.time() *
    90000], the loop never sends a datagram: the first frame of at least
    100 bytes makes [encode] raise and ends the run with a streaming
    error. *)
Theorem stream_video_clock_overflow
        (iterations : list (option bytes * Z * bool))
        (stream : RTPVideoStream.t) (can_send : bool) (n : Z) :
  (forall frame now90k ok,
     In (frame, now90k, ok) iterations ->
     2 ^ 32 <= RTPVideoStream.timestamp_base stream + now90k) ->
  exists rs,
    stream_video_loop (Some stream) can_send n iterations
    = (rs, n, [],
       if existsb sendable iterations then StreamingError else StateChanged).
Proof.
  intros Hclock.
  induction iterations as [|[[[frame_data|] now90k] ok] rest IH].
  - eexists. reflexivity.
  - cbn [stream_video_loop existsb sendable].
    destruct (frame_ok frame_data) eqn:Hf; cbn [negb orb].
    + cbn [RTPVideoStream.create_packet].
      destruct (RTPPacket.encode _) as [d|] eqn:He; [|eexists; reflexivity].
      exfalso.
      assert (Hsq : 0 <= 0 < 65536) by lia.
      pose proof (Hclock (Some frame_data) now90k ok (or_introl eq_refl)) as Ht.
      unfold RTPPacket.encode, struct_pack_BBHII, bind in He.
      cbn [RTPPacket.seq_num RTPPacket.timestamp RTPPacket.ssrc] in He.
      destruct (pack_uint 1 _); [|discriminate].
      destruct (pack_uint 1 _); [|discriminate].
      destruct (pack_uint 2 _); [|discriminate].
      destruct (pack_uint 4 (RTPVideoStream.timestamp_base stream + now90k))
        eqn:Et; [|discriminate].
      apply pack_uint_ok_inv in Et. change (8 * Z.of_nat 4) with 32 in Et. lia.
    + apply IH. intros f t o Hin. apply (Hclock f t o). right. exact Hin.
  - cbn [stream_video_loop existsb sendable orb].
    apply IH. intros f t o Hin. apply (Hclock f t o). right. exact Hin.
Qed.

Lemma stream_video_clock_overflow_witness :
  exists rs,
    stream_video_loop
      (Some (RTPVideoStream.init None 1700000000 (1700000000 * 90000)))
      true 0
      [(None, 1700000001 * 90000, true);
       (Some (repeat x2a 100), 1700000001 * 90000, true)]
    = (rs, 0, [],
       if existsb sendable
            [(None, 1700000001 * 90000, true);
             (Some (repeat x2a 100), 1700000001 * 90000, true)]
       then StreamingError else StateChanged).
Proof.
  apply (stream_video_clock_overflow
           [(None, 1700000001 * 90000, true);
            (Some (repeat x2a 100), 1700000001 * 90000, true)]
           (RTPVideoStream.init None 1700000000 (1700000000 * 90000)) true 0).
  intros frame now90k ok [H|[H|[]]]; injection H as _ <- _;
    cbn [RTPVideoStream.init RTPVideoStream.timestamp_base]; lia.
Defined.

Lemma stream_loop_cannot_send (iterations : list (option bytes * Z * bool)) :
  forall (rtp_stream : option RTPVideoStream.t) (n : Z),
    snd (fst (stream_video_loop rtp_stream false n iterations)) = [].
Proof.
  induction iterations as [|[[[frame_data|] now90k] ok] rest IH];
    intros rtp_stream n; [reflexivity| |].
  - cbn [stream_video_loop].
    destruct (frame_ok frame_data); cbn [negb]; [|apply IH].
    destruct rtp_stream as [stream|]; [|reflexivity].
    cbn [RTPVideoStream.create_packet].
    destruct (RTPPacket.encode _); reflexivity.
  - cbn [stream_video_loop]. apply IH.
Qed.

Lemma stream_video_unusable (session : ClientSession.t)
      (iterations : list (option bytes * Z * bool)) :
  match ClientSession.rtp_socket session,
        ClientSession.client_rtp_port session with
  | Some sock, Some _ => negb (socket_closed sock)
  | _, _ => false
  end = false ->
  snd (fst (stream_video session iterations)) = [].
Proof.
  intros Hu. unfold stream_video.
  destruct iterations as [|it rest]; [reflexivity|].
  destruct (ClientSession.video_stream session); [|reflexivity].
  rewrite Hu.
  pose proof (stream_loop_cannot_send (it :: rest)
                (ClientSession.rtp_stream session) 0) as H.
  destruct (stream_video_loop (ClientSession.rtp_stream session) false 0
                              (it :: rest)) as [[[a b] c] d].
  exact H.
Qed.

(** X12. After TEARDOWN nothing more is streamed: on the session that
    [handle_teardown] leaves, whatever frames the loop is given, no
    datagram is sent. *)
Theorem no_stream_after_teardown
        (session : ClientSession.t)
        (iterations : list (option bytes * Z * bool)) :
  snd (fst (stream_video (fst (handle_teardown session)) iterations)) = [].
Proof.
  apply stream_video_unusable.
  unfold handle_teardown. cbn [fst].
  destruct session as [sq sid st [v|] rs [k|] [cp|] sp th]; reflexivity.
Qed.

End StreamFacts.

(** ** More on the session state machine *)

Module SessionMore.
Import RTSPServer ClientSession ResponseText SessionFacts.
Local Open Scope string_scope.
Local Open Scope Z_scope.

(** X13. [cleanup] only releases: it puts the session in INIT and closes
    the socket and the frame source if there are any, and leaves the
    stored sequence number, the session id, the packetizer, the ports and
    the thread handle as they were; doing it twice changes nothing
    more. *)
Theorem cleanup_releases (s : t) :
  cleanup (cleanup s) = cleanup s /\
  state (cleanup s) = INIT /\
  (forall k, rtp_socket (cleanup s) = Some k -> socket_closed k = true) /\
  (forall v, video_stream (cleanup s) = Some v -> video_closed v = true) /\
  (rtp_socket (cleanup s) = None <-> rtp_socket s = None) /\
  (video_stream (cleanup s) = None <-> video_stream s = None) /\
  seq_num (cleanup s) = seq_num s /\
  session_id (cleanup s) = session_id s /\
  rtp_stream (cleanup s) = rtp_stream s /\
  client_rtp_port (cleanup s) = client_rtp_port s /\
  server_rtp_port (cleanup s) = server_rtp_port s /\
  streaming_thread (cleanup s) = streaming_thread s.
Proof.
  destruct s as [sq sid st [v|] rs [k|] cp sp th]; unfold cleanup; cbn;
    repeat split; try congruence;
    intros x H; injection H as <-; reflexivity.
Qed.

Lemma handle_client_final (requests : list (World * string)) :
  forall s, exists s0, fst (handle_client s requests) = cleanup s0.
Proof.
  induction requests as [|[w request] rest IH]; intros s.
  - exists s. reflexivity.
  - cbn [handle_client].
    destruct (String.eqb request EmptyString); [exists s; reflexivity|].
    destruct (parse_rtsp_request w request s) as [s1 [response|e]].
    + destruct (IH s1) as [s0 H0].
      destruct (handle_client s1 rest) as [s2 responses].
      exists s0. exact H0.
    + exists s1. reflexivity.
Qed.

Lemma handle_client_length (requests : list (World * string)) :
  forall s,
    (List.length (snd (handle_client s requests))
     <= List.length requests)%nat.
Proof.
  induction requests as [|[w request] rest IH]; intros s; [apply le_n|].
  cbn [handle_client].
  destruct (String.eqb request EmptyString); [cbn; lia|].
  destruct (parse_rtsp_request w request s) as [s1 [response|e]];
    [|cbn; lia].
  specialize (IH s1). destruct (handle_client s1 rest) as [s2 responses].
  cbn in *. lia.
Qed.

(** X14. However a connection ends, its session is released: whatever
    the requests, after [handle_client] the session is in INIT, and its
    socket and its frame source, if it has any, are closed; and no more
    responses were sent than requests received. *)
Theorem handle_client_releases (s : t) (requests : list (World * string)) :
  let s' := fst (handle_client s requests) in
  state s' = INIT /\
  (forall k, rtp_socket s' = Some k -> socket_closed k = true) /\
  (forall v, video_stream s' = Some v -> video_closed v = true) /\
  (List.length (snd (handle_client s requests))
   <= List.length requests)%nat.
Proof.
  intros s'. subst s'.
  destruct (handle_client_final requests s) as [s0 ->].
  split; [apply cleanup_state|].
  split; [|split; [|apply handle_client_length]].
  - destruct s0 as [sq sid st [v|] rs [k|] cp sp th]; unfold cleanup; cbn;
      intros x H; first [discriminate H | injection H as <-; reflexivity].
  - destruct s0 as [sq sid st [v|] rs [k|] cp sp th]; unfold cleanup; cbn;
      intros x H; first [discriminate H | injection H as <-; reflexivity].
Qed.

(** X15. A SETUP for a resource that is neither in the media directory
    nor an [.mp4] file in the working directory is answered 404 with the
    CSeq of the request and no Session header; nothing of the session
    changes but the stored sequence number. *)
Theorem setup_not_found (w : World) (request : string) (s : t) (cseq : Z) :
  3 <= len (request_line request) ->
  item (request_line request) 0 = "SETUP" ->
  cseq_of 0 (header_lines request) = Ok cseq ->
  resolve_video w (item (request_line request) 1) = None ->
  parse_rtsp_request w request s
    = (set_seq_num cseq s, Ok (generate_response FILE_NOT_FOUND cseq)) /\
  response_status (generate_response FILE_NOT_FOUND cseq) = "404" /\
  header_value "CSeq" (generate_response FILE_NOT_FOUND cseq)
    = Some (str_of_Z cseq) /\
  header_value "Session" (generate_response FILE_NOT_FOUND cseq) = None.
Proof.
  intros Hlen Hm Hc Hres.
  split; [|apply (read_generate_response FILE_NOT_FOUND cseq)].
  rewrite parse_rtsp_request_eq.
  apply Z.ltb_ge in Hlen. rewrite Hlen, Hc.
  unfold dispatch. rewrite Hm. cbn [String.eqb Ascii.eqb Bool.eqb andb].
  unfold handle_setup, handle_setup_body. rewrite Hres. reflexivity.
Qed.

Lemma setup_not_found_witness :
  parse_rtsp_request (sample_world 100)
      (message "SETUP rtsp://localhost:8554/other.mjpeg RTSP/1.0" ["CSeq: 4"])
      (set_session_id (Some 50) init)
    = (set_seq_num 4 (set_session_id (Some 50) init),
       Ok (generate_response FILE_NOT_FOUND 4)) /\
  response_status (generate_response FILE_NOT_FOUND 4) = "404" /\
  header_value "CSeq" (generate_response FILE_NOT_FOUND 4)
    = Some (str_of_Z 4) /\
  header_value "Session" (generate_response FILE_NOT_FOUND 4) = None.
Proof.
  apply (setup_not_found (sample_world 100)
           (message "SETUP rtsp://localhost:8554/other.mjpeg RTSP/1.0"
                    ["CSeq: 4"])
           (set_session_id (Some 50) init) 4);
    vm_compute; first [reflexivity | discriminate].
Defined.

(** X16. A request whose method is none of SETUP, PLAY, PAUSE and
    TEARDOWN (the comparison is exact, so also a method in lower case) is
    answered with the 500 server error carrying the CSeq of the request;
    the session keeps its state and everything else but the stored
    sequence number. *)
Theorem unknown_method (w : World) (request : string) (s : t) (cseq : Z) :
  3 <= len (request_line request) ->
  item (request_line request) 0 <> "SETUP" ->
  item (request_line request) 0 <> "PLAY" ->
  item (request_line request) 0 <> "PAUSE" ->
  item (request_line request) 0 <> "TEARDOWN" ->
  cseq_of 0 (header_lines request) = Ok cseq ->
  parse_rtsp_request w request s
    = (set_seq_num cseq s, Ok (generate_response CON_ERR cseq)) /\
  response_status (generate_response CON_ERR cseq) = "500" /\
  header_value "CSeq" (generate_response CON_ERR cseq) = Some (str_of_Z cseq).
Proof.
  intros Hlen H1 H2 H3 H4 Hc.
  destruct (read_generate_response CON_ERR cseq) as (Hst & Hcs & _).
  split; [|split; [exact Hst | exact Hcs]].
  rewrite parse_rtsp_request_eq.
  apply Z.ltb_ge in Hlen. rewrite Hlen, Hc.
  unfold dispatch.
  apply String.eqb_neq in H1, H2, H3, H4.
  rewrite H1, H2, H3, H4. reflexivity.
Qed.

Lemma unknown_method_witness :
  parse_rtsp_request (sample_world 100)
      (message "play rtsp://localhost:8554/movie.mjpeg RTSP/1.0" ["CSeq: 6"])
      (set_state READY init)
    = (set_seq_num 6 (set_state READY init),
       Ok (generate_response CON_ERR 6)) /\
  response_status (generate_response CON_ERR 6) = "500" /\
  header_value "CSeq" (generate_response CON_ERR 6) = Some (str_of_Z 6).
Proof.
  apply (unknown_method (sample_world 100)
           (message "play rtsp://localhost:8554/movie.mjpeg RTSP/1.0"
                    ["CSeq: 6"])
           (set_state READY init) 6);
    vm_compute; first [reflexivity | discriminate].
Defined.

(** X17. A CSeq header that does not hold an integer is not answered at
    all: [parse_rtsp_request] raises with the session untouched, and the
    connection loop ends there, sending no response to that request or to
    any later one and releasing the session. *)
Theorem bad_cseq_ends_connection (w : World) (request : string) (s : t)
        (e : exn) (rest : list (World * string)) :
  request <> EmptyString ->
  3 <= len (request_line request) ->
  cseq_of 0 (header_lines request) = Raise e ->
  parse_rtsp_request w request s = (s, Raise e) /\
  handle_client s ((w, request) :: rest) = (cleanup s, []).
Proof.
  intros Hne Hlen Hc.
  assert (Hp : parse_rtsp_request w request s = (s, Raise e)).
  { rewrite parse_rtsp_request_eq.
    apply Z.ltb_ge in Hlen. rewrite Hlen, Hc. reflexivity. }
  split; [exact Hp|].
  cbn [handle_client]. apply String.eqb_neq in Hne. rewrite Hne, Hp.
  reflexivity.
Qed.

Lemma bad_cseq_ends_connection_witness :
  parse_rtsp_request (sample_world 100)
      (message "PLAY rtsp://localhost:8554/movie.mjpeg RTSP/1.0" ["CSeq: x"])
      (set_state READY init)
    = (set_state READY init, Raise invalid_literal) /\
  handle_client (set_state READY init)
      [(sample_world 100,
        message "PLAY rtsp://localhost:8554/movie.mjpeg RTSP/1.0" ["CSeq: x"]);
       (sample_world 100,
        message "PLAY rtsp://localhost:8554/movie.mjpeg RTSP/1.0" ["CSeq: 2"])]
    = (cleanup (set_state READY init), []).
Proof.
  apply (bad_cseq_ends_connection (sample_world 100)
           (message "PLAY rtsp://localhost:8554/movie.mjpeg RTSP/1.0"
                    ["CSeq: x"])
           (set_state READY init) invalid_literal
           [(sample_world 100,
             message "PLAY rtsp://localhost:8554/movie.mjpeg RTSP/1.0"
                     ["CSeq: 2"])]);
    vm_compute; first [reflexivity | discriminate].
Defined.

(** X18. One playback cycle on a session that a SETUP has left READY (or
    that is PLAYING): PLAY, PAUSE, PLAY, TEARDOWN take it through
    PLAYING, READY, PLAYING and INIT, each answered 200 with the same
    session id and the stored sequence number; a PLAY after the TEARDOWN
    is rejected with the 500 server error, and the session id is still
    the same. *)
Theorem playback_cycle (w1 w2 w3 : World) (s : t) :
  state s <> INIT ->
  let r1 := handle_play w1 s in
  let r2 := handle_pause (fst r1) in
  let r3 := handle_play w2 (fst r2) in
  let r4 := handle_teardown (fst r3) in
  let r5 := handle_play w3 (fst r4) in
  (state (fst r1) = PLAYING /\ state (fst r2) = READY /\
   state (fst r3) = PLAYING /\ state (fst r4) = INIT /\
   state (fst r5) = INIT) /\
  (forall r, In r [r1; r2; r3; r4] ->
     response_status (snd r) = "200" /\
     header_value "CSeq" (snd r) = Some (str_of_Z (seq_num s)) /\
     header_value "Session" (snd r) = Some (str_of_opt (session_id s))) /\
  response_status (snd r5) = "500" /\
  session_id (fst r5) = session_id s.
Proof.
  intros Hst r1 r2 r3 r4 r5.
  destruct (handle_play_result w1 s)
    as [[H _]|[_ (s1 & E1 & St1 & Q1 & I1)]]; [contradiction|].
  destruct (handle_pause_result s1) as (s2 & E2 & St2 & Q2 & I2).
  assert (Hn2 : state s2 <> INIT) by (rewrite St2; discriminate).
  destruct (handle_play_result w2 s2)
    as [[H _]|[_ (s3 & E3 & St3 & Q3 & I3)]]; [contradiction|].
  destruct (handle_teardown_result s3) as (s4 & E4 & St4 & Q4 & I4).
  destruct (handle_play_result w3 s4) as [[_ E5]|[H _]]; [|contradiction].
  subst r1 r2 r3 r4 r5.
  rewrite E1. cbn [fst snd]. rewrite E2. cbn [fst snd].
  rewrite E3. cbn [fst snd]. rewrite E4. cbn [fst snd]. rewrite E5.
  cbn [fst snd].
  split; [repeat split; assumption|].
  split.
  - assert (Hresp : forall s', seq_num s' = seq_num s ->
               session_id s' = session_id s ->
               response_status (session_response s') = "200" /\
               header_value "CSeq" (session_response s')
                 = Some (str_of_Z (seq_num s)) /\
               header_value "Session" (session_response s')
                 = Some (str_of_opt (session_id s))).
    { intros s' Hq Hi.
      destruct (read_session_response s') as (A & B & C).
      rewrite B, C, Hq, Hi. repeat split; [exact A]. }
    intros r [<-|[<-|[<-|[<-|[]]]]]; cbn [snd]; apply Hresp; congruence.
  - split; [apply (read_generate_response CON_ERR (seq_num s4))|congruence].
Qed.

Lemma playback_cycle_witness :
  let s := set_state READY (set_session_id (Some 100) (set_seq_num 3 init)) in
  let r1 := handle_play (sample_world 1) s in
  let r2 := handle_pause (fst r1) in
  let r3 := handle_play (sample_world 2) (fst r2) in
  let r4 := handle_teardown (fst r3) in
  let r5 := handle_play (sample_world 3) (fst r4) in
  (state (fst r1) = PLAYING /\ state (fst r2) = READY /\
   state (fst r3) = PLAYING /\ state (fst r4) = INIT /\
   state (fst r5) = INIT) /\
  (forall r, In r [r1; r2; r3; r4] ->
     response_status (snd r) = "200" /\
     header_value "CSeq" (snd r) = Some (str_of_Z (seq_num s)) /\
     header_value "Session" (snd r) = Some (str_of_opt (session_id s))) /\
  response_status (snd r5) = "500" /\
  session_id (fst r5) = session_id s.
Proof.
  apply (playback_cycle (sample_world 1) (sample_world 2) (sample_world 3)
           (set_state READY (set_session_id (Some 100) (set_seq_num 3 init)))).
  discriminate.
Defined.

Lemma split_slash_pieces (s : string) :
  has_char "/" (fst (split_from "/" 0 s)) = false /\
  Forall (fun x => has_char "/" x = false) (snd (split_from "/" 0 s)).
Proof.
  induction s as [|c s IH]; [split; [reflexivity|constructor]|].
  cbn [split_from startswith String.length Nat.sub].
  destruct IH as [IH1 IH2].
  destruct (split_from "/" 0 s) as [piece pieces]. cbn [fst snd] in *.
  rewrite andb_true_r.
  destruct (Ascii.eqb_spec "/" c) as [<-|Hc]; cbn [fst snd].
  - split; [reflexivity|]. constructor; assumption.
  - split; [|exact IH2]. cbn [has_char]. rewrite IH1, orb_false_r.
    apply Ascii.eqb_neq. congruence.
Qed.

Lemma last_Forall {A : Type} (P : A -> Prop) (l : list A) (d : A) :
  P d -> Forall P l -> P (last l d).
Proof.
  intros Hd Hl. induction Hl as [|x l Hx Hl IH]; [exact Hd|].
  destruct l as [|y l]; [exact Hx|]. apply IH.
Qed.

(** The name SETUP looks up has no slash in it. *)
Lemma filename_no_slash (url : string) :
  has_char "/" (last (split "/" url) EmptyString) = false.
Proof.
  unfold split. destruct (split_slash_pieces url) as [H1 H2].
  destruct (split_from "/" 0 url) as [piece pieces]. cbn [fst snd] in *.
  apply (last_Forall (fun x => has_char "/" x = false));
    [reflexivity | constructor; assumption].
Qed.

Lemma join_videos (f : string) :
  has_char "/" f = false -> os_path_join "videos" f = "videos/" ++ f.
Proof.
  intros Hf. unfold os_path_join.
  destruct f as [|c f]; [reflexivity|].
  cbn [has_char] in Hf. apply orb_false_iff in Hf as [Hc _].
  cbn [startswith]. rewrite Ascii.eqb_sym, Hc. reflexivity.
Qed.

(** X19. SETUP can only bind a file of the media directory or of the
    working directory: the name it looks up is what follows the last
    slash of the URL, so it contains no slash, and the path bound is
    either [videos/] followed by that name, or the bare name when it ends
    in [.mp4] (in any case of letters) and is not in the media directory;
    in both cases a path that exists. *)
Theorem resolve_video_confined (w : World) (url path : string) :
  resolve_video w url = Some path ->
  let filename := last (split "/" url) EmptyString in
  has_char "/" filename = false /\
  path_exists w path = true /\
  (path = "videos/" ++ filename \/
   (path = filename /\ endswith ".mp4" (lower filename) = true /\
    path_exists w ("videos/" ++ filename) = false)).
Proof.
  intros Hres filename. subst filename.
  pose proof (filename_no_slash url) as Hf.
  split; [exact Hf|].
  unfold resolve_video in Hres. rewrite (join_videos _ Hf) in Hres.
  destruct (path_exists w ("videos/" ++ last (split "/" url) EmptyString))
    eqn:E1.
  - injection Hres as <-. split; [exact E1 | left; reflexivity].
  - destruct (path_exists w (last (split "/" url) EmptyString)) eqn:E2;
      [|discriminate].
    destruct (endswith ".mp4" (lower (last (split "/" url) EmptyString)))
      eqn:E3; [|discriminate].
    injection Hres as <-. split; [exact E2|]. right. repeat split.
Qed.

Lemma resolve_video_confined_witness :
  let filename := last (split "/" "rtsp://host:8554/a/../clip.MP4") EmptyString in
  has_char "/" filename = false /\
  path_exists (mkWorld (String.eqb "clip.MP4") (fun _ => true) true 0 0 0 true)
              "clip.MP4" = true /\
  ("clip.MP4" = "videos/" ++ filename \/
   ("clip.MP4" = filename /\ endswith ".mp4" (lower filename) = true /\
    path_exists (mkWorld (String.eqb "clip.MP4") (fun _ => true) true 0 0 0 true)
                ("videos/" ++ filename) = false)).
Proof.
  apply (resolve_video_confined
           (mkWorld (String.eqb "clip.MP4") (fun _ => true) true 0 0 0 true)
           "rtsp://host:8554/a/../clip.MP4" "clip.MP4").
  vm_compute. reflexivity.
Defined.

End SessionMore.

(** ** Numbers in protocol text *)

Module TextFacts.
Import RTSPServer.
Local Open Scope string_scope.
Local Open Scope Z_scope.

Ltac eval_digit :=
  match goal with
  | |- context [digit_value ?c] =>
      let v := eval vm_compute in (digit_value c) in
      change (digit_value c) with v; cbv iota beta
  end.

Lemma int_digits_acc (d : Decimal.uint) :
  forall acc : positive,
    int_digits (NilEmpty.string_of_uint d) (Z.pos acc) true
    = Some (Z.pos (Pos.of_uint_acc d acc)).
Proof.
  induction d; intros acc; cbn [NilEmpty.string_of_uint Pos.of_uint_acc];
    [reflexivity| ..];
    (etransitivity; [|apply IHd]);
    cbn [int_digits]; eval_digit; f_equal; lia.
Qed.

Lemma int_digits_uint (d : Decimal.uint) :
  int_digits (NilEmpty.string_of_uint d) 0 true
  = Some (Z.of_N (Pos.of_uint d)).
Proof.
  induction d; cbn [NilEmpty.string_of_uint Pos.of_uint];
    [reflexivity| ..]; cbn [int_digits]; eval_digit;
    first [ exact IHd | apply int_digits_acc ].
Qed.

Lemma int_digits_first (d : Decimal.uint) :
  d <> Decimal.Nil ->
  int_digits (NilEmpty.string_of_uint d) 0 false
  = Some (Z.of_N (Pos.of_uint d)).
Proof.
  intros Hd. destruct d; [contradiction| ..];
    cbn [NilEmpty.string_of_uint Pos.of_uint int_digits]; eval_digit;
    first [ apply int_digits_uint | apply int_digits_acc ].
Qed.

(** The characters of [str(n)] are digits and, for a negative number, a
    leading minus sign. *)
Lemma has_char_cons (c x : ascii) (s : string) :
  has_char c (String x s) = Ascii.eqb x c || has_char c s.
Proof. reflexivity. Qed.

Lemma uint_chars (c : ascii) (d : Decimal.uint) :
  has_char c (NilEmpty.string_of_uint d) = true -> digit_value c <> None.
Proof.
  induction d; cbn [NilEmpty.string_of_uint];
    [discriminate| ..];
    rewrite has_char_cons;
    match goal with
    | |- (Ascii.eqb ?x c || _) = true -> _ =>
        destruct (Ascii.eqb_spec x c) as [<-|Hx];
          [intros _; vm_compute; discriminate | exact IHd]
    end.
Qed.

Lemma str_of_Z_chars (c : ascii) (n : Z) :
  has_char c (str_of_Z n) = true ->
  digit_value c <> None \/ (c = "-"%char /\ n < 0).
Proof.
  unfold str_of_Z, NilZero.string_of_int, NilZero.string_of_uint.
  destruct n as [|p|p]; cbn [Z.to_int].
  - change (has_char c (String "0" EmptyString) = true ->
            digit_value c <> None \/ c = "-"%char /\ 0 < 0).
    rewrite has_char_cons.
    destruct (Ascii.eqb_spec "0" c) as [<-|Hx]; [|discriminate].
    intros _. left. vm_compute. discriminate.
  - pose proof (Unsigned.to_uint_nonnil p) as Hn.
    destruct (Pos.to_uint p) eqn:E; [contradiction| ..];
      rewrite <- E; intros H; left; apply (uint_chars c _ H).
  - pose proof (Unsigned.to_uint_nonnil p) as Hn.
    rewrite has_char_cons.
    destruct (Ascii.eqb_spec "-" c) as [<-|Hx].
    + intros _. right. split; [reflexivity | lia].
    + cbn [orb]. intros H. left.
      destruct (Pos.to_uint p) eqn:E; [contradiction| ..];
        rewrite <- E in H; apply (uint_chars c _ H).
Qed.

Lemma str_of_Z_nonempty (n : Z) : str_of_Z n <> EmptyString.
Proof.
  unfold str_of_Z, NilZero.string_of_int, NilZero.string_of_uint.
  destruct n as [|p|p]; cbn [Z.to_int]; try discriminate.
  pose proof (Unsigned.to_uint_nonnil p) as Hn.
  destruct (Pos.to_uint p); [contradiction| ..]; discriminate.
Qed.

Lemma has_char_absent (c : ascii) (n : Z) :
  digit_value c = None -> (c <> "-"%char \/ 0 <= n) ->
  has_char c (str_of_Z n) = false.
Proof.
  intros Hd Hc. destruct (has_char c (str_of_Z n)) eqn:E; [|reflexivity].
  destruct (str_of_Z_chars c n E) as [H|[H1 H2]];
    [contradiction | destruct Hc; [contradiction | lia]].
Qed.

Lemma no_space_by_chars (s : string) :
  (forall c, has_char c s = true -> is_space c = false) -> no_space s = true.
Proof.
  induction s as [|x s IH]; intros H; [reflexivity|].
  cbn [no_space]. rewrite (H x) by (cbn [has_char]; now rewrite Ascii.eqb_refl).
  cbn [negb andb]. apply IH. intros c Hc. apply H.
  cbn [has_char]. rewrite Hc. apply orb_true_r.
Qed.

Lemma digit_not_space (c : ascii) : digit_value c <> None -> is_space c = false.
Proof.
  unfold digit_value, is_space. cbv zeta.
  destruct (Z.leb_spec 48 (code_point c));
    destruct (Z.leb_spec (code_point c) 57); cbn [andb];
    try congruence.
  intros _.
  destruct (Z.leb_spec 9 (code_point c));
    destruct (Z.leb_spec (code_point c) 13);
    destruct (Z.leb_spec 28 (code_point c));
    destruct (Z.leb_spec (code_point c) 32);
    destruct (Z.eqb_spec (code_point c) 133);
    destruct (Z.eqb_spec (code_point c) 160); cbn; first [reflexivity | lia].
Qed.

Lemma no_space_str_of_Z (n : Z) : no_space (str_of_Z n) = true.
Proof.
  apply no_space_by_chars. intros c Hc.
  destruct (str_of_Z_chars c n Hc) as [H|[-> _]];
    [apply digit_not_space; exact H | reflexivity].
Qed.

(** Stripping whitespace off a token. *)
Lemma lstrip_all_space (w s : string) :
  all_space w = true -> lstrip (w ++ s) = lstrip s.
Proof.
  induction w as [|c w IH]; intros Hw; [reflexivity|].
  cbn [all_space] in Hw. apply andb_prop in Hw as [Hc Hw].
  cbn [String.append lstrip]. rewrite Hc. apply IH. exact Hw.
Qed.

Lemma rstrip_all_space (w : string) : all_space w = true -> rstrip w = EmptyString.
Proof.
  induction w as [|c w IH]; intros Hw; [reflexivity|].
  cbn [all_space] in Hw. apply andb_prop in Hw as [Hc Hw].
  cbn [rstrip]. rewrite (IH Hw), Hc. reflexivity.
Qed.

Lemma rstrip_app_space (a w : string) :
  all_space w = true -> rstrip (a ++ w) = rstrip a.
Proof.
  intros Hw. induction a as [|c a IH].
  - cbn [String.append]. apply rstrip_all_space. exact Hw.
  - cbn [String.append rstrip]. rewrite IH. reflexivity.
Qed.

Lemma rstrip_no_space (a : string) : no_space a = true -> rstrip a = a.
Proof.
  induction a as [|c a IH]; intros Ha; [reflexivity|].
  cbn [no_space] in Ha. apply andb_prop in Ha as [Hc Ha].
  apply negb_true_iff in Hc.
  cbn [rstrip]. rewrite (IH Ha), Hc. destruct a; reflexivity.
Qed.

Lemma strip_token (w1 a w2 : string) :
  all_space w1 = true -> all_space w2 = true -> no_space a = true ->
  strip (w1 ++ a ++ w2) = a.
Proof.
  intros H1 H2 Ha. unfold strip. rewrite (lstrip_all_space w1 _ H1).
  destruct a as [|c a].
  - cbn [String.append].
    assert (Hl : lstrip w2 = EmptyString).
    { clear H1. induction w2 as [|x w2 IH]; [reflexivity|].
      cbn [all_space] in H2. apply andb_prop in H2 as [Hx H2].
      cbn [lstrip]. rewrite Hx. apply IH. exact H2. }
    rewrite Hl. reflexivity.
  - pose proof Ha as Ha'. cbn [no_space] in Ha'.
    apply andb_prop in Ha' as [Hc _]. apply negb_true_iff in Hc.
    cbn [String.append lstrip]. rewrite Hc.
    change (String c (a ++ w2)) with (String c a ++ w2).
    rewrite (rstrip_app_space _ _ H2). apply rstrip_no_space. exact Ha.
Qed.

Lemma append_nil_r (a : string) : a ++ EmptyString = a.
Proof.
  induction a as [|x a IH]; [reflexivity|]. cbn [String.append].
  now rewrite IH.
Qed.

(** The whitespace [int()] skips is whitespace for [strip] as well. *)
Lemma int_space_is_space (c : ascii) :
  is_int_space c = true -> is_space c = true.
Proof.
  unfold is_int_space, is_space. cbv zeta. intros H.
  apply orb_prop in H as [H|H]; [|rewrite H; apply orb_true_r].
  apply orb_prop in H as [H|H];
    [|rewrite H, orb_true_r; apply orb_true_l].
  apply orb_prop in H as [H|H]; [rewrite H; reflexivity|].
  apply Z.eqb_eq in H. rewrite H. reflexivity.
Qed.

Lemma not_space_not_int_space (c : ascii) :
  is_space c = false -> is_int_space c = false.
Proof.
  intros H. destruct (is_int_space c) eqn:E; [|reflexivity].
  rewrite (int_space_is_space c E) in H. discriminate.
Qed.

Lemma int_lstrip_all_space (w s : string) :
  all_int_space w = true -> int_lstrip (w ++ s) = int_lstrip s.
Proof.
  induction w as [|c w IH]; intros Hw; [reflexivity|].
  cbn [all_int_space] in Hw. apply andb_prop in Hw as [Hc Hw].
  cbn [String.append int_lstrip]. rewrite Hc. apply IH. exact Hw.
Qed.

Lemma int_rstrip_all_space (w : string) :
  all_int_space w = true -> int_rstrip w = EmptyString.
Proof.
  induction w as [|c w IH]; intros Hw; [reflexivity|].
  cbn [all_int_space] in Hw. apply andb_prop in Hw as [Hc Hw].
  cbn [int_rstrip]. rewrite (IH Hw), Hc. reflexivity.
Qed.

Lemma int_rstrip_app_space (a w : string) :
  all_int_space w = true -> int_rstrip (a ++ w) = int_rstrip a.
Proof.
  intros Hw. induction a as [|c a IH].
  - cbn [String.append]. apply int_rstrip_all_space. exact Hw.
  - cbn [String.append int_rstrip]. rewrite IH. reflexivity.
Qed.

Lemma int_rstrip_no_space (a : string) :
  no_space a = true -> int_rstrip a = a.
Proof.
  induction a as [|c a IH]; intros Ha; [reflexivity|].
  cbn [no_space] in Ha. apply andb_prop in Ha as [Hc Ha].
  apply negb_true_iff, not_space_not_int_space in Hc.
  cbn [int_rstrip]. rewrite (IH Ha), Hc. destruct a; reflexivity.
Qed.

Lemma int_strip_token (w1 a w2 : string) :
  all_int_space w1 = true -> all_int_space w2 = true -> no_space a = true ->
  int_strip (w1 ++ a ++ w2) = a.
Proof.
  intros H1 H2 Ha. unfold int_strip. rewrite (int_lstrip_all_space w1 _ H1).
  destruct a as [|c a].
  - cbn [String.append].
    rewrite <- (append_nil_r w2), (int_lstrip_all_space w2 _ H2).
    reflexivity.
  - pose proof Ha as Ha'. cbn [no_space] in Ha'.
    apply andb_prop in Ha' as [Hc _].
    apply negb_true_iff, not_space_not_int_space in Hc.
    cbn [String.append int_lstrip]. rewrite Hc.
    change (String c (a ++ w2)) with (String c a ++ w2).
    rewrite (int_rstrip_app_space _ _ H2). apply int_rstrip_no_space.
    exact Ha.
Qed.

(** [int(str(n))] is [n], also with whitespace that [int()] skips around
    the text. *)
Lemma py_int_str (w1 w2 : string) (n : Z) :
  all_int_space w1 = true -> all_int_space w2 = true ->
  py_int (w1 ++ str_of_Z n ++ w2) = Ok n.
Proof.
  intros H1 H2. unfold py_int.
  rewrite (int_strip_token w1 (str_of_Z n) w2 H1 H2 (no_space_str_of_Z n)).
  unfold str_of_Z, NilZero.string_of_int, NilZero.string_of_uint.
  destruct n as [|p|p]; cbn [Z.to_int]; [reflexivity| |].
  - pose proof (Unsigned.to_uint_nonnil p) as Hn.
    pose proof (int_digits_first (Pos.to_uint p) Hn) as Hd.
    rewrite DecimalPos.Unsigned.of_to in Hd.
    destruct (Pos.to_uint p) eqn:E; [contradiction| ..];
      cbn [NilEmpty.string_of_uint] in Hd |- *; rewrite Hd; reflexivity.
  - pose proof (Unsigned.to_uint_nonnil p) as Hn.
    pose proof (int_digits_first (Pos.to_uint p) Hn) as Hd.
    rewrite DecimalPos.Unsigned.of_to in Hd.
    destruct (Pos.to_uint p) eqn:E; [contradiction| ..];
      cbn [NilEmpty.string_of_uint] in Hd |- *; rewrite Hd; reflexivity.
Qed.

(** Splitting at a separator whose first character does not occur
    before it. *)
Lemma split_from_nochar (c0 : ascii) (sep' a x : string) :
  has_char c0 a = false ->
  split_from (String c0 sep') 0 (a ++ x)
  = (a ++ fst (split_from (String c0 sep') 0 x),
     snd (split_from (String c0 sep') 0 x)).
Proof.
  intros Ha. induction a as [|y a IH].
  - cbn [String.append]. destruct (split_from (String c0 sep') 0 x).
    reflexivity.
  - rewrite has_char_cons in Ha. apply orb_false_iff in Ha as [Hy Ha].
    cbn [String.append split_from startswith].
    rewrite Ascii.eqb_sym, Hy. cbn [andb].
    rewrite (IH Ha). reflexivity.
Qed.

Lemma split_from_char (c : ascii) (y : string) :
  split_from (String c EmptyString) 0 (String c y)
  = (EmptyString, split (String c EmptyString) y).
Proof.
  cbn [split_from startswith String.length Nat.sub].
  rewrite Ascii.eqb_refl. cbn [andb]. unfold split.
  destruct (split_from (String c EmptyString) 0 y). reflexivity.
Qed.

Lemma split_from_client_port (y : string) :
  split_from "client_port=" 0 ("client_port=" ++ y)
  = (EmptyString, split "client_port=" y).
Proof.
  cbn. unfold split. destruct (split_from "client_port=" 0 y). reflexivity.
Qed.

Lemma all_int_space_has_char (c : ascii) (w : string) :
  is_int_space c = false -> all_int_space w = true -> has_char c w = false.
Proof.
  intros Hc. induction w as [|x w IH]; intros Hw; [reflexivity|].
  cbn [all_int_space] in Hw. apply andb_prop in Hw as [Hx Hw].
  rewrite has_char_cons, (IH Hw), orb_false_r.
  apply Ascii.eqb_neq. intros ->. congruence.
Qed.

Lemma all_space_has_char (c : ascii) (w : string) :
  is_space c = false -> all_space w = true -> has_char c w = false.
Proof.
  intros Hc. induction w as [|x w IH]; intros Hw; [reflexivity|].
  cbn [all_space] in Hw. apply andb_prop in Hw as [Hx Hw].
  rewrite has_char_cons, (IH Hw), orb_false_r.
  apply Ascii.eqb_neq. intros ->. congruence.
Qed.

Lemma append_empty (a : string) : a ++ EmptyString = a.
Proof.
  induction a as [|x a IH]; [reflexivity|]. cbn. now rewrite IH.
Qed.

Lemma split_from_absent (c0 : ascii) (sep' a : string) :
  has_char c0 a = false ->
  split_from (String c0 sep') 0 a = (a, []).
Proof.
  intros Ha. rewrite <- (append_empty a) at 1.
  rewrite (split_from_nochar c0 sep' a EmptyString Ha).
  cbn [split_from fst snd]. rewrite append_empty. reflexivity.
Qed.

Lemma startswith_app (p s : string) : startswith p (p ++ s) = true.
Proof.
  induction p as [|x p IH]; [destruct s; reflexivity|].
  cbn [String.append startswith]. rewrite Ascii.eqb_refl. exact IH.
Qed.

Lemma contains_app (sep a b : string) : contains sep (a ++ sep ++ b) = true.
Proof.
  induction a as [|x a IH].
  - cbn [String.append]. destruct (sep ++ b) as [|y t] eqn:E.
    + destruct sep; [reflexivity | discriminate].
    + cbn [contains]. rewrite <- E, startswith_app. reflexivity.
  - cbn [String.append contains]. rewrite IH. apply orb_true_r.
Qed.

(** The port text [handle_setup] reads off a Transport line, for a port
    written as a number, alone or as the first of a range. *)
Lemma port_text (head tail : string) (n : Z) :
  has_char "c" head = false -> 0 <= n ->
  (all_int_space tail = true \/ exists rest, tail = "-" ++ rest) ->
  py_int (item (split "-"
                  (item (split "client_port="
                           (head ++ "client_port=" ++ str_of_Z n ++ tail)) 1))
               0)
  = Ok n.
Proof.
  intros Hh Hn Ht.
  assert (Hc : has_char "c" (str_of_Z n) = false)
    by (apply has_char_absent; [reflexivity | left; discriminate]).
  assert (Hm : has_char "-" (str_of_Z n) = false)
    by (apply has_char_absent; [reflexivity | right; exact Hn]).
  unfold split at 2.
  rewrite (split_from_nochar "c" "lient_port=" head _ Hh).
  rewrite split_from_client_port. cbn [fst snd item nth].
  unfold split at 2.
  rewrite (split_from_nochar "c" "lient_port=" (str_of_Z n) tail Hc).
  cbn [item nth].
  unfold split.
  rewrite (split_from_nochar "-" EmptyString (str_of_Z n) _ Hm).
  cbn [item nth].
  destruct Ht as [Hw|[rest ->]].
  - rewrite (split_from_absent "c" "lient_port=" tail)
      by (apply all_int_space_has_char; [reflexivity | exact Hw]).
    cbn [fst].
    rewrite (split_from_absent "-" EmptyString tail)
      by (apply all_int_space_has_char; [reflexivity | exact Hw]).
    cbn [fst].
    apply (py_int_str EmptyString tail n eq_refl Hw).
  - change ("-" ++ rest) with (String "-" EmptyString ++ rest).
    rewrite (split_from_nochar "c" "lient_port=" "-" rest eq_refl).
    cbn [fst String.append].
    rewrite split_from_char. cbn [fst].
    apply (py_int_str EmptyString EmptyString n eq_refl eq_refl).
Qed.

End TextFacts.

(** ** SETUP with a numeric client port *)

Module SetupPort.
Import RTSPServer ClientSession ResponseText SessionFacts TextFacts.
Local Open Scope string_scope.
Local Open Scope Z_scope.

(** X20. When the first request line that mentions [client_port=] gives
    the port as a non-negative decimal number, followed by nothing but
    whitespace that [int()] skips or by a hyphen and the rest of a range
    [n-m], a SETUP for an existing resource that opens is answered 200
    with [client_port=n-(n+1)] and the fixed server ports in the
    Transport header, and the session is READY with client port [n]. *)
Theorem setup_numeric_port (w : World) (url path : string) (s : t)
        (pre post : list string) (head tail : string) (n : Z) :
  resolve_video w url = Some path ->
  video_opens w path = true -> socket_opens w = true ->
  (forall l, In l pre -> contains "client_port=" l = false) ->
  has_char "c" head = false -> 0 <= n ->
  (all_int_space tail = true \/ exists rest, tail = "-" ++ rest) ->
  let line := head ++ "client_port=" ++ str_of_Z n ++ tail in
  let r := handle_setup w url (pre ++ line :: post)%list s in
  response_status (snd r) = "200" /\
  header_value "Transport" (snd r)
    = Some ("RTP/UDP;client_port=" ++ str_of_Z n ++ "-" ++ str_of_Z (n + 1)
            ++ ";server_port=25000-25001") /\
  client_rtp_port (fst r) = Some n /\
  state (fst r) = READY.
Proof.
  intros Hres Hv Hs Hpre Hh Hn Ht line r. subst line r.
  unfold handle_setup, handle_setup_body.
  rewrite Hres.
  rewrite (client_port_of_first 25000 pre _ post Hpre (contains_app _ _ _)).
  rewrite (port_text head tail n Hh Hn Ht), Hv, Hs. cbn [negb fst snd].
  match goal with
  | |- response_status (setup_response ?b ?p) = _ /\ _ =>
      destruct (read_setup_response b p) as (Hst & _ & _ & Htr)
  end.
  split; [exact Hst|].
  split; [rewrite Htr; reflexivity|].
  split; reflexivity.
Qed.

Lemma setup_numeric_port_witness :
  let line := "Transport: RTP/UDP;" ++ "client_port=" ++ str_of_Z 6000
              ++ "-6001" in
  let r := handle_setup (sample_world 100) "rtsp://localhost:8554/movie.mjpeg"
             (["SETUP rtsp://localhost:8554/movie.mjpeg RTSP/1.0"; "CSeq: 1"]
                ++ line :: [])%list init in
  response_status (snd r) = "200" /\
  header_value "Transport" (snd r)
    = Some ("RTP/UDP;client_port=" ++ str_of_Z 6000 ++ "-"
            ++ str_of_Z (6000 + 1) ++ ";server_port=25000-25001") /\
  client_rtp_port (fst r) = Some 6000 /\
  state (fst r) = READY.
Proof.
  apply (setup_numeric_port (sample_world 100)
           "rtsp://localhost:8554/movie.mjpeg" "videos/movie.mjpeg" init
           ["SETUP rtsp://localhost:8554/movie.mjpeg RTSP/1.0"; "CSeq: 1"] []
           "Transport: RTP/UDP;" "-6001" 6000).
  - vm_compute. reflexivity.
  - reflexivity.
  - reflexivity.
  - intros l [<-|[<-|[]]]; vm_compute; reflexivity.
  - vm_compute. reflexivity.
  - lia.
  - right. exists "6001". reflexivity.
Defined.

End SetupPort.

(** ** The client *)

Module ClientFacts.
Import RTSPClient.
Local Open Scope string_scope.
Local Open Scope Z_scope.

Lemma bind_ok (bindable : Z -> bool) (port : Z) :
  socket_bind bindable port = BindOk ->
  0 <= port <= 65535 /\ bindable port = true.
Proof.
  unfold socket_bind.
  destruct (Z.leb_spec 0 port), (Z.leb_spec port 65535); cbn [andb];
    try discriminate.
  destruct (bindable port); [intros _; split; [lia | reflexivity]
                            | discriminate].
Qed.

Lemma bind_error (bindable : Z -> bool) (port : Z) :
  socket_bind bindable port = BindError ->
  0 <= port <= 65535 /\ bindable port = false.
Proof.
  unfold socket_bind.
  destruct (Z.leb_spec 0 port), (Z.leb_spec port 65535); cbn [andb];
    try discriminate.
  destruct (bindable port); [discriminate
                            | intros _; split; [lia | reflexivity]].
Qed.

Lemma bind_overflow (bindable : Z -> bool) (port : Z) :
  socket_bind bindable port = BindOverflow <-> ~ (0 <= port <= 65535).
Proof.
  unfold socket_bind.
  destruct (Z.leb_spec 0 port), (Z.leb_spec port 65535); cbn [andb];
    try (split; [intros _; lia | reflexivity]).
  destruct (bindable port); split; try discriminate; intros Hout; lia.
Qed.

Lemma first_bindable_spec (bindable : Z -> bool) (count : nat) :
  forall port,
    match first_bindable bindable port count with
    | Returned (Some p) =>
        port <= p < port + Z.of_nat count /\ socket_bind bindable p = BindOk /\
        forall q, port <= q < p -> socket_bind bindable q = BindError
    | Returned None =>
        forall q, port <= q < port + Z.of_nat count ->
                  socket_bind bindable q = BindError
    | Overflowed =>
        exists p,
          port <= p < port + Z.of_nat count /\
          socket_bind bindable p = BindOverflow /\
          forall q, port <= q < p -> socket_bind bindable q = BindError
    end.
Proof.
  induction count as [|k IH]; intros port.
  - cbn. intros q Hq. lia.
  - cbn [first_bindable]. destruct (socket_bind bindable port) eqn:Hb.
    + split; [lia|]. split; [exact Hb|]. intros q Hq. lia.
    + specialize (IH (port + 1)).
      destruct (first_bindable bindable (port + 1) k) as [[p|]|].
      * destruct IH as (Hr & Hp & Hmin). split; [lia|]. split; [exact Hp|].
        intros q Hq. destruct (Z.eq_dec q port) as [->|Hne];
          [exact Hb | apply Hmin; lia].
      * intros q Hq. destruct (Z.eq_dec q port) as [->|Hne];
          [exact Hb | apply IH; lia].
      * destruct IH as (p & Hr & Hp & Hmin). exists p.
        split; [lia|]. split; [exact Hp|].
        intros q Hq. destruct (Z.eq_dec q port) as [->|Hne];
          [exact Hb | apply Hmin; lia].
    + exists port. split; [lia|]. split; [exact Hb|]. intros q Hq. lia.
Qed.

(** What [get_available_port] returns, and when it raises. *)
Lemma get_available_port_cases (bindable : Z -> bool) (start_port : Z) :
  match get_available_port bindable start_port with
  | Returned port =>
      start_port <= port < start_port + 100 /\
      (forall q, start_port <= q < port -> socket_bind bindable q = BindError) /\
      (socket_bind bindable port = BindOk \/
       (port = start_port /\
        forall q, start_port <= q < start_port + 100 ->
                  socket_bind bindable q = BindError))
  | Overflowed =>
      exists p,
        start_port <= p < start_port + 100 /\ ~ (0 <= p <= 65535) /\
        forall q, start_port <= q < p -> socket_bind bindable q = BindError
  end.
Proof.
  unfold get_available_port.
  pose proof (first_bindable_spec bindable 100 start_port) as H.
  change (Z.of_nat 100) with 100 in H.
  destruct (first_bindable bindable start_port 100) as [[p|]|].
  - destruct H as (Hr & Hp & Hmin).
    split; [exact Hr|]. split; [exact Hmin|]. left. exact Hp.
  - split; [lia|]. split; [intros q Hq; lia|]. right.
    split; [reflexivity | exact H].
  - destruct H as (p & Hr & Hp & Hmin). exists p.
    split; [exact Hr|].
    split; [exact (proj1 (bind_overflow _ _) Hp) | exact Hmin].
Qed.

(** X21. [get_available_port] tries the hundred ports from [start_port]
    on, in order.  It returns the first one that can be bound, every port
    before it being in range and taken; if all hundred are in range and
    taken it returns [start_port] itself; and it raises [OverflowError]
    exactly when it comes to a port outside 0..65535 before finding a free
    one, which cannot happen when the hundred ports lie in 0..65535. *)
Theorem get_available_port_spec (bindable : Z -> bool) (start_port : Z) :
  match get_available_port bindable start_port with
  | Returned port =>
      start_port <= port < start_port + 100 /\
      (forall q, start_port <= q < port -> socket_bind bindable q = BindError) /\
      (socket_bind bindable port = BindOk \/
       (port = start_port /\
        forall q, start_port <= q < start_port + 100 ->
                  socket_bind bindable q = BindError))
  | Overflowed =>
      exists p,
        start_port <= p < start_port + 100 /\ ~ (0 <= p <= 65535) /\
        forall q, start_port <= q < p -> socket_bind bindable q = BindError
  end /\
  ((exists p,
      start_port <= p < start_port + 100 /\ ~ (0 <= p <= 65535) /\
      forall q, start_port <= q < p -> socket_bind bindable q = BindError) ->
   get_available_port bindable start_port = Overflowed) /\
  (0 <= start_port -> start_port + 99 <= 65535 ->
   get_available_port bindable start_port <> Overflowed).
Proof.
  pose proof (get_available_port_cases bindable start_port) as H.
  split; [exact H|]. split.
  - intros (p & Hr & Hout & Hbefore).
    destruct (get_available_port bindable start_port) as [port|];
      [|reflexivity].
    destruct H as (Hp & Hmin & Hend). exfalso.
    destruct (Z.lt_trichotomy p port) as [Hlt|[->|Hgt]].
    + destruct (bind_error _ _ (Hmin p ltac:(lia))) as [Hin _]. lia.
    + destruct Hend as [Hok|[_ Hall]].
      * destruct (bind_ok _ _ Hok) as [Hin _]. lia.
      * destruct (bind_error _ _ (Hall port Hr)) as [Hin _]. lia.
    + destruct Hend as [Hok|[_ Hall]].
      * rewrite (Hbefore port ltac:(lia)) in Hok. discriminate.
      * destruct (bind_error _ _ (Hall p Hr)) as [Hin _]. lia.
  - intros H0 H99 Hov. rewrite Hov in H.
    destruct H as (p & Hr & Hout & _). lia.
Qed.

Lemma bind_retry_done (bindable : Z -> bool) (more : nat) :
  forall p port sock,
    bind_retry bindable p more = (port, sock, BindDone) ->
    sock = Bound port /\ socket_bind bindable port = BindOk /\ p <= port.
Proof.
  induction more as [|k IH]; intros p port sock H;
    cbn [bind_retry] in H; destruct (socket_bind bindable p) eqn:Hb;
    try discriminate H;
    try (injection H as <- <-; split; [reflexivity|];
         split; [exact Hb | lia]);
    pose proof (get_available_port_cases bindable (p + 1)) as Hg;
    destruct (get_available_port bindable (p + 1)) as [next|];
    try discriminate H.
  destruct Hg as (Hr & _). destruct (IH _ _ _ H) as (Hs & Hp & Hle).
  split; [exact Hs|]. split; [exact Hp | lia].
Qed.

Lemma bind_retry_first (bindable : Z -> bool) (more : nat) :
  forall p port sock,
    bind_retry bindable p more = (port, sock, BindGaveUp) ->
    socket_bind bindable p = BindError /\ sock = ClosedRtp.
Proof.
  induction more as [|k IH]; intros p port sock H;
    cbn [bind_retry] in H; destruct (socket_bind bindable p) eqn:Hb;
    try discriminate H;
    destruct (get_available_port bindable (p + 1)) as [next|];
    try discriminate H.
  - injection H as _ <-. split; reflexivity.
  - split; [reflexivity|]. apply (IH _ _ _ H).
Qed.

Lemma bind_retry_gave_up (bindable : Z -> bool) (k : nat) (p port : Z)
      (sock : RtpSocket) :
  bind_retry bindable p (S k) = (port, sock, BindGaveUp) ->
  sock = ClosedRtp /\
  forall q, p <= q < p + 101 -> socket_bind bindable q = BindError.
Proof.
  intros H. destruct (bind_retry_first bindable (S k) p port sock H)
    as [Hb Hs].
  split; [exact Hs|].
  cbn [bind_retry] in H. rewrite Hb in H.
  pose proof (get_available_port_cases bindable (p + 1)) as Hg.
  destruct (get_available_port bindable (p + 1)) as [next|];
    [|discriminate H].
  destruct (bind_retry_first bindable k next port sock H) as [Hn _].
  destruct Hg as (_ & _ & [Hok|[_ Hall]]); [congruence|].
  intros q Hq. destruct (Z.eq_dec q p) as [->|Hne];
    [exact Hb | apply Hall; lia].
Qed.

Lemma bind_retry_raised (bindable : Z -> bool) (more : nat) :
  forall p port sock,
    bind_retry bindable p more = (port, sock, BindRaised) ->
    (sock = Unbound \/ sock = ClosedRtp) /\
    exists q, p <= q <= p + 100 * (Z.of_nat more + 1) /\
              ~ (0 <= q <= 65535).
Proof.
  induction more as [|k IH]; intros p port sock H;
    cbn [bind_retry] in H; destruct (socket_bind bindable p) eqn:Hb;
    try discriminate H;
    try (injection H as _ <-; split; [left; reflexivity|];
         exists p; split; [lia | exact (proj1 (bind_overflow _ _) Hb)]);
    pose proof (get_available_port_cases bindable (p + 1)) as Hg;
    destruct (get_available_port bindable (p + 1)) as [next|];
    try discriminate H;
    try (injection H as _ <-; split; [right; reflexivity|];
         destruct Hg as (q & Hr & Hout & _); exists q;
         split; [lia | exact Hout]).
  destruct Hg as (Hr & _). destruct (IH _ _ _ H) as (Hs & q & Hq & Hout).
  split; [exact Hs|]. exists q. split; [lia | exact Hout].
Qed.

(** X22. The bind loop run after a SETUP reply (ten attempts) ends in one
    of three ways.  With the RTP socket bound, and then to a port in
    range that can be bound: to [rtp_port] itself when that is free,
    otherwise to a port above it.  Given up, with the socket closed, and
    then none of the 101 ports from [rtp_port] on can be bound.  Or with
    the [OverflowError] of a port outside 0..65535, the socket left
    unbound or closed, which cannot happen when [rtp_port] is between 0
    and 64535. *)
Theorem bind_retry_spec (bindable : Z -> bool) (p : Z) :
  let '(port, sock, ended) := bind_retry bindable p 9 in
  (socket_bind bindable p = BindOk ->
   port = p /\ sock = Bound p /\ ended = BindDone) /\
  (ended = BindDone ->
   sock = Bound port /\ socket_bind bindable port = BindOk /\ p <= port) /\
  (ended = BindGaveUp ->
   sock = ClosedRtp /\
   forall q, p <= q < p + 101 -> socket_bind bindable q = BindError) /\
  (ended = BindRaised ->
   (sock = Unbound \/ sock = ClosedRtp) /\
   exists q, p <= q <= p + 1000 /\ ~ (0 <= q <= 65535)) /\
  (0 <= p <= 64535 -> ended <> BindRaised).
Proof.
  destruct (bind_retry bindable p 9) as [[port sock] ended] eqn:E.
  split; [|split; [|split; [|split]]].
  - intros Hb. cbn [bind_retry] in E. rewrite Hb in E.
    injection E as <- <- <-. repeat split.
  - intros ->. apply (bind_retry_done bindable 9 p port sock E).
  - intros ->. apply (bind_retry_gave_up bindable 8 p port sock E).
  - intros ->. apply (bind_retry_raised bindable 9 p port sock E).
  - intros Hp ->.
    destruct (bind_retry_raised bindable 9 p port sock E)
      as (_ & q & Hq & Hout).
    change (Z.of_nat 9) with 9 in Hq. lia.
Qed.

(** A datagram longer than the header is decoded, shown and counted. *)
Lemma listen_rtp_long (c : t) (data : bytes) :
  12 < len data ->
  listen_rtp_step c data
  = (set_frame_count (frame_count c + 1) c,
     Shown (skipn 12 data) (display_frame (skipn 12 data))) /\
  0 < len (skipn 12 data).
Proof.
  intros Hlen. unfold listen_rtp_step.
  assert (Hgt : (12 <? len data) = true) by (apply Z.ltb_lt; exact Hlen).
  rewrite Hgt. cbn [negb].
  assert (Hge : 12 <= len data) by lia.
  destruct (RTPPacketMore.long_buffer data Hge)
    as (a0 & a1 & a2 & a3 & a4 & a5 & a6 & a7 & a8 & a9 & a10 & a11
        & rest & ->).
  rewrite RTPPacketFacts.decode_as_decode_packet,
    RTPPacketMore.decode_packet_cons.
  cbn [RTPPacket.payload List.app skipn].
  assert (Hrest : 0 < len rest).
  { unfold len in *. rewrite length_app in Hlen. cbn [List.length] in Hlen.
    lia. }
  apply Z.ltb_lt in Hrest. rewrite Hrest.
  split; [reflexivity | apply Z.ltb_lt; exact Hrest].
Qed.

(** X23. A datagram of twelve bytes or fewer is ignored by the receive
    loop.  A longer one is always decoded and shown, with everything
    after the twelfth byte as the frame, and counted: for such a datagram
    decoding cannot fail and the payload cannot be empty, so the branches
    that report a decode error or an empty payload are never taken. *)
Theorem listen_rtp_step_spec (c : t) (data : bytes) :
  (len data <= 12 -> listen_rtp_step c data = (c, Ignored)) /\
  (12 < len data ->
   listen_rtp_step c data
   = (set_frame_count (frame_count c + 1) c,
      Shown (skipn 12 data) (display_frame (skipn 12 data))) /\
   0 < len (skipn 12 data)) /\
  snd (listen_rtp_step c data) <> EmptyPayload /\
  snd (listen_rtp_step c data) <> DecodeError.
Proof.
  split; [|split; [apply listen_rtp_long|]].
  - intros Hlen. unfold listen_rtp_step.
    assert (Hle : (12 <? len data) = false) by (apply Z.ltb_ge; exact Hlen).
    rewrite Hle. reflexivity.
  - destruct (Z.ltb_spec 12 (len data)) as [Hlt|Hge].
    + destruct (listen_rtp_long c data Hlt) as [-> _]. cbn [snd].
      split; discriminate.
    + unfold listen_rtp_step.
      assert (Hle : (12 <? len data) = false) by (apply Z.ltb_ge; exact Hge).
      rewrite Hle. cbn [negb snd]. split; discriminate.
Qed.

Lemma listen_rtp_step_spec_witness :
  let c := mk "127.0.0.1" 8554 25000 "movie.mjpeg" (Rtsp true) (Bound 25000)
              2 None (Some "PLAY") 0 7 true true in
  let long := [x80; x9a; x00; x00; x00; x00; x00; x0f; x00; x00; x00; x4d; xff] in
  let short := [x80; x9a; x00; x00; x00; x00; x00; x0f; x00; x00; x00; x4d] in
  (listen_rtp_step c short = (c, Ignored)) /\
  (listen_rtp_step c long
   = (set_frame_count (frame_count c + 1) c,
      Shown (skipn 12 long) (display_frame (skipn 12 long))) /\
   0 < len (skipn 12 long)).
Proof.
  cbv zeta. split.
  - apply (listen_rtp_step_spec _
             [x80; x9a; x00; x00; x00; x00; x00; x0f; x00; x00; x00; x4d]).
    vm_compute. discriminate.
  - apply (listen_rtp_step_spec _
             [x80; x9a; x00; x00; x00; x00; x00; x0f; x00; x00; x00; x4d; xff]).
    vm_compute. reflexivity.
Defined.

Lemma encode_shape (p : RTPPacket.t) (d : bytes) :
  RTPPacket.encode p = Ok d ->
  exists header,
    d = (header ++ RTPPacket.payload p)%list /\ List.length header = 12%nat.
Proof.
  unfold RTPPacket.encode, bind.
  destruct (struct_pack_BBHII _ _ _ _ _) as [header|] eqn:E; [|discriminate].
  intros H. exists header. split; [congruence|].
  apply (struct_pack_length _ _ _ _ _ _ E).
Qed.

(** X24. Every datagram the server's streaming loop sends is accepted by
    the client's receive loop: it is shown and counted, the frame handed
    to [display_frame] is the frame the server read, and it passes the
    size check there (it is turned down only if it does not begin with the
    JPEG marker). *)
Theorem sent_datagram_shown
        (iterations : list (option bytes * Z * bool))
        (stream : RTPVideoStream.t) (can_send : bool) (n : Z)
        (rs : option RTPVideoStream.t) (n' : Z) (sent : list bytes)
        (e : RTSPServer.StreamEnd) (c : t) (d : bytes) :
  0 <= RTPVideoStream.seq_num stream < 65536 ->
  RTSPServer.stream_video_loop (Some stream) can_send n iterations
    = (rs, n', sent, e) ->
  In d sent ->
  exists frame_data now90k,
    In (Some frame_data, now90k, true) iterations /\
    listen_rtp_step c d
    = (set_frame_count (frame_count c + 1) c,
       Shown frame_data (display_frame frame_data)) /\
    display_frame frame_data <> InvalidFrame.
Proof.
  intros Hs Hrun Hd.
  destruct (StreamFacts.stream_loop_sent iterations stream can_send n rs n'
              sent e Hs Hrun) as (_ & _ & Hsent).
  apply In_nth_error in Hd. destruct Hd as [i Hi].
  destruct (Hsent i d Hi) as (frame_data & now90k & Hin & Hok & Henc).
  assert (Hsq : 0 <= (RTPVideoStream.seq_num stream + Z.of_nat i) mod 65536
                < 65536) by (apply Z.mod_pos_bound; lia).
  pose proof (StreamFacts.created_in_range 1 _ _ _ _ d (or_intror eq_refl)
                Hsq Henc) as Hr.
  assert (Hd : exists header,
             d = (header ++ frame_data)%list /\ List.length header = 12%nat).
  { apply (encode_shape _ d Henc). }
  destruct Hd as (header & -> & Hh).
  unfold RTSPServer.frame_ok in Hok. apply negb_true_iff, Z.ltb_ge in Hok.
  assert (Hlen : 12 < len (header ++ frame_data)%list).
  { unfold len in *. rewrite length_app, Hh. lia. }
  destruct (listen_rtp_long c _ Hlen) as [Hstep _].
  assert (Hskip : skipn 12 (header ++ frame_data)%list = frame_data).
  { rewrite <- Hh. rewrite skipn_app, skipn_all, Nat.sub_diag. reflexivity. }
  rewrite Hskip in Hstep.
  exists frame_data, now90k. split; [exact Hin|]. split; [exact Hstep|].
  unfold display_frame. apply Z.ltb_ge in Hok. rewrite Hok.
  destruct frame_data as [|a [|b l]]; try discriminate.
  destruct a; try discriminate. destruct b; discriminate.
Qed.

Lemma sent_datagram_shown_witness :
  exists frame_data now90k,
    In (Some frame_data, now90k, true)
       [(None, 9, true); (Some (xff :: xd8 :: repeat x2a 100), 10, true)] /\
    listen_rtp_step
      (mk "127.0.0.1" 8554 25000 "movie.mjpeg" (Rtsp true) (Bound 25000)
          2 None (Some "PLAY") 0 7 true true)
      ([x80; x9a; x00; x00; x00; x00; x00; x0f; x00; x00; x00; x4d]
         ++ xff :: xd8 :: repeat x2a 100)%list
    = (set_frame_count (7 + 1)
         (mk "127.0.0.1" 8554 25000 "movie.mjpeg" (Rtsp true) (Bound 25000)
             2 None (Some "PLAY") 0 7 true true),
       Shown frame_data (display_frame frame_data)) /\
    display_frame frame_data <> InvalidFrame.
Proof.
  apply (sent_datagram_shown
           [(None, 9, true); (Some (xff :: xd8 :: repeat x2a 100), 10, true)]
           (RTPVideoStream.init (Some 77) 1 5) true 0
           (Some (RTPVideoStream.mk 77 1 5)) 1
           [([x80; x9a; x00; x00; x00; x00; x00; x0f; x00; x00; x00; x4d]
               ++ xff :: xd8 :: repeat x2a 100)%list]
           RTSPServer.StateChanged).
  - simpl. lia.
  - vm_compute. reflexivity.
  - left. reflexivity.
Defined.

End ClientFacts.

(** ** Client and server together *)

Module Interop.
Import RTSPServer ResponseText SessionFacts TextFacts.
Local Open Scope string_scope.
Local Open Scope Z_scope.

Lemma has_char_app (c : ascii) (a b : string) :
  has_char c (a ++ b) = has_char c a || has_char c b.
Proof.
  induction a as [|x a IH]; [reflexivity|].
  cbn [String.append]. rewrite !has_char_cons, IH. apply orb_assoc.
Qed.

Lemma no_space_app (a b : string) :
  no_space (a ++ b) = no_space a && no_space b.
Proof.
  induction a as [|x a IH]; [reflexivity|].
  cbn [String.append no_space]. rewrite IH. apply andb_assoc.
Qed.

Lemma no_space_has_char (c : ascii) (a : string) :
  is_space c = true -> no_space a = true -> has_char c a = false.
Proof.
  intros Hc. induction a as [|x a IH]; intros Ha; [reflexivity|].
  cbn [no_space] in Ha. apply andb_prop in Ha as [Hx Ha].
  rewrite has_char_cons, (IH Ha), orb_false_r.
  apply Ascii.eqb_neq. intros ->. rewrite Hc in Hx. discriminate.
Qed.

Lemma rstrip_nonempty (ch : ascii) (b : string) :
  is_space ch = false -> rstrip (String ch b) <> EmptyString.
Proof.
  intros Hc. cbn [rstrip]. destruct (rstrip b); [rewrite Hc|]; discriminate.
Qed.

Lemma rstrip_app_keep (a b : string) :
  rstrip b <> EmptyString -> rstrip (a ++ b) = a ++ rstrip b.
Proof.
  intros Hb. induction a as [|x a IH]; [reflexivity|].
  cbn [String.append rstrip]. rewrite IH.
  destruct (a ++ rstrip b) as [|y t] eqn:E; [|reflexivity].
  destruct a; [cbn in E; contradiction | discriminate E].
Qed.

Lemma split_ws_from_token (a s : string) :
  no_space a = true ->
  split_ws_from (a ++ s)
  = (a ++ fst (split_ws_from s), snd (split_ws_from s)).
Proof.
  induction a as [|x a IH]; intros Ha.
  - cbn [String.append]. destruct (split_ws_from s). reflexivity.
  - cbn [no_space] in Ha. apply andb_prop in Ha as [Hx Ha].
    apply negb_true_iff in Hx.
    cbn [String.append split_ws_from]. rewrite (IH Ha), Hx. reflexivity.
Qed.

Lemma split_lf_cons (a b : string) :
  has_char "010" a = false -> split LF (a ++ LF ++ b) = a :: split LF b.
Proof.
  intros Ha. unfold split at 1, LF.
  rewrite (split_from_nochar "010" EmptyString a _ Ha).
  cbn [String.append]. rewrite split_from_char. rewrite append_empty.
  reflexivity.
Qed.

(** Three tokens separated by single spaces, with a carriage return at
    the end. *)
Lemma split_ws_three (a b : string) :
  no_space a = true -> a <> EmptyString ->
  no_space b = true -> b <> EmptyString ->
  split_ws (a ++ " " ++ b ++ " RTSP/1.0" ++ CR) = [a; b; "RTSP/1.0"].
Proof.
  intros Ha Hane Hb Hbne. unfold split_ws.
  rewrite (split_ws_from_token a _ Ha).
  change (" " ++ b ++ " RTSP/1.0" ++ CR)
    with (String " " (b ++ " RTSP/1.0" ++ CR)).
  cbn [split_ws_from]. rewrite (split_ws_from_token b _ Hb).
  change (is_space " ") with true. cbv iota.
  change (split_ws_from (" RTSP/1.0" ++ CR))
    with (EmptyString, ["RTSP/1.0"]).
  cbn [fst snd]. rewrite !append_empty.
  destruct a; [contradiction|]. destruct b; [contradiction|]. reflexivity.
Qed.

(** How the server reads a request made of a request line, a CSeq header
    and one more header. *)
Lemma reads_request (code url last : string) (n : Z) :
  no_space code = true -> code <> EmptyString ->
  no_space url = true -> url <> EmptyString ->
  (exists ch rest, last = String ch rest /\ is_space ch = false) ->
  let text := code ++ " " ++ url ++ " RTSP/1.0" ++ CRLF
              ++ "CSeq: " ++ str_of_Z n ++ CRLF ++ last ++ CRLF ++ CRLF in
  split LF (strip text)
    = (code ++ " " ++ url ++ " RTSP/1.0" ++ CR)
        :: ("CSeq: " ++ str_of_Z n ++ CR)
        :: split LF (rstrip (last ++ CRLF ++ CRLF)) /\
  request_line text = [code; url; "RTSP/1.0"] /\
  cseq_of 0 (header_lines text) = Ok n.
Proof.
  intros Hc Hcne Hu Hune (ch & rest & -> & Hch) text.
  assert (Hlines : split LF (strip text)
            = (code ++ " " ++ url ++ " RTSP/1.0" ++ CR)
                :: ("CSeq: " ++ str_of_Z n ++ CR)
                :: split LF (rstrip (String ch rest ++ CRLF ++ CRLF))).
  { set (L0 := code ++ " " ++ url ++ " RTSP/1.0" ++ CR).
    set (L1 := "CSeq: " ++ str_of_Z n ++ CR).
    set (T := String ch rest ++ CRLF ++ CRLF).
    assert (Htext : text = (L0 ++ LF ++ L1 ++ LF) ++ T).
    { subst text L0 L1 T. rewrite !append_assoc. reflexivity. }
    assert (HL0 : has_char "010" L0 = false).
    { subst L0. rewrite !has_char_app.
      rewrite (no_space_has_char "010" code eq_refl Hc).
      rewrite (no_space_has_char "010" url eq_refl Hu). reflexivity. }
    assert (HL1 : has_char "010" L1 = false).
    { subst L1. rewrite !has_char_app.
      change (has_char "010" "CSeq: ") with false.
      change (has_char "010" CR) with false.
      rewrite orb_false_r. cbn [orb].
      apply has_char_absent; [reflexivity | left; discriminate]. }
    assert (HT : rstrip T <> EmptyString).
    { subst T. change (String ch rest ++ CRLF ++ CRLF)
        with (String ch (rest ++ CRLF ++ CRLF)).
      apply rstrip_nonempty. exact Hch. }
    unfold strip.
    assert (Hl : lstrip text = text).
    { subst text. destruct code as [|x code]; [contradiction|].
      cbn [no_space] in Hc. apply andb_prop in Hc as [Hx _].
      apply negb_true_iff in Hx. cbn [String.append lstrip].
      rewrite Hx. reflexivity. }
    rewrite Hl, Htext, (rstrip_app_keep _ _ HT).
    clearbody L0 L1 T. rewrite !append_assoc.
    rewrite (split_lf_cons L0 _ HL0), (split_lf_cons L1 _ HL1).
    reflexivity. }
  split; [exact Hlines|].
  unfold request_line, header_lines. rewrite Hlines.
  cbn [item nth tl]. split; [apply split_ws_three; assumption|].
  cbn [cseq_of].
  change (startswith "CSeq:" ("CSeq: " ++ str_of_Z n ++ CR)) with true.
  cbv iota.
  assert (Hsplit : split ":" ("CSeq: " ++ str_of_Z n ++ CR)
                   = ["CSeq"; " " ++ str_of_Z n ++ CR]).
  { change ("CSeq: " ++ str_of_Z n ++ CR)
      with ("CSeq" ++ ":" ++ (" " ++ str_of_Z n ++ CR)).
    unfold split.
    rewrite (split_from_nochar ":" EmptyString "CSeq" _ eq_refl).
    change (":" ++ " " ++ str_of_Z n ++ CR)
      with (String ":" (" " ++ str_of_Z n ++ CR)).
    rewrite split_from_char. unfold split.
    rewrite (split_from_absent ":" EmptyString (" " ++ str_of_Z n ++ CR)).
    - reflexivity.
    - rewrite !has_char_app.
      change (has_char ":" " ") with false.
      change (has_char ":" CR) with false.
      rewrite orb_false_r. cbn [orb].
      apply has_char_absent; [reflexivity | left; discriminate]. }
  rewrite Hsplit. cbn [item nth].
  rewrite (strip_token " " (str_of_Z n) CR eq_refl eq_refl
             (no_space_str_of_Z n)).
  pose proof (py_int_str EmptyString EmptyString n eq_refl eq_refl) as Hi.
  cbn [String.append] in Hi. rewrite append_empty in Hi. exact Hi.
Qed.

Lemma startswith_absent (c : ascii) (sub s : string) :
  has_char c sub = true -> has_char c s = false -> startswith sub s = false.
Proof.
  revert s. induction sub as [|a p IH]; intros s Hsub Hs; [discriminate|].
  destruct s as [|b s]; [reflexivity|].
  rewrite has_char_cons in Hsub, Hs. apply orb_false_iff in Hs as [Hb Hs].
  cbn [startswith].
  destruct (Ascii.eqb_spec a c) as [->|Hac].
  - rewrite Ascii.eqb_sym, Hb. reflexivity.
  - cbn [orb] in Hsub. rewrite (IH s Hsub Hs). apply andb_false_r.
Qed.

Lemma contains_absent (c : ascii) (sub s : string) :
  has_char c sub = true -> has_char c s = false -> contains sub s = false.
Proof.
  intros Hsub. induction s as [|b s IH]; intros Hs.
  - cbn [contains]. destruct sub; [discriminate | reflexivity].
  - cbn [contains]. rewrite (startswith_absent c sub _ Hsub Hs).
    rewrite has_char_cons in Hs. apply orb_false_iff in Hs as [_ Hs].
    exact (IH Hs).
Qed.

Lemma has_char_str_of_opt (c : ascii) (x : option Z) :
  digit_value c = None -> c <> "-"%char -> has_char c "None" = false ->
  has_char c (str_of_opt x) = false.
Proof.
  intros Hd Hm Hn. destruct x as [n|]; [|exact Hn].
  apply has_char_absent; [exact Hd | left; exact Hm].
Qed.

(** Goals [has_char c s = false] for [s] put together from literals,
    numbers and strings known to lack [c]. *)
Ltac no_char :=
  repeat rewrite has_char_app;
  repeat match goal with
    | |- (_ || _)%bool = false => apply orb_false_iff; split
    | |- has_char _ (str_of_Z _) = false =>
        apply has_char_absent; [reflexivity | left; discriminate]
    | |- has_char _ (str_of_opt _) = false =>
        apply has_char_str_of_opt; [reflexivity | discriminate | reflexivity]
    | |- has_char _ _ = false => first [assumption | reflexivity]
    end.

Lemma split_lf_crlf (a b : string) :
  has_char "010" a = false ->
  split LF (a ++ CRLF ++ b) = (a ++ CR) :: split LF b.
Proof.
  intros Ha.
  replace (a ++ CRLF ++ b) with ((a ++ CR) ++ LF ++ b)
    by (rewrite append_assoc; reflexivity).
  apply split_lf_cons. rewrite has_char_app, Ha. reflexivity.
Qed.

(** The text of a request, with its URL as one piece. *)
Lemma request_text_shape (c : RTSPClient.t) (code header : string) (n : Z) :
  RTSPClient.request_text c code n header
  = code ++ " "
    ++ ("rtsp://" ++ RTSPClient.server_addr c ++ ":"
        ++ str_of_Z (RTSPClient.server_port c) ++ "/" ++ RTSPClient.filename c)
    ++ " RTSP/1.0" ++ CRLF ++ "CSeq: " ++ str_of_Z n ++ CRLF
    ++ header ++ CRLF ++ CRLF.
Proof.
  unfold RTSPClient.request_text. rewrite !append_assoc. reflexivity.
Qed.

Lemma url_no_space (c : RTSPClient.t) :
  no_space (RTSPClient.server_addr c) = true ->
  no_space (RTSPClient.filename c) = true ->
  no_space ("rtsp://" ++ RTSPClient.server_addr c ++ ":"
            ++ str_of_Z (RTSPClient.server_port c) ++ "/"
            ++ RTSPClient.filename c) = true.
Proof.
  intros Ha Hf. rewrite !no_space_app, Ha, Hf, no_space_str_of_Z. reflexivity.
Qed.

(** What the server answers to a request it can read: the response
    carries the request's CSeq. *)
Lemma parse_echo (w : World) (request : string) (s : ClientSession.t)
      (cseq : Z) :
  3 <= len (request_line request) ->
  cseq_of 0 (header_lines request) = Ok cseq ->
  exists s' response,
    parse_rtsp_request w request s = (s', Ok response) /\
    ClientSession.seq_num s' = cseq /\
    header_value "CSeq" response = Some (str_of_Z cseq).
Proof.
  intros Hlen Hc. rewrite parse_rtsp_request_eq, Hc.
  destruct (Z.ltb_spec (len (request_line request)) 3) as [Hlt|_]; [lia|].
  destruct (dispatch_result w (item (request_line request) 0)
              (item (request_line request) 1) (split LF (strip request))
              cseq (ClientSession.set_seq_num cseq s) eq_refl)
    as [(s' & code & Hd & _ & Hs & _)
       |[(s' & Hd & Hs & _)|(s' & port & Hd & Hs & _)]];
    rewrite Hd.
  - exists s', (generate_response code cseq).
    split; [reflexivity|]. split; [exact Hs|].
    apply read_generate_response.
  - exists s', (session_response s').
    split; [reflexivity|]. split; [exact Hs|].
    rewrite <- Hs. apply read_session_response.
  - exists (ClientSession.set_state READY s'), (setup_response s' port).
    split; [reflexivity|]. split; [exact Hs|].
    rewrite <- Hs. apply read_setup_response.
Qed.

(** Encoding and decoding, and the read of a message that fits in the
    buffer. *)
Lemma utf8_decode_char (c : ascii) (rest : bytes) :
  utf8_decode (utf8_encode_char c ++ rest)%list
  = option_map (String c) (utf8_decode rest).
Proof.
  destruct c as [[] [] [] [] [] [] [] []]; reflexivity.
Qed.

Lemma utf8_round_trip (s : string) : utf8_decode (utf8_encode s) = Some s.
Proof.
  induction s as [|c s IH]; [reflexivity|].
  cbn [utf8_encode]. rewrite utf8_decode_char, IH. reflexivity.
Qed.

Lemma recv_whole (text : string) :
  len (utf8_encode text) <= 1024 ->
  recv_request (utf8_encode text) = Some text.
Proof.
  intros Hlen. unfold recv_request.
  rewrite firstn_all2 by (unfold len in Hlen; lia).
  apply utf8_round_trip.
Qed.

(** X25. A request the client sends on a connected socket is one the
    server can read, when the server address and the file name have no
    whitespace and the encoded request is no longer than the 1024 bytes
    the server reads at a time: the client's sequence number goes up by
    one, the server's read gives back the text sent, the request line
    splits into the method, the URL and the version, the CSeq the server
    reads is the client's new sequence number, and the response the
    server returns carries it. *)
Theorem request_understood (c : RTSPClient.t) (code : string) (w : World)
        (s : ClientSession.t) :
  RTSPClient.rtsp_socket c = RTSPClient.Rtsp true ->
  In code ["SETUP"; "PLAY"; "PAUSE"; "TEARDOWN"] ->
  no_space (RTSPClient.server_addr c) = true ->
  no_space (RTSPClient.filename c) = true ->
  match snd (RTSPClient.send_rtsp_request true c code) with
  | RTSPClient.Sent text => len (utf8_encode text) <= 1024
  | _ => True
  end ->
  exists c' text,
    RTSPClient.send_rtsp_request true c code = (c', RTSPClient.Sent text) /\
    RTSPClient.seq_num c' = RTSPClient.seq_num c + 1 /\
    RTSPClient.request_sent c' = Some code /\
    recv_request (utf8_encode text) = Some text /\
    request_line text
      = [code;
         "rtsp://" ++ RTSPClient.server_addr c ++ ":"
           ++ str_of_Z (RTSPClient.server_port c) ++ "/"
           ++ RTSPClient.filename c;
         "RTSP/1.0"] /\
    cseq_of 0 (header_lines text) = Ok (RTSPClient.seq_num c + 1) /\
    exists s' response,
      parse_rtsp_request w text s = (s', Ok response) /\
      ClientSession.seq_num s' = RTSPClient.seq_num c + 1 /\
      header_value "CSeq" response
        = Some (str_of_Z (RTSPClient.seq_num c + 1)).
Proof.
  intros Hsock Hcode Ha Hf Hfits.
  assert (Hshape : exists header ch rest,
            header = String ch rest /\ is_space ch = false /\
            RTSPClient.send_rtsp_request true c code
            = (RTSPClient.set_request_sent (Some code)
                 (RTSPClient.set_seq_num (RTSPClient.seq_num c + 1) c),
               RTSPClient.Sent
                 (RTSPClient.request_text c code (RTSPClient.seq_num c + 1)
                    header))).
  { unfold RTSPClient.send_rtsp_request. rewrite Hsock.
    destruct Hcode as [<-|[<-|[<-|[<-|[]]]]];
      [ exists ("Transport: RTP/UDP;client_port="
                ++ str_of_Z (RTSPClient.rtp_port c)), "T"%char,
               ("ransport: RTP/UDP;client_port="
                ++ str_of_Z (RTSPClient.rtp_port c))
      | exists ("Session: "
                ++ RTSPClient.str_of_session (RTSPClient.session_id c)),
               "S"%char,
               ("ession: "
                ++ RTSPClient.str_of_session (RTSPClient.session_id c)) ..];
      (split; [reflexivity|]); split; reflexivity. }
  destruct Hshape as (header & ch & rest & Hh & Hch & Hsend).
  rewrite Hsend in Hfits. cbn [snd] in Hfits.
  assert (Hcs : no_space code = true /\ code <> EmptyString).
  { destruct Hcode as [<-|[<-|[<-|[<-|[]]]]]; split;
      try reflexivity; discriminate. }
  destruct Hcs as [Hcs Hcne].
  destruct (reads_request code _ header (RTSPClient.seq_num c + 1)
              Hcs Hcne (url_no_space c Ha Hf) ltac:(discriminate)
              (ex_intro _ ch (ex_intro _ rest (conj Hh Hch))))
    as (_ & Hline & Hcseq).
  rewrite <- request_text_shape in Hline, Hcseq.
  eexists _, _. split; [exact Hsend|].
  split; [reflexivity|]. split; [reflexivity|].
  split; [exact (recv_whole _ Hfits)|].
  split; [exact Hline|]. split; [exact Hcseq|].
  apply parse_echo; [rewrite Hline; cbn; lia | exact Hcseq].
Qed.

Lemma request_understood_witness :
  let c := RTSPClient.mk "127.0.0.1" 8554 25000 "movie.mjpeg"
             (RTSPClient.Rtsp true) RTSPClient.NoRtp 4 (Some "100")
             (Some "SETUP") 0 0 false false in
  exists c' text,
    RTSPClient.send_rtsp_request true c "PLAY" = (c', RTSPClient.Sent text) /\
    RTSPClient.seq_num c' = RTSPClient.seq_num c + 1 /\
    RTSPClient.request_sent c' = Some "PLAY" /\
    recv_request (utf8_encode text) = Some text /\
    request_line text
      = ["PLAY";
         "rtsp://" ++ RTSPClient.server_addr c ++ ":"
           ++ str_of_Z (RTSPClient.server_port c) ++ "/"
           ++ RTSPClient.filename c;
         "RTSP/1.0"] /\
    cseq_of 0 (header_lines text) = Ok (RTSPClient.seq_num c + 1) /\
    exists s' response,
      parse_rtsp_request (sample_world 100) text ClientSession.init
        = (s', Ok response) /\
      ClientSession.seq_num s' = RTSPClient.seq_num c + 1 /\
      header_value "CSeq" response
        = Some (str_of_Z (RTSPClient.seq_num c + 1)).
Proof.
  cbv zeta.
  apply (request_understood
           (RTSPClient.mk "127.0.0.1" 8554 25000 "movie.mjpeg"
              (RTSPClient.Rtsp true) RTSPClient.NoRtp 4 (Some "100")
              (Some "SETUP") 0 0 false false)
           "PLAY" (sample_world 100) ClientSession.init).
  - reflexivity.
  - right. left. reflexivity.
  - reflexivity.
  - reflexivity.
  - vm_compute. discriminate.
Defined.

(** SETUP for a resource that opens, when the first line that mentions
    [client_port=] gives the port as a number. *)
Lemma handle_setup_numeric (w : World) (url path : string)
      (s : ClientSession.t) (pre post : list string) (head tail : string)
      (n : Z) :
  resolve_video w url = Some path ->
  video_opens w path = true -> socket_opens w = true ->
  (forall l, In l pre -> contains "client_port=" l = false) ->
  has_char "c" head = false -> 0 <= n ->
  (all_int_space tail = true \/ exists rest, tail = "-" ++ rest) ->
  let line := head ++ "client_port=" ++ str_of_Z n ++ tail in
  handle_setup w url (pre ++ line :: post)%list s
  = (ClientSession.set_state READY
       (ClientSession.set_rtp_socket (Some (mkSocket false))
          (setup_bound w path n s)),
     setup_response
       (ClientSession.set_rtp_socket (Some (mkSocket false))
          (setup_bound w path n s)) n).
Proof.
  intros Hres Hv Hs Hpre Hh Hn Ht line. subst line.
  unfold handle_setup, handle_setup_body.
  rewrite Hres.
  rewrite (client_port_of_first 25000 pre _ post Hpre (contains_app _ _ _)).
  rewrite (port_text head tail n Hh Hn Ht), Hv, Hs. reflexivity.
Qed.

(** X26. The server accepts the client's SETUP with the client's own RTP
    port: when the server address and the file name have neither
    whitespace nor an equals sign, the port is not negative, and the
    resource resolves and opens, the response to the request the client
    sends is 200, its Transport header names the client's port and the
    next one, its Session header is the token of the clock, and the
    session is READY and bound to the client's port. *)
Theorem client_setup_accepted (c : RTSPClient.t) (w : World)
        (s : ClientSession.t) (path : string) :
  RTSPClient.rtsp_socket c = RTSPClient.Rtsp true ->
  no_space (RTSPClient.server_addr c) = true ->
  no_space (RTSPClient.filename c) = true ->
  has_char "=" (RTSPClient.server_addr c) = false ->
  has_char "=" (RTSPClient.filename c) = false ->
  0 <= RTSPClient.rtp_port c ->
  resolve_video w ("rtsp://" ++ RTSPClient.server_addr c ++ ":"
                   ++ str_of_Z (RTSPClient.server_port c) ++ "/"
                   ++ RTSPClient.filename c) = Some path ->
  video_opens w path = true -> socket_opens w = true ->
  exists c' text s' response,
    RTSPClient.send_rtsp_request true c "SETUP" = (c', RTSPClient.Sent text) /\
    parse_rtsp_request w text s = (s', Ok response) /\
    response_status response = "200" /\
    header_value "CSeq" response
      = Some (str_of_Z (RTSPClient.seq_num c + 1)) /\
    header_value "Transport" response
      = Some ("RTP/UDP;client_port=" ++ str_of_Z (RTSPClient.rtp_port c)
              ++ "-" ++ str_of_Z (RTSPClient.rtp_port c + 1)
              ++ ";server_port=25000-25001") /\
    header_value "Session" response = Some (str_of_Z (time_session w)) /\
    ClientSession.state s' = READY /\
    ClientSession.client_rtp_port s' = Some (RTSPClient.rtp_port c) /\
    ClientSession.session_id s' = Some (time_session w).
Proof.
  intros Hsock Ha Hf Hae Hfe Hp Hres Hv Hs.
  set (url := "rtsp://" ++ RTSPClient.server_addr c ++ ":"
              ++ str_of_Z (RTSPClient.server_port c) ++ "/"
              ++ RTSPClient.filename c) in *.
  set (n := RTSPClient.seq_num c + 1).
  set (last := "Transport: RTP/UDP;client_port="
               ++ str_of_Z (RTSPClient.rtp_port c)).
  set (text := RTSPClient.request_text c "SETUP" n last).
  assert (Hsend : RTSPClient.send_rtsp_request true c "SETUP"
                  = (RTSPClient.set_request_sent (Some "SETUP")
                       (RTSPClient.set_seq_num n c),
                     RTSPClient.Sent text)).
  { unfold RTSPClient.send_rtsp_request. rewrite Hsock. reflexivity. }
  assert (Hun : no_space url = true) by (apply url_no_space; assumption).
  destruct (reads_request "SETUP" url last n eq_refl ltac:(discriminate)
              Hun ltac:(discriminate)
              (ex_intro _ "T"%char
                 (ex_intro _ ("ransport: RTP/UDP;client_port="
                              ++ str_of_Z (RTSPClient.rtp_port c))
                    (conj eq_refl eq_refl))))
    as (Hlines & Hline & Hcseq).
  assert (Htext : text = "SETUP" ++ " " ++ url ++ " RTSP/1.0" ++ CRLF
                         ++ "CSeq: " ++ str_of_Z n ++ CRLF ++ last ++ CRLF
                         ++ CRLF)
    by apply request_text_shape.
  rewrite <- Htext in Hlines, Hline, Hcseq.
  assert (Hlast : split LF (rstrip (last ++ CRLF ++ CRLF)) = [last]).
  { rewrite (rstrip_app_space last (CRLF ++ CRLF) eq_refl).
    assert (Hr : rstrip last = last).
    { unfold last at 1.
      rewrite rstrip_app_keep;
        rewrite (rstrip_no_space _ (no_space_str_of_Z _));
        [reflexivity | apply str_of_Z_nonempty]. }
    rewrite Hr. unfold split, LF.
    rewrite (split_from_absent "010" EmptyString last); [reflexivity|].
    unfold last. no_char. }
  rewrite Hlast in Hlines.
  assert (Hpre : forall l,
             In l ["SETUP" ++ " " ++ url ++ " RTSP/1.0" ++ CR;
                   "CSeq: " ++ str_of_Z n ++ CR] ->
             contains "client_port=" l = false).
  { intros l [<-|[<-|[]]]; apply (contains_absent "="); try reflexivity.
    - unfold url. no_char.
    - no_char. }
  assert (Hset := handle_setup_numeric w url path
                    (ClientSession.set_seq_num n s) _ []
                    "Transport: RTP/UDP;" EmptyString
                    (RTSPClient.rtp_port c) Hres Hv Hs Hpre eq_refl Hp
                    (or_introl eq_refl)).
  cbv zeta in Hset.
  assert (Hline3 : "Transport: RTP/UDP;" ++ "client_port="
                   ++ str_of_Z (RTSPClient.rtp_port c) ++ EmptyString = last).
  { rewrite append_empty. reflexivity. }
  rewrite Hline3 in Hset. cbn [List.app] in Hset.
  assert (Hparse : parse_rtsp_request w text s
            = (ClientSession.set_state READY
                 (ClientSession.set_rtp_socket (Some (mkSocket false))
                    (setup_bound w path (RTSPClient.rtp_port c)
                       (ClientSession.set_seq_num n s))),
               Ok (setup_response
                     (ClientSession.set_rtp_socket (Some (mkSocket false))
                        (setup_bound w path (RTSPClient.rtp_port c)
                           (ClientSession.set_seq_num n s)))
                     (RTSPClient.rtp_port c)))).
  { rewrite parse_rtsp_request_eq, Hcseq, Hline, Hlines.
    cbn [len List.length Z.of_nat item nth].
    unfold dispatch. cbn [String.eqb Ascii.eqb Bool.eqb].
    rewrite Hset. reflexivity. }
  eexists _, text, _, _.
  split; [exact Hsend|]. split; [exact Hparse|].
  match goal with
  | |- response_status (setup_response ?b ?p) = _ /\ _ =>
      destruct (read_setup_response b p) as (Hst & Hcs & Hse & Htr)
  end.
  split; [exact Hst|]. split; [exact Hcs|].
  split; [rewrite Htr; reflexivity|].
  split; [exact Hse|].
  split; [reflexivity|]. split; reflexivity.
Qed.

Lemma client_setup_accepted_witness :
  let c := RTSPClient.mk "127.0.0.1" 8554 25000 "movie.mjpeg"
             (RTSPClient.Rtsp true) RTSPClient.NoRtp 0 None None 0 0
             false false in
  let w := sample_world 100 in
  exists c' text s' response,
    RTSPClient.send_rtsp_request true c "SETUP" = (c', RTSPClient.Sent text) /\
    parse_rtsp_request w text ClientSession.init = (s', Ok response) /\
    response_status response = "200" /\
    header_value "CSeq" response
      = Some (str_of_Z (RTSPClient.seq_num c + 1)) /\
    header_value "Transport" response
      = Some ("RTP/UDP;client_port=" ++ str_of_Z (RTSPClient.rtp_port c)
              ++ "-" ++ str_of_Z (RTSPClient.rtp_port c + 1)
              ++ ";server_port=25000-25001") /\
    header_value "Session" response = Some (str_of_Z (time_session w)) /\
    ClientSession.state s' = READY /\
    ClientSession.client_rtp_port s' = Some (RTSPClient.rtp_port c) /\
    ClientSession.session_id s' = Some (time_session w).
Proof.
  cbv zeta.
  apply (client_setup_accepted
           (RTSPClient.mk "127.0.0.1" 8554 25000 "movie.mjpeg"
              (RTSPClient.Rtsp true) RTSPClient.NoRtp 0 None None 0 0
              false false)
           (sample_world 100) ClientSession.init "videos/movie.mjpeg").
  - reflexivity.
  - reflexivity.
  - reflexivity.
  - reflexivity.
  - reflexivity.
  - simpl. lia.
  - vm_compute. reflexivity.
  - reflexivity.
  - reflexivity.
Defined.

(** The lines the client cuts a SETUP response into: each keeps the
    carriage return that ended it. *)
Lemma reply_lines_setup (s : ClientSession.t) (p : Z) :
  split LF (setup_response s p)
  = [status_line OK ++ CR;
     ("CSeq: " ++ str_of_Z (ClientSession.seq_num s)) ++ CR;
     ("Transport: RTP/UDP;client_port=" ++ str_of_Z p ++ "-"
      ++ str_of_Z (p + 1) ++ ";server_port="
      ++ str_of_opt (ClientSession.server_rtp_port s) ++ "-"
      ++ str_of_opt (option_map (fun p => p + 1)
                       (ClientSession.server_rtp_port s))) ++ CR;
     ("Session: " ++ str_of_opt (ClientSession.session_id s)) ++ CR;
     CR; EmptyString].
Proof.
  rewrite setup_response_shape.
  rewrite split_lf_crlf by reflexivity.
  rewrite split_lf_crlf by no_char.
  rewrite split_lf_crlf by no_char.
  rewrite split_lf_crlf by no_char.
  rewrite split_lf_crlf by reflexivity.
  reflexivity.
Qed.

(** X27. The client reads the server's SETUP response: it takes the
    session id from the Session line together with the carriage return
    that ends the line, and then runs the bind loop from its own port,
    which leaves it with the port and socket of that loop; the call
    returns unless the loop ends with [OverflowError], and it always
    returns when the client's port is between 0 and 64535.  Sequence
    number and request state stay as they are. *)
Theorem setup_reply_read (bindable : Z -> bool) (c : RTSPClient.t)
        (s : ClientSession.t) (p : Z) :
  RTSPClient.request_sent c = Some "SETUP" ->
  let r := RTSPClient.parse_rtsp_reply bindable c (setup_response s p) in
  let '(port, sock, ended) :=
    RTSPClient.bind_retry bindable (RTSPClient.rtp_port c) 9 in
  RTSPClient.session_id (fst r)
    = Some (str_of_opt (ClientSession.session_id s) ++ CR) /\
  RTSPClient.rtp_port (fst r) = port /\
  RTSPClient.rtp_socket (fst r) = sock /\
  snd r = match ended with
          | RTSPClient.BindRaised => RTSPClient.OverflowError
          | _ => RTSPClient.Parsed
          end /\
  (0 <= RTSPClient.rtp_port c <= 64535 -> snd r = RTSPClient.Parsed) /\
  RTSPClient.seq_num (fst r) = RTSPClient.seq_num c /\
  RTSPClient.request_sent (fst r) = Some "SETUP".
Proof.
  intros Hsent r. subst r. unfold RTSPClient.parse_rtsp_reply.
  rewrite reply_lines_setup. cbn [item nth].
  change (split_ws (status_line OK ++ CR)) with ["RTSP/1.0"; "200"; "OK"].
  cbv iota. change (String.eqb "200" "200") with true. cbv iota.
  rewrite Hsent. change (String.eqb "SETUP" "SETUP") with true. cbv iota.
  assert (Hsess : RTSPClient.session_of
            [status_line OK ++ CR;
             ("CSeq: " ++ str_of_Z (ClientSession.seq_num s)) ++ CR;
             ("Transport: RTP/UDP;client_port=" ++ str_of_Z p ++ "-"
              ++ str_of_Z (p + 1) ++ ";server_port="
              ++ str_of_opt (ClientSession.server_rtp_port s) ++ "-"
              ++ str_of_opt (option_map (fun p => p + 1)
                               (ClientSession.server_rtp_port s))) ++ CR;
             ("Session: " ++ str_of_opt (ClientSession.session_id s)) ++ CR;
             CR; EmptyString]
          = Some (Some (str_of_opt (ClientSession.session_id s) ++ CR))).
  { cbn [RTSPClient.session_of].
    change (startswith "Session:" (status_line OK ++ CR)) with false.
    change (startswith "Session:"
              (("CSeq: " ++ str_of_Z (ClientSession.seq_num s)) ++ CR))
      with false.
    cbv iota.
    match goal with
    | |- context [startswith "Session:"
                    (("Transport: RTP/UDP;client_port=" ++ ?x) ++ CR)] =>
        change (startswith "Session:"
                  (("Transport: RTP/UDP;client_port=" ++ x) ++ CR))
          with false
    end.
    cbv iota.
    change (startswith "Session:"
              (("Session: " ++ str_of_opt (ClientSession.session_id s)) ++ CR))
      with true.
    cbv iota.
    replace (("Session: " ++ str_of_opt (ClientSession.session_id s)) ++ CR)
      with ("Session:" ++ " "
            ++ (str_of_opt (ClientSession.session_id s) ++ CR))
      by (rewrite append_assoc; reflexivity).
    unfold split.
    rewrite (split_from_nochar " " EmptyString "Session:" _ eq_refl).
    change (" " ++ str_of_opt (ClientSession.session_id s) ++ CR)
      with (String " " (str_of_opt (ClientSession.session_id s) ++ CR)).
    rewrite split_from_char. unfold split.
    rewrite (split_from_absent " " EmptyString
               (str_of_opt (ClientSession.session_id s) ++ CR))
      by no_char.
    reflexivity. }
  rewrite Hsess.
  change (RTSPClient.rtp_port
            (RTSPClient.set_session_id
               (Some (str_of_opt (ClientSession.session_id s) ++ CR)) c))
    with (RTSPClient.rtp_port c).
  pose proof (ClientFacts.bind_retry_raised bindable 9
                (RTSPClient.rtp_port c)) as Hraised.
  destruct (RTSPClient.bind_retry bindable (RTSPClient.rtp_port c) 9)
    as [[port sock] ended].
  cbn [fst snd]. split; [reflexivity|]. split; [reflexivity|].
  split; [reflexivity|]. split; [reflexivity|].
  split; [|split; [reflexivity | exact Hsent]].
  intros Hp. destruct ended; try reflexivity.
  destruct (Hraised port sock eq_refl) as (_ & q & Hq & Hout).
  change (Z.of_nat 9) with 9 in Hq. lia.
Qed.

Lemma setup_reply_read_witness :
  let c := RTSPClient.mk "127.0.0.1" 8554 25000 "movie.mjpeg"
             (RTSPClient.Rtsp true) RTSPClient.NoRtp 1 None (Some "SETUP")
             0 0 false false in
  let s := ClientSession.set_session_id (Some 123456)
             (ClientSession.set_server_rtp_port (Some 25000)
                (ClientSession.set_seq_num 1 ClientSession.init)) in
  let r := RTSPClient.parse_rtsp_reply (fun port => 25001 <=? port) c
             (setup_response s 25000) in
  let '(port, sock, ended) :=
    RTSPClient.bind_retry (fun port => 25001 <=? port)
      (RTSPClient.rtp_port c) 9 in
  RTSPClient.session_id (fst r)
    = Some (str_of_opt (ClientSession.session_id s) ++ CR) /\
  RTSPClient.rtp_port (fst r) = port /\
  RTSPClient.rtp_socket (fst r) = sock /\
  snd r = match ended with
          | RTSPClient.BindRaised => RTSPClient.OverflowError
          | _ => RTSPClient.Parsed
          end /\
  (0 <= RTSPClient.rtp_port c <= 64535 -> snd r = RTSPClient.Parsed) /\
  RTSPClient.seq_num (fst r) = RTSPClient.seq_num c /\
  RTSPClient.request_sent (fst r) = Some "SETUP".
Proof.
  cbv zeta.
  apply (setup_reply_read (fun port => 25001 <=? port)
           (RTSPClient.mk "127.0.0.1" 8554 25000 "movie.mjpeg"
              (RTSPClient.Rtsp true) RTSPClient.NoRtp 1 None (Some "SETUP")
              0 0 false false)
           (ClientSession.set_session_id (Some 123456)
              (ClientSession.set_server_rtp_port (Some 25000)
                 (ClientSession.set_seq_num 1 ClientSession.init)))
           25000).
  reflexivity.
Defined.

(** The first line of a response, as the client cuts it out. *)
Lemma first_line_generate (code : Code) (cseq : Z) :
  item (split LF (generate_response code cseq)) 0 = status_line code ++ CR.
Proof.
  rewrite generate_response_shape.
  rewrite split_lf_crlf by (destruct code; reflexivity). reflexivity.
Qed.

Lemma first_line_session (s : ClientSession.t) :
  item (split LF (session_response s)) 0 = status_line OK ++ CR.
Proof.
  rewrite session_response_shape.
  rewrite split_lf_crlf by reflexivity. reflexivity.
Qed.

(** A reply whose status is not 200 leaves the client as it is. *)
Lemma parse_reply_refused (bindable : Z -> bool) (c : RTSPClient.t)
      (reply : string) (code : Code) :
  item (split LF reply) 0 = status_line code ++ CR -> code <> OK ->
  RTSPClient.parse_rtsp_reply bindable c reply = (c, RTSPClient.Parsed).
Proof.
  intros Hfirst Hcode. unfold RTSPClient.parse_rtsp_reply. cbv zeta.
  rewrite Hfirst. destruct code; [contradiction | reflexivity | reflexivity].
Qed.

(** A 200 reply to a request other than SETUP. *)
Lemma parse_reply_accepted (bindable : Z -> bool) (c : RTSPClient.t)
      (reply sent : string) :
  item (split LF reply) 0 = status_line OK ++ CR ->
  RTSPClient.request_sent c = Some sent ->
  In sent ["PLAY"; "PAUSE"; "TEARDOWN"] ->
  RTSPClient.parse_rtsp_reply bindable c reply
  = (if String.eqb sent "PLAY"
     then RTSPClient.set_rtp_running true (RTSPClient.set_playing true c)
     else if String.eqb sent "PAUSE"
          then RTSPClient.set_rtp_running false
                 (RTSPClient.set_playing false c)
          else RTSPClient.set_teardown_acked 1 c,
     RTSPClient.Parsed).
Proof.
  intros Hfirst Hsent Hin. unfold RTSPClient.parse_rtsp_reply. cbv zeta.
  rewrite Hfirst, Hsent.
  change (split_ws (status_line OK ++ CR)) with ["RTSP/1.0"; "200"; "OK"].
  destruct Hin as [<-|[<-|[<-|[]]]]; reflexivity.
Qed.

(** What the client sends for PLAY, PAUSE or TEARDOWN, and how the server
    reads it. *)
Lemma session_request_read (c : RTSPClient.t) (code : string) (w : World)
      (s : ClientSession.t) :
  RTSPClient.rtsp_socket c = RTSPClient.Rtsp true ->
  In code ["PLAY"; "PAUSE"; "TEARDOWN"] ->
  no_space (RTSPClient.server_addr c) = true ->
  no_space (RTSPClient.filename c) = true ->
  exists text url lines,
    RTSPClient.send_rtsp_request true c code
    = (RTSPClient.set_request_sent (Some code)
         (RTSPClient.set_seq_num (RTSPClient.seq_num c + 1) c),
       RTSPClient.Sent text) /\
    parse_rtsp_request w text s
    = (let '(s', response) :=
         dispatch w code url lines (RTSPClient.seq_num c + 1)
           (ClientSession.set_seq_num (RTSPClient.seq_num c + 1) s) in
       (s', Ok response)).
Proof.
  intros Hsock Hcode Ha Hf.
  set (header := "Session: "
                 ++ RTSPClient.str_of_session (RTSPClient.session_id c)).
  assert (Hsend : RTSPClient.send_rtsp_request true c code
            = (RTSPClient.set_request_sent (Some code)
                 (RTSPClient.set_seq_num (RTSPClient.seq_num c + 1) c),
               RTSPClient.Sent
                 (RTSPClient.request_text c code (RTSPClient.seq_num c + 1)
                    header))).
  { unfold RTSPClient.send_rtsp_request. rewrite Hsock.
    destruct Hcode as [<-|[<-|[<-|[]]]]; reflexivity. }
  assert (Hcs : no_space code = true /\ code <> EmptyString).
  { destruct Hcode as [<-|[<-|[<-|[]]]]; split;
      try reflexivity; discriminate. }
  destruct Hcs as [Hcs Hcne].
  destruct (reads_request code _ header (RTSPClient.seq_num c + 1)
              Hcs Hcne (url_no_space c Ha Hf) ltac:(discriminate)
              (ex_intro _ "S"%char
                 (ex_intro _ ("ession: "
                              ++ RTSPClient.str_of_session
                                   (RTSPClient.session_id c))
                    (conj eq_refl eq_refl))))
    as (_ & Hline & Hcseq).
  rewrite <- request_text_shape in Hline, Hcseq.
  eexists _, _, _. split; [exact Hsend|].
  rewrite parse_rtsp_request_eq, Hcseq, Hline.
  cbn [len List.length Z.of_nat item nth]. reflexivity.
Qed.

(** X28. PLAY from the client, through the server and back.  On a session
    still in INIT (no SETUP yet) the server answers 500 and stays in INIT,
    and the client, reading that answer, does not start playing; on any
    other session the server answers 200 and is PLAYING, and the client,
    reading that answer, sets [playing] and starts its receive loop. *)
Theorem play_exchange (bindable : Z -> bool) (c : RTSPClient.t) (w : World)
        (s : ClientSession.t) :
  RTSPClient.rtsp_socket c = RTSPClient.Rtsp true ->
  no_space (RTSPClient.server_addr c) = true ->
  no_space (RTSPClient.filename c) = true ->
  exists c1 text s' response,
    RTSPClient.send_rtsp_request true c "PLAY" = (c1, RTSPClient.Sent text) /\
    parse_rtsp_request w text s = (s', Ok response) /\
    (ClientSession.state s = INIT ->
     response_status response = "500" /\
     ClientSession.state s' = INIT /\
     RTSPClient.parse_rtsp_reply bindable c1 response
       = (c1, RTSPClient.Parsed) /\
     RTSPClient.playing c1 = RTSPClient.playing c /\
     RTSPClient.rtp_running c1 = RTSPClient.rtp_running c) /\
    (ClientSession.state s <> INIT ->
     response_status response = "200" /\
     ClientSession.state s' = PLAYING /\
     RTSPClient.parse_rtsp_reply bindable c1 response
       = (RTSPClient.set_rtp_running true (RTSPClient.set_playing true c1),
          RTSPClient.Parsed)).
Proof.
  intros Hsock Ha Hf.
  destruct (session_request_read c "PLAY" w s Hsock (or_introl eq_refl) Ha Hf)
    as (text & url & lines & Hsend & Hparse).
  set (n := RTSPClient.seq_num c + 1) in *.
  change (dispatch w "PLAY" url lines n (ClientSession.set_seq_num n s))
    with (handle_play w (ClientSession.set_seq_num n s)) in Hparse.
  destruct (handle_play_result w (ClientSession.set_seq_num n s))
    as [[Hst Hp]|[Hst (s' & Hp & Hs' & _)]];
    rewrite Hp in Hparse; change (ClientSession.state s) with
      (ClientSession.state (ClientSession.set_seq_num n s)).
  - eexists _, text, _, _. split; [exact Hsend|]. split; [exact Hparse|].
    split; [|intros H; contradiction].
    intros _. split; [apply read_generate_response|].
    split; [exact Hst|].
    split; [|split; reflexivity].
    apply (parse_reply_refused _ _ _ CON_ERR);
      [apply first_line_generate | discriminate].
  - eexists _, text, _, _. split; [exact Hsend|]. split; [exact Hparse|].
    split; [intros H; contradiction|].
    intros _. split; [apply read_session_response|].
    split; [exact Hs'|].
    apply (parse_reply_accepted bindable _ _ "PLAY");
      [apply first_line_session | reflexivity | left; reflexivity].
Qed.

Lemma play_exchange_witness :
  let c := RTSPClient.mk "127.0.0.1" 8554 25000 "movie.mjpeg"
             (RTSPClient.Rtsp true) RTSPClient.NoRtp 0 None None 0 0
             false false in
  let s := ClientSession.init in
  exists c1 text s' response,
    RTSPClient.send_rtsp_request true c "PLAY" = (c1, RTSPClient.Sent text) /\
    parse_rtsp_request (sample_world 100) text s = (s', Ok response) /\
    (ClientSession.state s = INIT ->
     response_status response = "500" /\
     ClientSession.state s' = INIT /\
     RTSPClient.parse_rtsp_reply (fun _ => true) c1 response
       = (c1, RTSPClient.Parsed) /\
     RTSPClient.playing c1 = RTSPClient.playing c /\
     RTSPClient.rtp_running c1 = RTSPClient.rtp_running c) /\
    (ClientSession.state s <> INIT ->
     response_status response = "200" /\
     ClientSession.state s' = PLAYING /\
     RTSPClient.parse_rtsp_reply (fun _ => true) c1 response
       = (RTSPClient.set_rtp_running true (RTSPClient.set_playing true c1),
          RTSPClient.Parsed)).
Proof.
  cbv zeta.
  apply (play_exchange (fun _ => true)
           (RTSPClient.mk "127.0.0.1" 8554 25000 "movie.mjpeg"
              (RTSPClient.Rtsp true) RTSPClient.NoRtp 0 None None 0 0
              false false)
           (sample_world 100) ClientSession.init).
  - reflexivity.
  - reflexivity.
  - reflexivity.
Defined.

(** X29. PAUSE and TEARDOWN from the client, through the server and back:
    whatever state the session is in, the server answers 200, the session
    is READY after PAUSE and INIT after TEARDOWN, and the client, reading
    the answer, stops playing after PAUSE and records the acknowledgement
    after TEARDOWN. *)
Theorem pause_teardown_exchange (bindable : Z -> bool) (c : RTSPClient.t)
        (w : World) (s : ClientSession.t) (code : string) :
  RTSPClient.rtsp_socket c = RTSPClient.Rtsp true ->
  no_space (RTSPClient.server_addr c) = true ->
  no_space (RTSPClient.filename c) = true ->
  code = "PAUSE" \/ code = "TEARDOWN" ->
  exists c1 text s' response,
    RTSPClient.send_rtsp_request true c code = (c1, RTSPClient.Sent text) /\
    parse_rtsp_request w text s = (s', Ok response) /\
    response_status response = "200" /\
    header_value "Session" response
      = Some (str_of_opt (ClientSession.session_id s)) /\
    ClientSession.state s'
      = (if String.eqb code "PAUSE" then READY else INIT) /\
    RTSPClient.parse_rtsp_reply bindable c1 response
      = (if String.eqb code "PAUSE"
         then RTSPClient.set_rtp_running false
                (RTSPClient.set_playing false c1)
         else RTSPClient.set_teardown_acked 1 c1,
         RTSPClient.Parsed).
Proof.
  intros Hsock Ha Hf Hcode.
  assert (Hin : In code ["PLAY"; "PAUSE"; "TEARDOWN"])
    by (destruct Hcode as [->| ->]; [right; left | right; right; left];
        reflexivity).
  destruct (session_request_read c code w s Hsock Hin Ha Hf)
    as (text & url & lines & Hsend & Hparse).
  set (n := RTSPClient.seq_num c + 1) in *.
  assert (Hd : exists s',
             dispatch w code url lines n (ClientSession.set_seq_num n s)
             = (s', session_response s') /\
             ClientSession.state s'
             = (if String.eqb code "PAUSE" then READY else INIT) /\
             ClientSession.session_id s' = ClientSession.session_id s).
  { destruct Hcode as [->| ->].
    - destruct (handle_pause_result (ClientSession.set_seq_num n s))
        as (s' & Hp & Hst & _ & Hid).
      exists s'. split; [exact Hp|]. split; [exact Hst | exact Hid].
    - destruct (handle_teardown_result (ClientSession.set_seq_num n s))
        as (s' & Hp & Hst & _ & Hid).
      exists s'. split; [exact Hp|]. split; [exact Hst | exact Hid]. }
  destruct Hd as (s' & Hd & Hst & Hid). rewrite Hd in Hparse.
  eexists _, text, _, _. split; [exact Hsend|]. split; [exact Hparse|].
  split; [apply read_session_response|].
  split; [rewrite <- Hid; apply read_session_response|].
  split; [exact Hst|].
  rewrite (parse_reply_accepted bindable
             (RTSPClient.set_request_sent (Some code)
                (RTSPClient.set_seq_num n c))
             _ code (first_line_session s') eq_refl Hin).
  destruct Hcode as [->| ->]; reflexivity.
Qed.

Lemma pause_teardown_exchange_witness :
  let c := RTSPClient.mk "127.0.0.1" 8554 25000 "movie.mjpeg"
             (RTSPClient.Rtsp true) (RTSPClient.Bound 25000) 2
             (Some "100") (Some "PLAY") 0 5 true true in
  let s := ClientSession.set_state PLAYING
             (ClientSession.set_session_id (Some 100) ClientSession.init) in
  exists c1 text s' response,
    RTSPClient.send_rtsp_request true c "TEARDOWN"
      = (c1, RTSPClient.Sent text) /\
    parse_rtsp_request (sample_world 100) text s = (s', Ok response) /\
    response_status response = "200" /\
    header_value "Session" response
      = Some (str_of_opt (ClientSession.session_id s)) /\
    ClientSession.state s'
      = (if String.eqb "TEARDOWN" "PAUSE" then READY else INIT) /\
    RTSPClient.parse_rtsp_reply (fun _ => true) c1 response
      = (if String.eqb "TEARDOWN" "PAUSE"
         then RTSPClient.set_rtp_running false
                (RTSPClient.set_playing false c1)
         else RTSPClient.set_teardown_acked 1 c1,
         RTSPClient.Parsed).
Proof.
  cbv zeta.
  apply (pause_teardown_exchange (fun _ => true)
           (RTSPClient.mk "127.0.0.1" 8554 25000 "movie.mjpeg"
              (RTSPClient.Rtsp true) (RTSPClient.Bound 25000) 2
              (Some "100") (Some "PLAY") 0 5 true true)
           (sample_world 100)
           (ClientSession.set_state PLAYING
              (ClientSession.set_session_id (Some 100) ClientSession.init))
           "TEARDOWN").
  - reflexivity.
  - reflexivity.
  - reflexivity.
  - right. reflexivity.
Defined.

End Interop.
